(** * Stremio library exporter: a shallow embedding of the Python sources

    The development follows the three Python modules of the repository:

    - [MovieExtractor]  ([movie_extractor.py]):  [parse_library_data];
    - [AuthExtractor]   ([auth_extractor.py]):   [StremioAuthExtractor];
    - [LibraryImporter] ([library_importer.py]): [load_backup],
      [restore_library] and [main].

    Values are the Python objects that [json.load] and [response.json()]
    produce.  Python exceptions are results of an error monad; the logger,
    the network and the browser are threaded through an explicit state. *)

From Stdlib Require Import String Ascii List ZArith Lia Bool Arith PeanoNat.
Import ListNotations.
Open Scope string_scope.
Open Scope list_scope.
Set Warnings "-register-all".

(** ** Python values, exceptions and the primitives the sources use *)

Module Py.

(** Objects decoded from JSON.  A [dict] keeps its insertion order, which
    [dict.items()] exposes, so it is an association list; look-up takes the
    binding of a key.  JSON numbers are the integers: numbers with a
    fraction or an exponent are outside this model. *)
Inductive value : Type :=
| VNone
| VBool (b : bool)
| VInt (n : Z)
| VStr (s : string)
| VList (l : list value)
| VDict (d : list (string * value)).

(** Exceptions.  [ValueError] is the one the sources raise themselves, with
    the literal message of the [raise] statement.  [TypeError],
    [AttributeError] and [KeyError] are raised by the interpreter; their
    message text is not modelled.  [External] stands for what the
    collaborators raise (the operating system, [json], [requests],
    Playwright), with class name and message. *)
Inductive exn : Type :=
| ValueError (msg : string)
| TypeError
| AttributeError
| KeyError
| External (cls msg : string).

Inductive result (A : Type) : Type :=
| Ok (a : A)
| Raise (e : exn).
Arguments Ok {A} a.
Arguments Raise {A} e.

(** [str(e)]; the interpreter's own wording is not modelled. *)
Definition str_exn (e : exn) : string :=
  match e with
  | ValueError msg => msg
  | External _ msg => msg
  | TypeError | AttributeError | KeyError => EmptyString
  end.

(** *** The error monad of pure code *)

Definition rbind {A B} (r : result A) (k : A -> result B) : result B :=
  match r with
  | Ok a => k a
  | Raise e => Raise e
  end.

(** *** State and exceptions: [M S A] is a computation over a state [S] *)

Definition M (S A : Type) : Type := S -> result A * S.

Definition ret {S A} (a : A) : M S A := fun s => (Ok a, s).

Definition raise {S A} (e : exn) : M S A := fun s => (Raise e, s).

Definition bind {S A B} (m : M S A) (k : A -> M S B) : M S B :=
  fun s => match m s with
           | (Ok a, s') => k a s'
           | (Raise e, s') => (Raise e, s')
           end.

Definition lift {S A} (r : result A) : M S A := fun s => (r, s).

(** The classes that derive from [BaseException] without deriving from
    [Exception]: the interrupt of the process, the exit of the
    interpreter, the close of a generator and the cancellation of a task
    ([asyncio.CancelledError]). *)
Definition outside_Exception (cls : string) : bool :=
  String.eqb cls "KeyboardInterrupt" || String.eqb cls "SystemExit" ||
  String.eqb cls "GeneratorExit" || String.eqb cls "CancelledError".

(** [isinstance(e, Exception)] *)
Definition is_Exception (e : exn) : bool :=
  match e with
  | External cls _ => negb (outside_Exception cls)
  | ValueError _ | TypeError | AttributeError | KeyError => true
  end.

(** [try: body  except ...: handler e], for a handler that is given
    whatever the body raises: the bare [except:] of [_perform_login], and
    the typed clauses of [make_api_request], whose handler tells the
    classes apart and raises the others again.  What the body did to the
    state before it raised stays done.  It also stands for
    [except Exception as e] in [load_backup] and in a batch of
    [restore_library], whose calls (reading the file, the request) are
    taken to raise instances of [Exception]. *)
Definition try_except {S A} (body : M S A) (handler : exn -> M S A) : M S A :=
  fun s => match body s with
           | (Ok a, s') => (Ok a, s')
           | (Raise e, s') => handler e s'
           end.

(** [try: body  except Exception as e: handler e]: an exception that is no
    instance of [Exception] passes through. *)
Definition try_except_Exception {S A} (body : M S A) (handler : exn -> M S A)
  : M S A :=
  fun s => match body s with
           | (Ok a, s') => (Ok a, s')
           | (Raise e, s') =>
               if is_Exception e then handler e s' else (Raise e, s')
           end.

(** [try: body  finally: cleanup]. *)
Definition try_finally {S A} (body : M S A) (cleanup : M S unit) : M S A :=
  fun s => match body s with
           | (r, s') => match cleanup s' with
                        | (Ok _, s'') => (r, s'')
                        | (Raise e, s'') => (Raise e, s'')
                        end
           end.

Declare Scope py_scope.
Delimit Scope py_scope with py.
Notation "x <- c ;; k" := (bind c (fun x => k))
  (at level 61, c at next level, right associativity) : py_scope.
Notation "c ;;; k" := (bind c (fun _ => k))
  (at level 61, right associativity) : py_scope.
Notation "x <~ c ;; k" := (rbind c (fun x => k))
  (at level 61, c at next level, right associativity) : py_scope.

(** *** Dictionaries *)

Fixpoint dict_get (k : string) (d : list (string * value)) : option value :=
  match d with
  | [] => None
  | (k', v) :: d' => if String.eqb k k' then Some v else dict_get k d'
  end.

Definition dict_mem (k : string) (d : list (string * value)) : bool :=
  match dict_get k d with
  | Some _ => true
  | None => false
  end.

(** *** Strings *)

(** [sub in s] on two strings. *)
Fixpoint str_contains (sub s : string) : bool :=
  prefix sub s ||
  match s with
  | EmptyString => false
  | String _ s' => str_contains sub s'
  end.

(** A string is held as its UTF-8 bytes; Python counts, slices and
    iterates code points.  A byte [10xxxxxx] continues the code point of
    the byte before it. *)
Definition is_continuation (c : ascii) : bool :=
  Nat.leb 128 (nat_of_ascii c) && Nat.ltb (nat_of_ascii c) 192.

Definition continues (s : string) : bool :=
  match s with
  | String c _ => is_continuation c
  | EmptyString => false
  end.

(** The code points of a string, each with its bytes. *)
Fixpoint code_points (s : string) : list string :=
  match s with
  | EmptyString => []
  | String c rest =>
      match code_points rest with
      | p :: ps =>
          if continues rest then String c p :: ps
          else String c EmptyString :: p :: ps
      | [] => [String c EmptyString]
      end
  end.

(** The characters of a string, as iteration produces them. *)
Definition str_chars (s : string) : list value := map VStr (code_points s).

(** *** Operators *)

(** [bool(v)], the test behind [if v] and [not v]. *)
Definition truthy (v : value) : bool :=
  match v with
  | VNone => false
  | VBool b => b
  | VInt n => negb (Z.eqb n 0)
  | VStr s => negb (String.eqb s EmptyString)
  | VList l => match l with [] => false | _ => true end
  | VDict d => match d with [] => false | _ => true end
  end.

(** [v == "s"] against a string literal. *)
Definition eq_str (v : value) (s : string) : bool :=
  match v with
  | VStr s' => String.eqb s' s
  | _ => false
  end.

(** [v == True]: [True] is the integer 1. *)
Definition eq_True (v : value) : bool :=
  match v with
  | VBool b => b
  | VInt n => Z.eqb n 1
  | _ => false
  end.

(** [isinstance(v, dict)] and [isinstance(v, list)]. *)
Definition is_dict (v : value) : bool :=
  match v with VDict _ => true | _ => false end.

Definition is_list (v : value) : bool :=
  match v with VList _ => true | _ => false end.

(** [x.get(k, default)]: only a dict has the method. *)
Definition py_get (x : value) (k : string) (default : value) : result value :=
  match x with
  | VDict d => Ok (match dict_get k d with Some v => v | None => default end)
  | _ => Raise AttributeError
  end.

(** ["k" in x]: key of a dict, element of a list, substring of a string. *)
Definition py_contains (k : string) (x : value) : result bool :=
  match x with
  | VDict d => Ok (dict_mem k d)
  | VList l => Ok (existsb (fun v => eq_str v k) l)
  | VStr s => Ok (str_contains k s)
  | VNone | VBool _ | VInt _ => Raise TypeError
  end.

(** [x["k"]] with a string subscript. *)
Definition py_getitem (x : value) (k : string) : result value :=
  match x with
  | VDict d => match dict_get k d with
               | Some v => Ok v
               | None => Raise KeyError
               end
  | _ => Raise TypeError
  end.

(** [x > 0]; a bool is the integer 0 or 1. *)
Definition py_gt0 (x : value) : result bool :=
  match x with
  | VInt n => Ok (Z.ltb 0 n)
  | VBool b => Ok b
  | _ => Raise TypeError
  end.

(** [iter(x)], everything a [for] loop over [x] visits. *)
Definition py_iter (x : value) : result (list value) :=
  match x with
  | VList l => Ok l
  | VDict d => Ok (map (fun kv => VStr (fst kv)) d)
  | VStr s => Ok (str_chars s)
  | VNone | VBool _ | VInt _ => Raise TypeError
  end.

(** [len(x)]. *)
Definition py_len (x : value) : result nat :=
  match x with
  | VList l => Ok (length l)
  | VDict d => Ok (length d)
  | VStr s => Ok (length (code_points s))
  | VNone | VBool _ | VInt _ => Raise TypeError
  end.

(** [x[i:j]] for [0 <= i <= j]: a slice is clamped to the sequence, never
    out of range.  A dict cannot be sliced (the exception is a [TypeError]
    up to Python 3.11 and a [KeyError] from 3.12 on; the model says
    [TypeError]). *)
Definition py_slice (x : value) (i j : nat) : result value :=
  match x with
  | VList l => Ok (VList (firstn (j - i) (skipn i l)))
  | VStr s =>
      Ok (VStr (String.concat EmptyString
                  (firstn (j - i) (skipn i (code_points s)))))
  | _ => Raise TypeError
  end.

(** [range(start, stop, step)] for a positive step: the indices are
    produced one at a time while they stay below [stop]. *)
Fixpoint range_from (fuel i stop step : nat) : list nat :=
  match fuel with
  | O => []
  | S fuel' =>
      if Nat.ltb i stop then i :: range_from fuel' (i + step) stop step else []
  end.

Definition py_range (start stop step : nat) : list nat :=
  range_from stop start stop step.

(** *** The logger *)

Inductive level : Type := INFO | WARNING | ERROR.

(** What an f-string interpolates. *)
Inductive log_arg : Type :=
| AInt (n : nat)
| AVal (v : value)
| AExn (e : exn).

(** One call of the logger: the level, the text of the f-string with [{}]
    for each interpolation, and the interpolated objects in order. *)
Record log_record : Type := Log {
  log_level : level;
  log_format : string;
  log_args : list log_arg
}.

End Py.

(** ** [movie_extractor.py] *)

Module MovieExtractor.
Import Py.
Local Open Scope py_scope.

(** The [logger] argument: the records written so far. *)
Definition logger : Type := list log_record.

Definition logger_info (fmt : string) (args : list log_arg) : M logger unit :=
  fun lg => (Ok tt, lg ++ [Log INFO fmt args]).

(** The dict literal bound to [movie_data]. *)
Definition movie_data (imdb_id name poster year item_type : value) : value :=
  VDict [("imdbID", imdb_id); ("Title", name); ("poster", poster);
         ("year", year); ("type", item_type)].

(** [state = item.get('state', {})] and
    [flagged_watched = state.get('timesWatched', 0)]. *)
Definition item_flagged_watched (item : value) : result value :=
  state <~ py_get item "state" (VDict []) ;;
  py_get state "timesWatched" (VInt 0).

(** [poster = item.get('poster')] and the fall-back on [item['meta']]. *)
Definition item_poster (item : value) : result value :=
  poster <~ py_get item "poster" VNone ;;
  if negb (truthy poster) then
    has_meta <~ py_contains "meta" item ;;
    if (has_meta : bool) then
      meta <~ py_getitem item "meta" ;;
      has_poster <~ py_contains "poster" meta ;;
      if (has_poster : bool) then
        meta' <~ py_getitem item "meta" ;;
        py_getitem meta' "poster"
      else Ok poster
    else Ok poster
  else Ok poster.

(** [year = item.get('year')] and the fall-back on [item['meta'].get]. *)
Definition item_year (item : value) : result value :=
  year <~ py_get item "year" VNone ;;
  if negb (truthy year) then
    has_meta <~ py_contains "meta" item ;;
    if (has_meta : bool) then
      meta <~ py_getitem item "meta" ;;
      py_get meta "year" VNone
    else Ok year
  else Ok year.

(** The body of the [for item in result] loop, on the two lists built so
    far.  [continue] leaves both as they are. *)
Definition process_item (item : value) (acc : list value * list value)
  : result (list value * list value) :=
  let '(watched_items, watchlist_items) := acc in
  imdb_id <~ py_get item "_id" (VStr EmptyString) ;;
  name <~ py_get item "name" (VStr EmptyString) ;;
  flagged_watched <~ item_flagged_watched item ;;
  poster <~ item_poster item ;;
  year <~ item_year item ;;
  item_type <~ py_get item "type" (VStr "movie") ;;
  if negb (truthy imdb_id) || negb (truthy name) then
    Ok (watched_items, watchlist_items)
  else
    let movie := movie_data imdb_id name poster year item_type in
    is_watched <~ py_gt0 flagged_watched ;;
    if (is_watched : bool) then Ok (watched_items ++ [movie], watchlist_items)
    else Ok (watched_items, watchlist_items ++ [movie]).

Fixpoint for_items (items : list value) (acc : list value * list value)
  : result (list value * list value) :=
  match items with
  | [] => Ok acc
  | item :: rest => acc' <~ process_item item acc ;; for_items rest acc'
  end.

Definition parse_library_data (api_response : value)
  : M logger (list value * list value) :=
  result <- lift (py_get api_response "result" (VList [])) ;;
  items <- lift (py_iter result) ;;
  out <- lift (for_items items ([], [])) ;;
  logger_info "Parsed {} watched items and {} watchlist items"
    [AInt (length (fst out)); AInt (length (snd out))] ;;;
  ret (fst out, snd out).

End MovieExtractor.

(** ** [auth_extractor.py] *)

Module AuthExtractor.
Import Py.
Local Open Scope py_scope.

(** The three launchers of the [browsers] table. *)
Inductive engine : Type := firefox | webkit | chromium.

(** [browsers.get(self.browser_type, playwright.chromium)] *)
Definition browsers_get (browser_type : string) : engine :=
  if String.eqb browser_type "firefox" then firefox
  else if String.eqb browser_type "webkit" then webkit
  else chromium.

(** Selectors contain double quotes: [tag[attr="v"]] and
    [tag:has-text("t")]. *)
Definition dquote : string := String (ascii_of_nat 34) EmptyString.

Definition selector_attr (tag attr v : string) : string :=
  String.append tag (String.append "[" (String.append attr (String.append "="
    (String.append dquote (String.append v (String.append dquote "]")))))).

Definition selector_has_text (tag t : string) : string :=
  String.append tag (String.append ":has-text(" (String.append dquote
    (String.append t (String.append dquote ")")))).

Section Playwright.

(** The browser side is a collaborator: an abstract world, with the
    Playwright calls the source makes as operations on it.  Each may raise
    (a time-out, a closed page). *)
Variables World Browser Page Element : Type.

Variable launch : engine -> bool -> World -> result Browser * World.
Variable new_page : Browser -> World -> result Page * World.
Variable browser_close : Browser -> World -> result unit * World.
Variable goto : Page -> string -> string -> World -> result unit * World.
Variable wait_for_selector :
  Page -> string -> option string -> option Z -> World -> result Element * World.
Variable query_selector : Page -> string -> World -> result (option Element) * World.
Variable click : Element -> World -> result unit * World.
Variable fill : Element -> value -> World -> result unit * World.
Variable wait_for_timeout : Page -> Z -> World -> result unit * World.
Variable wait_for_load_state : Page -> string -> World -> result unit * World.
(** [page.evaluate] of the script that copies [localStorage] into an
    object: the storage snapshot, keys in the order of [Object.keys]. *)
Variable evaluate_localStorage : Page -> World -> result (list (string * value)) * World.
(** [os.getenv] after [load_dotenv()]: a string, or [None]. *)
Variable getenv : string -> World -> value.

(** The state of a run: the world, the shared logger, and the record of
    every [launch] with the [headless] flag it was given. *)
Record state : Type := State {
  world : World;
  log : list log_record;
  launched : list (engine * bool)
}.

Definition call {A} (f : World -> result A * World) : M state A :=
  fun s => let (r, w) := f (world s) in (r, State w (log s) (launched s)).

Definition logger_log (lvl : level) (fmt : string) (args : list log_arg)
  : M state unit :=
  fun s => (Ok tt, State (world s) (log s ++ [Log lvl fmt args]) (launched s)).

(** The attributes of a [StremioAuthExtractor]; its logger is the shared
    one of the state. *)
Record StremioAuthExtractor : Type := Extractor {
  browser_type : string;
  email : value;
  password : value
}.

Definition _load_credentials (browser_type : string) : M state StremioAuthExtractor :=
  fun s =>
    let email := getenv "STREMIO_EMAIL" (world s) in
    let password := getenv "STREMIO_PASSWORD" (world s) in
    if negb (truthy email) || negb (truthy password) then
      (Raise (ValueError
         "Please set STREMIO_EMAIL and STREMIO_PASSWORD in your .env file"), s)
    else (Ok (Extractor browser_type email password), s).

Definition __init__ (browser_type : string) : M state StremioAuthExtractor :=
  _load_credentials browser_type.

(** [browser_launcher.launch(headless=...)]: the call of the collaborator,
    recorded with the launcher and the flag it was given. *)
Definition launcher_launch (browser_launcher : engine) (headless : bool)
  : M state Browser :=
  fun s =>
    let (r, w) := launch browser_launcher headless (world s) in
    (r, State w (log s) (launched s ++ [(browser_launcher, headless)])).

(** The [headless] argument is received, and [launch] is called with the
    literal [headless=True]. *)
Definition _launch_browser (self : StremioAuthExtractor) (headless : value)
  : M state Browser :=
  let browser_launcher := browsers_get (browser_type self) in
  launcher_launch browser_launcher true.

Definition _create_page (browser : Browser) : M state Page :=
  call (new_page browser).

Definition _fill_credentials (self : StremioAuthExtractor) (page : Page)
  : M state unit :=
  email_input <- call (wait_for_selector page (selector_attr "input" "placeholder" "E-mail") None None) ;;
  call (fill email_input (email self)) ;;;
  password_input <- call (wait_for_selector page (selector_attr "input" "placeholder" "Password") None None) ;;
  call (fill password_input (password self)).

(** The wait for the form to be hidden is under a bare [except:], which
    catches whatever the wait raises. *)
Definition _perform_login (self : StremioAuthExtractor) (page : Page)
  : M state unit :=
  login_button <- call (wait_for_selector page
                     (selector_has_text "div.form-button-vyqqj" "Log in") None None) ;;
  call (click login_button) ;;;
  call (wait_for_timeout page 2000%Z) ;;;
  _fill_credentials self page ;;;
  submit_button <- call (wait_for_selector page
                      (selector_has_text "div.form-button-vyqqj" "Log in") None None) ;;
  call (click submit_button) ;;;
  logger_log INFO "Waiting for login completion" [] ;;;
  try_except
    (call (wait_for_selector page (selector_has_text "div.form-button-vyqqj" "Log in")
             (Some "hidden") (Some 10000%Z)) ;;;
     logger_log INFO "Login form disappeared" [])
    (fun _ => logger_log WARNING
       "Login form might still be visible, checking for success indicators" []) ;;;
  call (wait_for_load_state page "networkidle").

Definition _navigate_and_login (self : StremioAuthExtractor) (page : Page)
  : M state unit :=
  logger_log INFO "Navigating to Stremio login page" [] ;;;
  call (goto page "https://web.stremio.com/#/intro?form=login" "networkidle") ;;;
  call (wait_for_selector page
          (String.append (selector_has_text "div" "Log in")
             (String.append ", " (selector_attr "a" "href*" "library"))) None (Some 30000%Z)) ;;;
  login <- call (query_selector page (selector_has_text "div" "Log in")) ;;
  match login with
  | Some _ =>
      logger_log INFO "Login required - proceeding with authentication" [] ;;;
      _perform_login self page
  | None => logger_log INFO "Already logged in" []
  end.

(** The scan [for key, value in storage_data.items()] with its [break];
    [profile_data] starts as [None]. *)
Fixpoint find_profile_data (items : list (string * value)) : M state value :=
  match items with
  | [] => ret VNone
  | (key, value) :: rest =>
      if is_dict value then
        has_auth <- lift (py_contains "auth" value) ;;
        if (has_auth : bool) then
          logger_log INFO "Found profile data" [] ;;; ret value
        else find_profile_data rest
      else find_profile_data rest
  end.

(** The checks that follow the scan, on what it left in [profile_data]. *)
Definition auth_key_of_profile (profile_data : value) : M state value :=
  if negb (truthy profile_data) then
    raise (ValueError "Could not find profile data in localStorage")
  else
    has_auth <- lift (py_contains "auth" profile_data) ;;
    if negb has_auth then
      raise (ValueError "No 'auth' field found in profile data")
    else
      auth_data <- lift (py_getitem profile_data "auth") ;;
      has_key <- lift (py_contains "key" auth_data) ;;
      if negb has_key then
        raise (ValueError "No 'key' field found in auth data")
      else
        auth_key <- lift (py_getitem auth_data "key") ;;
        logger_log INFO "Successfully extracted auth key" [] ;;;
        ret auth_key.

(** [_extract_auth_key_from_storage] from the snapshot on. *)
Definition auth_key_from_storage_data (storage_data : list (string * value))
  : M state value :=
  profile_data <- find_profile_data storage_data ;;
  auth_key_of_profile profile_data.

Definition _extract_auth_key_from_storage (page : Page) : M state value :=
  logger_log INFO "Extracting auth key from localStorage" [] ;;;
  call (wait_for_timeout page 3000%Z) ;;;
  storage_data <- call (evaluate_localStorage page) ;;
  auth_key_from_storage_data storage_data.

(** [extract_auth_key]; entering and leaving [async_playwright()] is not
    modelled. *)
Definition extract_auth_key (self : StremioAuthExtractor) (headless : value)
  : M state value :=
  browser <- _launch_browser self headless ;;
  try_finally
    (try_except_Exception
       (page <- _create_page browser ;;
        _navigate_and_login self page ;;;
        _extract_auth_key_from_storage page)
       (fun e =>
          logger_log ERROR "Auth extraction failed: {}" [AExn e] ;;;
          raise e))
    (call (browser_close browser)).

(** The module-level [extract_stremio_auth_key(headless, browser_type)]. *)
Definition extract_stremio_auth_key (headless : value) (browser_type : string)
  : M state value :=
  extractor <- __init__ browser_type ;;
  extract_auth_key extractor headless.

End Playwright.

Arguments State {World} world log launched.
Arguments world {World} s.
Arguments log {World} s.
Arguments launched {World} s.

End AuthExtractor.

(** ** [library_importer.py] *)

Module LibraryImporter.
Import Py.
Local Open Scope py_scope.

(** What goes over the network: the browser log-in behind
    [extract_stremio_auth_key], and one [requests.post] with the payload
    sent and what came back. *)
Inductive net_call : Type :=
| BrowserLogin (headless : value)
| HttpPost (url : string) (payload : value) (response : result value).

Definition batch_size : nat := 50.

Definition url : string := "https://api.strem.io/api/datastorePut".

Section Importer.

Variable World : Type.

(** [Path(p).exists()]. *)
Variable path_exists : string -> World -> bool.
(** [open(p)] followed by [json.load]: the decoded document, or what
    either of the two raised. *)
Variable read_json : string -> World -> result value.
(** [requests.post(url, json=payload, timeout=30)], then
    [raise_for_status()], then [response.json()]: the decoded body, or
    what any of the three raised. *)
Variable requests_post : string -> value -> World -> result value * World.
(** [extract_stremio_auth_key(headless=...)] of [auth_extractor]. *)
Variable extract_stremio_auth_key : value -> World -> result value * World.

Record state : Type := State {
  world : World;
  log : list log_record;
  calls : list net_call
}.

Definition logger_log (lvl : level) (fmt : string) (args : list log_arg)
  : M state unit :=
  fun s => (Ok tt, State (world s) (log s ++ [Log lvl fmt args]) (calls s)).

Definition post (u : string) (payload : value) : M state value :=
  fun s =>
    let (r, w) := requests_post u payload (world s) in
    (r, State w (log s) (calls s ++ [HttpPost u payload r])).

Definition login (headless : value) : M state value :=
  fun s =>
    let (r, w) := extract_stremio_auth_key headless (world s) in
    (r, State w (log s) (calls s ++ [BrowserLogin headless])).

Definition load_backup (filepath : string) : M state value :=
  try_except
    (data <- (fun s => (read_json filepath (world s), s)) ;;
     has_result <- (if is_dict data then lift (py_contains "result" data)
                    else ret false) ;;
     if (has_result : bool) then lift (py_getitem data "result")
     else if is_list data then ret data
     else raise (ValueError
            "Invalid backup format. Expected list or API response dict."))
    (fun e =>
       raise (ValueError (String.append "Failed to load backup: " (str_exn e)))).

(** [result.get("result") == "ok" or result.get("success") == True] *)
Definition acknowledged (result : value) : Py.result bool :=
  r <~ py_get result "result" VNone ;;
  if eq_str r "ok" then Ok true
  else
    s <~ py_get result "success" VNone ;;
    Ok (eq_True s).

(** One round of the loop [for i in range(0, total_items, batch_size)],
    on the [success_count] so far. *)
Definition restore_batch (auth_key items : value) (total_items i : nat)
    (success_count : nat) : M state nat :=
  batch <- lift (py_slice items i (i + batch_size)) ;;
  let payload := VDict [("authKey", auth_key);
                        ("collection", VStr "libraryItem");
                        ("changes", batch)] in
  try_except
    (result <- post url payload ;;
     ok <- lift (acknowledged result) ;;
     if (ok : bool) then
       n <- lift (py_len batch) ;;
       logger_log INFO "Restored items {}-{} of {}"
         [AInt (i + 1); AInt (Nat.min (i + n) total_items); AInt total_items] ;;;
       ret (success_count + n)
     else
       logger_log WARNING "Batch {} may have failed: {}"
         [AInt (i / batch_size + 1); AVal result] ;;;
       ret success_count)
    (fun e =>
       logger_log ERROR "Failed to restore batch starting at index {}: {}"
         [AInt i; AExn e] ;;;
       ret success_count).

Fixpoint for_batches (auth_key items : value) (total_items : nat)
    (indices : list nat) (success_count : nat) : M state nat :=
  match indices with
  | [] => ret success_count
  | i :: rest =>
      success_count' <- restore_batch auth_key items total_items i success_count ;;
      for_batches auth_key items total_items rest success_count'
  end.

Definition restore_library (auth_key items : value) : M state nat :=
  total_items <- lift (py_len items) ;;
  logger_log INFO "Starting restore of {} items..." [AInt total_items] ;;;
  for_batches auth_key items total_items
    (py_range 0 total_items batch_size) 0.

(** [main], from the parsed command line on: [backup_file] is
    [args.backup_file], and [Path.exists()] is taken to return.  The
    value is the exit code.  The two last messages open with the
    characters the source file holds there. *)
Definition main (backup_file : string) : M state Z :=
  found <- (fun s => (Ok (path_exists backup_file (world s)), s)) ;;
  if negb found then
    logger_log ERROR "Backup file not found: {}" [AVal (VStr backup_file)] ;;;
    ret 1%Z
  else
    try_except_Exception
      (logger_log INFO "Loading backup from {}..." [AVal (VStr backup_file)] ;;;
       items <- load_backup backup_file ;;
       n <- lift (py_len items) ;;
       logger_log INFO "Loaded {} items from backup" [AInt n] ;;;
       logger_log INFO "Keys needed! Logging in to Stremio..." [] ;;;
       auth_key <- login (VBool true) ;;
       logger_log INFO "Authentication successful" [] ;;;
       restored <- restore_library auth_key items ;;
       n' <- lift (py_len items) ;;
       logger_log INFO "üéâ Restore completed! Successfully restored {}/{} items."
         [AInt restored; AInt n'] ;;;
       ret 0%Z)
      (fun e =>
         logger_log ERROR "‚ùå Restore failed: {}" [AExn e] ;;;
         ret 1%Z).

End Importer.

Arguments State {World} world log calls.
Arguments world {World} s.
Arguments log {World} s.
Arguments calls {World} s.

End LibraryImporter.

(** ** [auth_extractor.py]: the command line *)

Module AuthCli.
Import Py AuthExtractor.
Local Open Scope py_scope.

Definition newline : string := String (ascii_of_nat 10) EmptyString.

(** The [choices] of the option [--browser]. *)
Definition choices : list string := ["chromium"; "firefox"; "webkit"].

(** [parser.parse_args()], on the value given to [--browser], if any.
    The option defaults to [chromium]; on a value that is none of the
    choices argparse prints its usage and raises [SystemExit(2)].  The
    rest of the command line is not modelled. *)
Definition parse_args (browser_option : option string) : result string :=
  match browser_option with
  | None => Ok "chromium"
  | Some browser =>
      if existsb (String.eqb browser) choices then Ok browser
      else Raise (External "SystemExit" "2")
  end.

Section Cli.

Variables World Browser Page Element : Type.
Variable launch : engine -> bool -> World -> result Browser * World.
Variable new_page : Browser -> World -> result Page * World.
Variable browser_close : Browser -> World -> result unit * World.
Variable goto : Page -> string -> string -> World -> result unit * World.
Variable wait_for_selector :
  Page -> string -> option string -> option Z -> World -> result Element * World.
Variable query_selector : Page -> string -> World -> result (option Element) * World.
Variable click : Element -> World -> result unit * World.
Variable fill : Element -> value -> World -> result unit * World.
Variable wait_for_timeout : Page -> Z -> World -> result unit * World.
Variable wait_for_load_state : Page -> string -> World -> result unit * World.
Variable evaluate_localStorage : Page -> World -> result (list (string * value)) * World.
Variable getenv : string -> World -> value.
(** [print] of an f-string: the text with [{}] for each interpolation,
    and the interpolated objects. *)
Variable print : string -> list log_arg -> World -> result unit * World.

(** [main], on the value given to [--browser]; the value is the exit
    code.  The arguments are parsed before the [try]. *)
Definition main (browser_option : option string) : M (state World) Z :=
  args_browser <- lift (parse_args browser_option) ;;
  try_except_Exception
    (logger_log World INFO "Starting Stremio auth key extraction" [] ;;;
     extractor <- __init__ World getenv args_browser ;;
     auth_key <- extract_auth_key World Browser Page Element launch new_page
                   browser_close goto wait_for_selector query_selector click
                   fill wait_for_timeout wait_for_load_state
                   evaluate_localStorage extractor (VBool true) ;;
     logger_log World INFO "✅ Successfully extracted auth key: {}"
       [AVal auth_key] ;;;
     call World (print (String.append newline "Auth Key: {}") [AVal auth_key]) ;;;
     ret 0%Z)
    (fun e =>
       logger_log World ERROR "❌ Auth extraction failed: {}" [AExn e] ;;;
       ret 1%Z).

End Cli.

End AuthCli.

(** ** [movie_extractor.py]: the request, the files and [main] *)

Module LibraryExport.
Import Py MovieExtractor.
Local Open Scope py_scope.

Definition url : string := "https://api.strem.io/api/datastoreGet".

(** The [payload] and [headers] literals of [make_api_request]. *)
Definition payload_of (auth_key : value) : value :=
  VDict [("all", VBool true); ("authKey", auth_key);
         ("collection", VStr "libraryItem")].

Definition headers : value :=
  VDict [("Content-Type", VStr "application/json");
         ("User-Agent",
          VStr "Mozilla/5.0 (Windows NT 10.0; Win64; x64) AppleWebKit/537.36")].

(** The [fieldnames] of the CSV writer. *)
Definition fieldnames : list string :=
  ["imdbID"; "Title"; "year"; "type"; "poster"].

(** *** Paths *)

(** [dir / name] *)
Definition path_join (dir name : string) : string :=
  String.append dir (String.append "/" name).

(** [name.rfind('.')] *)
Fixpoint rfind_dot (name : string) : option nat :=
  match name with
  | EmptyString => None
  | String c rest =>
      match rfind_dot rest with
      | Some i => Some (S i)
      | None => if Ascii.eqb c "."%char then Some 0 else None
      end
  end.

(** [Path.suffix] of a file name: from the last dot on, when that dot is
    neither the first nor the last character; otherwise empty. *)
Definition path_suffix (name : string) : string :=
  match rfind_dot name with
  | Some i =>
      if Nat.ltb 0 i && Nat.ltb i (String.length name - 1)
      then substring i (String.length name - i) name
      else EmptyString
  | None => EmptyString
  end.

(** *** Collaborators and state *)

(** The calls a run makes to the outside, in order. *)
Inductive io_call : Type :=
| AuthKeyExtraction (headless : value)
| HttpPost (u : string) (payload hdrs : value) (response : result value)
| Mkdir (path : string)
| OpenForWriting (path : string)
| WriteRow (path : string) (row : list value)
| CloseFile (path : string)
| GenerateHtml (watched_items watchlist_items : list value) (output_path : string)
| JsonDump (path : string) (data : value)
| ZipOpen (path : string)
| Glob (dir pattern : string)
| ZipWrite (archive file arcname : string)
| PathExists (path : string)
| ZipClose (path : string)
| WebbrowserOpen (path : string).

Section ExportRun.

Variable World : Type.

(** [extract_stremio_auth_key(headless=...)] of [auth_extractor]. *)
Variable extract_stremio_auth_key : value -> World -> result value * World.
(** [requests.post(url, json=payload, headers=headers, timeout=30)], then
    [raise_for_status()], then [response.json()]. *)
Variable requests_post : string -> value -> value -> World -> result value * World.
(** The classes that are [requests.exceptions.RequestException], and
    those that are [json.JSONDecodeError]. *)
Variable request_exception_class : string -> bool.
Variable json_decode_error_class : string -> bool.
(** [output_dir.mkdir(exist_ok=True)] *)
Variable mkdir : string -> World -> result unit * World.
(** [datetime.now().strftime("%Y%m%d_%H%M%S")] *)
Variable now : World -> string.
(** [open(filename, 'w', ...)], a row handed to the CSV writer, and the
    close at the end of the [with]. *)
Variable open_w : string -> World -> result unit * World.
Variable write_row : string -> list value -> World -> result unit * World.
Variable close_file : string -> World -> result unit * World.
(** [generate_html] of [html_generator]. *)
Variable generate_html :
  list value -> list value -> string -> World -> result bool * World.
(** [open(filename, 'w')] with [json.dump(data, f, indent=2)] in it. *)
Variable json_dump : string -> value -> World -> result unit * World.
(** [zipfile.ZipFile(name, 'w', ZIP_DEFLATED)], its [write] and its close;
    [output_dir.glob(pattern)], as the file names it yields;
    [Path.exists()]. *)
Variable zip_open : string -> World -> result unit * World.
Variable glob : string -> string -> World -> result (list string) * World.
Variable zip_write : string -> string -> string -> World -> result unit * World.
Variable path_exists : string -> World -> bool.
Variable zip_close : string -> World -> result unit * World.
(** [webbrowser.open(uri)] *)
Variable webbrowser_open : string -> World -> result unit * World.

Record state : Type := State {
  world : World;
  log : list log_record;
  events : list io_call
}.

(** A call of a collaborator, recorded. *)
Definition io {A} (ev : io_call) (f : World -> result A * World) : M state A :=
  fun s => let (r, w) := f (world s) in (r, State w (log s) (events s ++ [ev])).

Definition logger_log (lvl : level) (fmt : string) (args : list log_arg)
  : M state unit :=
  fun s => (Ok tt, State (world s) (log s ++ [Log lvl fmt args]) (events s)).

(** [isinstance(e, requests.exceptions.RequestException)] and
    [isinstance(e, json.JSONDecodeError)] *)
Definition is_RequestException (e : exn) : bool :=
  match e with
  | External cls _ => request_exception_class cls
  | _ => false
  end.

Definition is_JSONDecodeError (e : exn) : bool :=
  match e with
  | External cls _ => json_decode_error_class cls
  | _ => false
  end.

Definition make_api_request (auth_key : value) : M state value :=
  let payload := payload_of auth_key in
  logger_log INFO "Making API request to Stremio datastore" [] ;;;
  try_except
    (data <- (fun s =>
                let (r, w) := requests_post url payload headers (world s) in
                (r, State w (log s)
                      (events s ++ [HttpPost url payload headers r]))) ;;
     result <- lift (py_get data "result" (VList [])) ;;
     n <- lift (py_len result) ;;
     logger_log INFO "API request successful - received {} items" [AInt n] ;;;
     ret data)
    (fun e =>
       if is_RequestException e then
         logger_log ERROR "API request failed: {}" [AExn e] ;;; raise e
       else if is_JSONDecodeError e then
         logger_log ERROR "Failed to parse API response: {}" [AExn e] ;;;
         raise e
       else raise e).

(** [parse_library_data] on the logger of the state. *)
Definition parse (api_response : value) : M state (list value * list value) :=
  fun s =>
    let (r, lg) := parse_library_data api_response (log s) in
    (r, State (world s) lg (events s)).

(** The row the [DictWriter] makes of an item: the value under each field
    name, the empty string where the item has none; keys that are no
    field name are ignored. *)
Fixpoint row_of (item : value) (fields : list string) : result (list value) :=
  match fields with
  | [] => Ok []
  | k :: rest =>
      v <~ py_get item k (VStr EmptyString) ;;
      row <~ row_of item rest ;;
      Ok (v :: row)
  end.

Fixpoint write_rows (filename : string) (items : list value) : M state unit :=
  match items with
  | [] => ret tt
  | item :: rest =>
      row <- lift (row_of item fieldnames) ;;
      io (WriteRow filename row) (write_row filename row) ;;;
      write_rows filename rest
  end.

Definition save_to_csv (items : list value) (filename : string) : M state unit :=
  if negb (truthy (VList items)) then
    logger_log WARNING "No items to save for {}" [AVal (VStr filename)]
  else
    io (OpenForWriting filename) (open_w filename) ;;;
    try_finally
      (io (WriteRow filename (map VStr fieldnames))
          (write_row filename (map VStr fieldnames)) ;;;
       write_rows filename items)
      (io (CloseFile filename) (close_file filename)) ;;;
    logger_log INFO "Saved {} items to {}"
      [AInt (length items); AVal (VStr filename)].

Definition save_json_backup (data : value) (filename : string) : M state unit :=
  try_except_Exception
    (io (JsonDump filename data) (json_dump filename data) ;;;
     logger_log INFO "Saved raw library backup to {}" [AVal (VStr filename)])
    (fun e => logger_log ERROR "Failed to save JSON backup: {}" [AExn e]).

(** The loop over the files of this session: all but the archives go in. *)
Fixpoint add_session_files (zip_filename output_dir : string)
    (names : list string) : M state unit :=
  match names with
  | [] => ret tt
  | name :: rest =>
      (if negb (String.eqb (path_suffix name) ".zip") then
         io (ZipWrite zip_filename (path_join output_dir name) name)
            (zip_write zip_filename (path_join output_dir name) name)
       else ret tt) ;;;
      add_session_files zip_filename output_dir rest
  end.

(** [create_backup_zip]: the name of the archive, or [None]. *)
Definition create_backup_zip (output_dir timestamp : string)
  : M state (option string) :=
  let zip_filename :=
    path_join output_dir
      (String.append "stremio_library_backup_" (String.append timestamp ".zip")) in
  try_except_Exception
    (io (ZipOpen zip_filename) (zip_open zip_filename) ;;;
     try_finally
       (let pattern := String.append "*" (String.append timestamp "*") in
        names <- io (Glob output_dir pattern) (glob output_dir pattern) ;;
        add_session_files zip_filename output_dir names ;;;
        let raw_backup := path_join output_dir "library_backup.json" in
        found <- io (PathExists raw_backup)
                   (fun w => (Ok (path_exists raw_backup w), w)) ;;
        if (found : bool) then
          let arcname :=
            String.append "library_backup_" (String.append timestamp ".json") in
          io (ZipWrite zip_filename raw_backup arcname)
             (zip_write zip_filename raw_backup arcname)
        else ret tt)
       (io (ZipClose zip_filename) (zip_close zip_filename)) ;;;
     logger_log INFO "📦 Created backup archive: {}" [AVal (VStr zip_filename)] ;;;
     ret (Some zip_filename))
    (fun e =>
       logger_log ERROR "Failed to create ZIP archive: {}" [AExn e] ;;;
       ret None).

(** The lines of one preview: [enumerate(items[:5], 1)]. *)
Fixpoint preview_lines (i : nat) (items : list value) : M state unit :=
  match items with
  | [] => ret tt
  | item :: rest =>
      title <- lift (py_getitem item "Title") ;;
      imdb_id <- lift (py_getitem item "imdbID") ;;
      logger_log INFO "  {:2d}. {} ({})" [AInt i; AVal title; AVal imdb_id] ;;;
      preview_lines (S i) rest
  end.

(** One of the two preview blocks at the end of [main], with its
    heading. *)
Definition preview (heading : string) (items : list value) : M state unit :=
  if truthy (VList items) then
    logger_log INFO heading [AInt (Nat.min 5 (length items))] ;;;
    preview_lines 1 (firstn 5 items) ;;;
    if Nat.ltb 5 (length items) then
      logger_log INFO "  ... and {} more" [AInt (length items - 5)]
    else ret tt
  else ret tt.

(** [main]; the value is the exit code. *)
Definition main : M state Z :=
  try_except_Exception
    (logger_log INFO "🔑 Extracting Stremio auth key..." [] ;;;
     auth_key <- io (AuthKeyExtraction (VBool true))
                    (extract_stremio_auth_key (VBool true)) ;;
     shown <- lift (py_slice auth_key 0 20) ;;
     logger_log INFO "Auth key extracted: {}..." [AVal shown] ;;;
     logger_log INFO "📡 Fetching library data from Stremio API..." [] ;;;
     api_response <- make_api_request auth_key ;;
     logger_log INFO "📊 Parsing library data..." [] ;;;
     parsed <- parse api_response ;;
     let watched_items := fst parsed in
     let watchlist_items := snd parsed in
     let output_dir := "output" in
     io (Mkdir output_dir) (mkdir output_dir) ;;;
     timestamp <- (fun s => (Ok (now (world s)), s)) ;;
     let watched_csv :=
       path_join output_dir
         (String.append "watched_api_" (String.append timestamp ".csv")) in
     let watchlist_csv :=
       path_join output_dir
         (String.append "watchlist_api_" (String.append timestamp ".csv")) in
     logger_log INFO "💾 Saving to CSV files..." [] ;;;
     save_to_csv watched_items watched_csv ;;;
     save_to_csv watchlist_items watchlist_csv ;;;
     logger_log INFO "🎨 Generating HTML export..." [] ;;;
     let html_file :=
       path_join output_dir
         (String.append "stremio_library_" (String.append timestamp ".html")) in
     io (GenerateHtml watched_items watchlist_items html_file)
        (generate_html watched_items watchlist_items html_file) ;;;
     logger_log INFO "💾 Saving raw JSON backup..." [] ;;;
     let json_backup_path := path_join output_dir "library_backup.json" in
     save_json_backup api_response json_backup_path ;;;
     logger_log INFO "📦 Creating ZIP archive..." [] ;;;
     zip_file <- create_backup_zip output_dir timestamp ;;
     logger_log INFO "✅ Library extraction completed successfully!" [] ;;;
     logger_log INFO "📄 Watched movies saved to: {}" [AVal (VStr watched_csv)] ;;;
     logger_log INFO "📄 Watchlist movies saved to: {}" [AVal (VStr watchlist_csv)] ;;;
     logger_log INFO "🖼️  HTML export saved to: {}" [AVal (VStr html_file)] ;;;
     match zip_file with
     | Some z => logger_log INFO "🗄️  Backup ZIP saved to: {}" [AVal (VStr z)]
     | None => ret tt
     end ;;;
     logger_log INFO "🚀 Opening HTML report..." [] ;;;
     io (WebbrowserOpen html_file) (webbrowser_open html_file) ;;;
     preview (String.append AuthCli.newline "🎬 First {} watched movies:")
       watched_items ;;;
     preview (String.append AuthCli.newline "📋 First {} watchlist movies:")
       watchlist_items ;;;
     ret 0%Z)
    (fun e =>
       logger_log ERROR "❌ Library extraction failed: {}" [AExn e] ;;;
       ret 1%Z).

End ExportRun.

Arguments State {World} world log events.
Arguments world {World} s.
Arguments log {World} s.
Arguments events {World} s.

End LibraryExport.

(** ** Vocabulary of the specification *)

Module MovieSpec.
Import Py MovieExtractor.

(** The response [{"result": items}] of the read end-point. *)
Definition api_response_of (items : list value) : value :=
  VDict [("result", VList items)].

(** The record lacks its essential data: the identifier is missing or
    empty, or the name is (the test [not imdb_id or not name] on what
    [item.get('_id', '')] and [item.get('name', '')] return). *)
Definition lacks_essential_data (item : value) : bool :=
  match py_get item "_id" (VStr EmptyString),
        py_get item "name" (VStr EmptyString) with
  | Ok imdb_id, Ok name => negb (truthy imdb_id) || negb (truthy name)
  | _, _ => false
  end.

(** What one round of the loop adds to each of the two lists. *)
Definition watched_of (item : value) : list value :=
  match process_item item ([], []) with
  | Ok (watched_items, _) => watched_items
  | Raise _ => []
  end.

Definition watchlist_of (item : value) : list value :=
  match process_item item ([], []) with
  | Ok (_, watchlist_items) => watchlist_items
  | Raise _ => []
  end.

(** The record has the shape of the data model as far as the loop reads
    it before the [continue]: a mapping whose [state] and [meta], when
    present, are mappings. *)
Definition fields_readable (item : value) : bool :=
  match item with
  | VDict d =>
      match dict_get "state" d with None => true | Some st => is_dict st end
      && match dict_get "meta" d with None => true | Some m => is_dict m end
  | _ => false
  end.

(** The times-watched counter as a number: a bool counts as 0 or 1. *)
Definition counter_of (v : value) : option Z :=
  match v with
  | VInt n => Some n
  | VBool b => Some (if b then 1%Z else 0%Z)
  | _ => None
  end.

(** The entry [timesWatched] of the record's [state], when it has one. *)
Definition times_watched_entry (item : value) : option value :=
  match item with
  | VDict d =>
      match dict_get "state" d with
      | Some (VDict st) => dict_get "timesWatched" st
      | _ => None
      end
  | _ => None
  end.

(** The times-watched counter of a record; an absent entry counts as 0. *)
Definition times_watched (item : value) : option Z :=
  counter_of (match times_watched_entry item with
              | Some v => v
              | None => VInt 0
              end).

(** The record counts as watched: its counter is strictly positive. *)
Definition counts_as_watched (item : value) : bool :=
  match times_watched item with
  | Some n => (0 <? n)%Z
  | None => false
  end.

(** The record is retained and goes to the watched list, or to the
    watchlist. *)
Definition goes_to_watched (item : value) : bool :=
  negb (lacks_essential_data item) && counts_as_watched item.

Definition goes_to_watchlist (item : value) : bool :=
  negb (lacks_essential_data item) && negb (counts_as_watched item).

(** The movie that stands for a record in the output: the record's
    identifier under [imdbID] and its name under [Title], with the
    poster, the year and the type read from the record. *)
Definition movie_of (item : value) : option value :=
  match py_get item "_id" (VStr EmptyString),
        py_get item "name" (VStr EmptyString),
        item_poster item, item_year item,
        py_get item "type" (VStr "movie") with
  | Ok imdb_id, Ok name, Ok poster, Ok year, Ok item_type =>
      Some (VDict [("imdbID", imdb_id); ("Title", name); ("poster", poster);
                   ("year", year); ("type", item_type)])
  | _, _, _, _, _ => None
  end.

(** A record of the data model: readable, and with a counter that is a
    number. *)
Definition well_formed_item (item : value) : bool :=
  fields_readable item &&
  match times_watched item with Some _ => true | None => false end.

(** The record the summary line of [parse_library_data] leaves in the log. *)
Definition parsed_record (watched_items watchlist_items : list value) : log_record :=
  Log INFO "Parsed {} watched items and {} watchlist items"
    [AInt (length watched_items); AInt (length watchlist_items)].

(** The three records of the end-to-end scenario of the specification. *)
Definition record_a : value :=
  VDict [("_id", VStr "tt001"); ("name", VStr "A");
         ("state", VDict [("timesWatched", VInt 2)])].

Definition record_b : value :=
  VDict [("_id", VStr "tt002"); ("name", VStr "B");
         ("state", VDict [("timesWatched", VInt 0)])].

Definition record_c : value :=
  VDict [("_id", VStr EmptyString); ("name", VStr "C"); ("state", VDict [])].

End MovieSpec.

Module AuthSpec.
Import Py AuthExtractor.

(** The three labels of the credential-shape failures, as the [raise]
    statements of [_extract_auth_key_from_storage] word them. *)
Definition missing_profile_record : exn :=
  ValueError "Could not find profile data in localStorage".

Definition missing_auth_field : exn :=
  ValueError "No 'auth' field found in profile data".

Definition missing_key_field : exn :=
  ValueError "No 'key' field found in auth data".

(** An entry of the snapshot that contains an [auth] field: its value is a
    mapping with the key [auth]. *)
Definition contains_auth (v : value) : bool :=
  match v with
  | VDict d => dict_mem "auth" d
  | _ => false
  end.

(** The profile record of a snapshot: the first entry, in the order of
    the snapshot, that contains an [auth] field. *)
Definition profile_record (storage_data : list (string * value)) : option value :=
  option_map snd (find (fun kv => contains_auth (snd kv)) storage_data).

(** A run that starts with an empty log, in a world with nothing in it. *)
Definition initial_state : state unit := State tt [] [].

(** A computation that launches no browser: it leaves the record of
    launches as it found it. *)
Definition launches_nothing {World A : Type} (m : M (state World) A) : Prop :=
  forall s, launched (snd (m s)) = launched s.

End AuthSpec.

Module ImporterSpec.
Import Py LibraryImporter.

(** The body of one write call. *)
Definition payload_of (auth_key : value) (batch : list value) : value :=
  VDict [("authKey", auth_key);
         ("collection", VStr "libraryItem");
         ("changes", VList batch)].

(** The response body indicates [result == "ok"] or [success == true]; a
    call that raised, or a body that is no mapping, indicates neither. *)
Definition succeeded (response : result value) : bool :=
  match response with
  | Ok body => match acknowledged body with
               | Ok ok => ok
               | Raise _ => false
               end
  | Raise _ => false
  end.

(** The batches that succeeded, counted in items. *)
Fixpoint tally (posts : list (list value * result value)) : nat :=
  match posts with
  | [] => 0
  | (batch, response) :: rest =>
      (if succeeded response then length batch else 0) + tally rest
  end.

(** The line the loop logs for the batch that starts at index [i]. *)
Definition batch_record (total_items i : nat) (batch : list value)
    (response : result value) : log_record :=
  match response with
  | Ok body =>
      match acknowledged body with
      | Ok true =>
          Log INFO "Restored items {}-{} of {}"
            [AInt (i + 1); AInt (Nat.min (i + length batch) total_items);
             AInt total_items]
      | Ok false =>
          Log WARNING "Batch {} may have failed: {}"
            [AInt (i / batch_size + 1); AVal body]
      | Raise e =>
          Log ERROR "Failed to restore batch starting at index {}: {}"
            [AInt i; AExn e]
      end
  | Raise e =>
      Log ERROR "Failed to restore batch starting at index {}: {}"
        [AInt i; AExn e]
  end.

(** The log of a run on [total_items] items: the opening line, then the
    line of each batch, in the order of the indices of the loop. *)
Definition restore_log (total_items : nat)
    (posts : list (list value * result value)) : list log_record :=
  Log INFO "Starting restore of {} items..." [AInt total_items] ::
  map (fun ip => batch_record total_items (fst ip) (fst (snd ip)) (snd (snd ip)))
      (combine (py_range 0 total_items batch_size) posts).

(** The write calls of a run, as they are recorded. *)
Definition post_calls (auth_key : value) (posts : list (list value * result value))
  : list net_call :=
  map (fun p => HttpPost url (payload_of auth_key (fst p)) (snd p)) posts.

(** [ceil(n / 50)] *)
Definition batches_needed (n : nat) : nat := (n + (batch_size - 1)) / batch_size.

(** What [load_backup] makes of the outcome of reading the file. *)
Definition loaded (read : result value) : result value :=
  match read with
  | Ok (VDict d) =>
      match dict_get "result" d with
      | Some items => Ok items
      | None =>
          Raise (ValueError
            "Failed to load backup: Invalid backup format. Expected list or API response dict.")
      end
  | Ok (VList l) => Ok (VList l)
  | Ok _ =>
      Raise (ValueError
        "Failed to load backup: Invalid backup format. Expected list or API response dict.")
  | Raise e =>
      Raise (ValueError (String.append "Failed to load backup: " (str_exn e)))
  end.

(** A server for the examples: the world counts the write calls, and the
    second one meets an HTTP error; every other call is acknowledged. *)
Definition second_call_fails (u : string) (payload : value) (w : nat)
  : result value * nat :=
  (if Nat.eqb w 1 then Raise (External "HTTPError" "500 Server Error")
   else Ok (VDict [("result", VStr "ok")]),
   S w).

Definition no_login (headless : value) (w : nat) : result value * nat :=
  (Ok (VStr "key"), w).

(** A run that starts with an empty log before any call. *)
Definition initial_state : state nat := State 0 [] [].

(** A backup file that holds the number 5. *)
Definition read_number (filepath : string) (w : nat) : result value :=
  Ok (VInt 5).

Definition file_exists (filepath : string) (w : nat) : bool := true.

(** [n] items, told apart by their number. *)
Definition numbered_items (n : nat) : list value :=
  map (fun k => VInt (Z.of_nat k)) (seq 0 n).

End ImporterSpec.

Module ImporterExamples.
Import Py LibraryImporter.

(** A backup file that holds [{"result": 5}]. *)
Definition read_result_number (filepath : string) (w : nat) : result value :=
  Ok (VDict [("result", VInt 5)]).

(** A backup file that holds a bare list of three items. *)
Definition read_three_items (filepath : string) (w : nat) : result value :=
  Ok (VList (ImporterSpec.numbered_items 3)).

(** A log-in that meets a time-out. *)
Definition login_times_out (headless : value) (w : nat) : result value * nat :=
  (Raise (External "TimeoutError" "Timeout 30000ms exceeded"), w).

(** A log-in interrupted from the keyboard. *)
Definition login_interrupted (headless : value) (w : nat)
  : result value * nat :=
  (Raise (External "KeyboardInterrupt" EmptyString), w).

(** A server that answers every write call with an HTTP error. *)
Definition every_call_fails (u : string) (payload : value) (w : nat)
  : result value * nat :=
  (Raise (External "HTTPError" "500 Server Error"), S w).

End ImporterExamples.

Module AuthExamples.
Import Py AuthExtractor.

(** A browser for the examples: the world is nothing, every handle is
    [tt], and every call goes through unless said otherwise. *)
Definition launch_ok (e : engine) (headless : bool) (w : unit)
  : result unit * unit := (Ok tt, w).

Definition new_page_ok (b : unit) (w : unit) : result unit * unit := (Ok tt, w).

Definition new_page_crashes (b : unit) (w : unit) : result unit * unit :=
  (Raise (External "Error" "Target closed"), w).

Definition close_ok (b : unit) (w : unit) : result unit * unit := (Ok tt, w).

Definition goto_ok (p : unit) (u wait_until : string) (w : unit)
  : result unit * unit := (Ok tt, w).

Definition wait_ok (p : unit) (selector : string) (st : option string)
    (timeout : option Z) (w : unit) : result unit * unit := (Ok tt, w).

(** The wait for the form to disappear runs into its time-out. *)
Definition hidden_wait_times_out (p : unit) (selector : string)
    (st : option string) (timeout : option Z) (w : unit)
  : result unit * unit :=
  match st with
  | Some _ => (Raise (External "TimeoutError" "Timeout 10000ms exceeded"), w)
  | None => (Ok tt, w)
  end.

(** No log-in affordance on the page: a session exists. *)
Definition query_none (p : unit) (selector : string) (w : unit)
  : result (option unit) * unit := (Ok None, w).

Definition click_ok (el : unit) (w : unit) : result unit * unit := (Ok tt, w).

Definition click_fails (el : unit) (w : unit) : result unit * unit :=
  (Raise (External "Error" "Element is not attached"), w).

Definition fill_ok (el : unit) (v : value) (w : unit) : result unit * unit :=
  (Ok tt, w).

Definition fill_fails (el : unit) (v : value) (w : unit) : result unit * unit :=
  (Raise (External "Error" "Element is not an input"), w).

Definition timeout_ok (p : unit) (ms : Z) (w : unit) : result unit * unit :=
  (Ok tt, w).

Definition load_state_ok (p : unit) (st : string) (w : unit)
  : result unit * unit := (Ok tt, w).

Definition storage_logged_in (p : unit) (w : unit)
  : result (list (string * value)) * unit :=
  (Ok [("profile", VDict [("auth", VDict [("key", VStr "abc")])])], w).

Definition env_set (name : string) (w : unit) : value := VStr "secret".

Definition env_unset (name : string) (w : unit) : value := VNone.

Definition print_ok (fmt : string) (args : list log_arg) (w : unit)
  : result unit * unit := (Ok tt, w).

Definition self : StremioAuthExtractor :=
  Extractor "chromium" (VStr "me@example.org") (VStr "secret").

End AuthExamples.

Module ExportSpec.
Import Py LibraryExport.

(** What a computation does, whatever state it starts from: the calls it
    adds to the record all satisfy [P], and its outcome satisfies [Q]. *)
Definition run_spec {World A : Type} (P : io_call -> Prop)
    (Q : result A -> Prop) (m : M (state World) A) : Prop :=
  forall s, exists evs,
    events (snd (m s)) = events s ++ evs /\ Forall P evs /\ Q (fst (m s)).

Definition any_call (ev : io_call) : Prop := True.

Definition any_outcome {A : Type} (r : result A) : Prop := True.

Definition returned {A : Type} (r : result A) : Prop := exists a, r = Ok a.

(** The outcome is a return, or an exception that [except Exception]
    does not catch. *)
Definition no_Exception_out {A : Type} (r : result A) : Prop :=
  forall e, r = Raise e -> is_Exception e = false.

(** The outcome is a return, or an instance of [Exception]. *)
Definition at_worst_an_Exception {A : Type} (r : result A) : Prop :=
  forall e, r = Raise e -> is_Exception e = true.

(** The calls that go over the network: the log-in and the request. *)
Definition network_call (ev : io_call) : Prop :=
  match ev with
  | AuthKeyExtraction _ | HttpPost _ _ _ _ => True
  | _ => False
  end.

(** A member written to an archive is no archive itself. *)
Definition no_archive_member (ev : io_call) : Prop :=
  match ev with
  | ZipWrite _ _ arcname => path_suffix arcname <> ".zip"
  | _ => True
  end.

(** The row of a mapping: under each field name its value, or the empty
    string. *)
Definition csv_row (item : value) : list value :=
  match item with
  | VDict d =>
      map (fun k => match dict_get k d with
                    | Some v => v
                    | None => VStr EmptyString
                    end) fieldnames
  | _ => []
  end.

(** The name of the archive of a session. *)
Definition archive_name (timestamp : string) : string :=
  String.append "stremio_library_backup_" (String.append timestamp ".zip").

End ExportSpec.

Module ExportTrace.
Import Py LibraryExport.

(** The calls of [save_to_csv] on a file. *)
Definition csv_call (filename : string) (ev : io_call) : Prop :=
  match ev with
  | OpenForWriting p | CloseFile p | WriteRow p _ => p = filename
  | _ => False
  end.

(** The calls of [create_backup_zip]; a member it writes is no archive. *)
Definition zip_call (ev : io_call) : Prop :=
  match ev with
  | ZipOpen _ | Glob _ _ | PathExists _ | ZipClose _ => True
  | ZipWrite _ _ arcname => path_suffix arcname <> ".zip"
  | _ => False
  end.

(** The calls of [main] once the library is fetched: nothing goes over
    the network any more, and a dump of JSON is a dump of [data] into
    [path]. *)
Definition local_call (path : string) (data : value) (ev : io_call) : Prop :=
  match ev with
  | AuthKeyExtraction _ | HttpPost _ _ _ _ => False
  | JsonDump p d => p = path /\ d = data
  | _ => True
  end.

(** The outcome, if it is a return, is the return of [a]. *)
Definition returns_only {A : Type} (a : A) (r : result A) : Prop :=
  forall a', r = Ok a' -> a' = a.

(** An item of the output of [parse_library_data]. *)
Definition is_movie (item : value) : Prop :=
  exists imdb_id name poster year item_type,
    item = MovieExtractor.movie_data imdb_id name poster year item_type.

(** Where [main] puts the raw backup. *)
Definition json_backup_path : string := path_join "output" "library_backup.json".

(** The outcome of [parse_library_data] on records of the data model:
    two lists of movies. *)
Definition movies_parsed (r : result (list value * list value)) : Prop :=
  exists parsed,
    r = Ok parsed /\ Forall is_movie (fst parsed) /\ Forall is_movie (snd parsed).

End ExportTrace.

Module ExportExamples.
Import Py LibraryExport.

(** A run for the examples: the world is nothing; the log-in, the request
    and the files go through; the JSON dump and the archive fail. *)
Definition login_ok (headless : value) (w : unit) : result value * unit :=
  (Ok (VStr "0123456789abcdefghijklmnop"), w).

Definition library : value :=
  VDict [("result", VList [MovieSpec.record_a; MovieSpec.record_b;
                           MovieSpec.record_c])].

Definition post_ok (u : string) (payload hdrs : value) (w : unit)
  : result value * unit := (Ok library, w).

Definition is_request_exception (cls : string) : bool :=
  String.eqb cls "ConnectionError" || String.eqb cls "HTTPError".

Definition is_json_error (cls : string) : bool :=
  String.eqb cls "JSONDecodeError".

Definition unit_ok (path : string) (w : unit) : result unit * unit := (Ok tt, w).

Definition clock (w : unit) : string := "20240101_120000".

Definition row_ok (path : string) (row : list value) (w : unit)
  : result unit * unit := (Ok tt, w).

Definition row_fails (path : string) (row : list value) (w : unit)
  : result unit * unit := (Raise (External "OSError" "No space left on device"), w).

Definition html_ok (watched_items watchlist_items : list value)
    (output_path : string) (w : unit) : result bool * unit := (Ok true, w).

Definition dump_fails (path : string) (data : value) (w : unit)
  : result unit * unit := (Raise (External "OSError" "Permission denied"), w).

Definition dump_ok (path : string) (data : value) (w : unit)
  : result unit * unit := (Ok tt, w).

Definition zip_open_fails (path : string) (w : unit) : result unit * unit :=
  (Raise (External "OSError" "Permission denied"), w).

(** The directory holds the two CSV files, the report and the archive
    that is being written. *)
Definition session_files (dir pattern : string) (w : unit)
  : result (list string) * unit :=
  (Ok ["watched_api_20240101_120000.csv";
       "stremio_library_backup_20240101_120000.zip";
       "stremio_library_20240101_120000.html"], w).

Definition member_ok (archive file arcname : string) (w : unit)
  : result unit * unit := (Ok tt, w).

Definition backup_exists (path : string) (w : unit) : bool := true.

Definition initial_state : state unit := State tt [] [].

(** Two movies as [parse_library_data] makes them. *)
Definition movies : list value :=
  [MovieExtractor.movie_data (VStr "tt001") (VStr "A") VNone (VStr "2019")
     (VStr "movie");
   MovieExtractor.movie_data (VStr "tt002") (VStr "B") VNone (VStr "2021")
     (VStr "series")].

(** The run of [main] in which the dump of the raw backup goes through
    and the archive cannot be opened, and the one in which the dump
    fails as well. *)
Definition run_with (dump : string -> value -> unit -> result unit * unit)
  : result Z * state unit :=
  main unit login_ok post_ok is_request_exception is_json_error unit_ok clock
    unit_ok row_ok unit_ok html_ok dump zip_open_fails session_files
    member_ok backup_exists unit_ok unit_ok initial_state.

End ExportExamples.

(** ** Properties of [parse_library_data] *)

Section MovieExtractorProperties.
Import Py MovieExtractor MovieSpec.

(** Case analysis on the next read of a round: it returns, or the round
    raises what it raised. *)
Ltac read_step c :=
  let E := fresh "E" in
  destruct c eqn:E; simpl; [ | try reflexivity; try discriminate ].

Lemma process_item_acc item w wl :
  process_item item (w, wl) =
  rbind (process_item item ([], []))
        (fun r => Ok (w ++ fst r, wl ++ snd r)).
Proof.
  unfold process_item.
  read_step (py_get item "_id" (VStr EmptyString)).
  read_step (py_get item "name" (VStr EmptyString)).
  read_step (item_flagged_watched item).
  read_step (item_poster item).
  read_step (item_year item).
  read_step (py_get item "type" (VStr "movie")).
  match goal with
  | |- context [if ?b then _ else _] => destruct b; simpl
  end.
  - now rewrite !app_nil_r.
  - match goal with |- context [py_gt0 ?v] => read_step (py_gt0 v) end.
    match goal with
    | |- context [if ?b then _ else _] => destruct b; simpl
    end; now rewrite ?app_nil_r.
Qed.

(** What a round that returns has done, by whether the record lacks its
    essential data. *)
Lemma round_cases item a b :
  process_item item ([], []) = Ok (a, b) ->
  if lacks_essential_data item then a = [] /\ b = []
  else exists imdb_id name poster year item_type,
      py_get item "_id" (VStr EmptyString) = Ok imdb_id /\
      py_get item "name" (VStr EmptyString) = Ok name /\
      truthy imdb_id = true /\ truthy name = true /\
      let movie := movie_data imdb_id name poster year item_type in
      (a = [movie] /\ b = []) \/ (a = [] /\ b = [movie]).
Proof.
  unfold process_item, lacks_essential_data.
  read_step (py_get item "_id" (VStr EmptyString)).
  read_step (py_get item "name" (VStr EmptyString)).
  read_step (item_flagged_watched item).
  read_step (item_poster item).
  read_step (item_year item).
  read_step (py_get item "type" (VStr "movie")).
  destruct (negb (truthy a0) || negb (truthy a1)) eqn:Hskip; simpl.
  - intros [= <- <-]. auto.
  - apply orb_false_elim in Hskip as [H1 H2].
    apply negb_false_iff in H1, H2.
    match goal with |- context [py_gt0 ?v] => read_step (py_gt0 v) end.
    match goal with
    | |- context [if ?c then _ else _] => destruct c; simpl
    end; intros [= <- <-]; do 5 eexists; repeat split; eauto.
Qed.

Lemma for_items_flat items : forall w wl w' wl',
  for_items items (w, wl) = Ok (w', wl') ->
  w' = w ++ flat_map watched_of items /\
  wl' = wl ++ flat_map watchlist_of items /\
  Forall (fun item => exists r, process_item item ([], []) = Ok r) items.
Proof.
  induction items as [|item rest IH]; intros w wl w' wl';
    cbn [for_items flat_map].
  - intros [= <- <-]. now rewrite !app_nil_r.
  - rewrite process_item_acc. unfold watched_of, watchlist_of.
    destruct (process_item item ([], [])) as [[a b]|e] eqn:E;
      cbn [rbind fst snd]; [ | discriminate ].
    intros H. apply IH in H as (-> & -> & HF).
    rewrite <- !app_assoc. repeat split; eauto.
Qed.

(** A record whose fields can be read gets to the test of the
    [continue]. *)
Lemma fields_readable_reads item :
  fields_readable item = true ->
  exists imdb_id name flagged_watched poster year item_type,
    py_get item "_id" (VStr EmptyString) = Ok imdb_id /\
    py_get item "name" (VStr EmptyString) = Ok name /\
    item_flagged_watched item = Ok flagged_watched /\
    flagged_watched = match times_watched_entry item with
                      | Some v => v
                      | None => VInt 0
                      end /\
    item_poster item = Ok poster /\
    item_year item = Ok year /\
    py_get item "type" (VStr "movie") = Ok item_type.
Proof.
  destruct item as [| | | | |d]; try discriminate. simpl.
  intros H. apply andb_true_iff in H as [Hst Hmeta].
  assert (Hfw : exists fw, item_flagged_watched (VDict d) = Ok fw /\
            fw = match times_watched_entry (VDict d) with
                 | Some v => v | None => VInt 0 end).
  { unfold item_flagged_watched. simpl.
    destruct (dict_get "state" d) as [st|]; simpl.
    - destruct st; try discriminate. simpl. eauto.
    - eauto. }
  assert (Hp : exists p, item_poster (VDict d) = Ok p).
  { unfold item_poster, py_contains, py_getitem, py_get, dict_mem.
    cbn [rbind].
    destruct (dict_get "meta" d) as [m|]; cbn [rbind];
      [ destruct m; try discriminate; destruct (dict_get "poster" d0) | ];
      cbn [rbind]; destruct (negb (truthy _)); eauto. }
  assert (Hy : exists y, item_year (VDict d) = Ok y).
  { unfold item_year, py_contains, py_getitem, py_get, dict_mem.
    cbn [rbind].
    destruct (dict_get "meta" d) as [m|]; cbn [rbind];
      [ destruct m; try discriminate | ];
      cbn [rbind]; destruct (negb (truthy _)); eauto. }
  destruct Hfw as (fw & Hfw & Hfw'), Hp as (p & Hp), Hy as (y & Hy).
  subst fw. do 6 eexists. repeat split; eauto.
Qed.

(** A readable record that lacks its essential data is skipped: the round
    returns both lists untouched. *)
Lemma skip_round item acc :
  fields_readable item = true ->
  lacks_essential_data item = true ->
  process_item item acc = Ok acc.
Proof.
  intros Hr Hl. destruct acc as [w wl].
  destruct (fields_readable_reads item Hr)
    as (i & n & fw & p & y & t & Hi & Hn & Hfw & _ & Hp & Hy & Ht).
  unfold lacks_essential_data in Hl. rewrite Hi, Hn in Hl.
  unfold process_item. rewrite Hi, Hn, Hfw, Hp, Hy, Ht. simpl.
  now rewrite Hl.
Qed.

Lemma for_items_app items1 items2 acc :
  for_items (items1 ++ items2) acc =
  rbind (for_items items1 acc) (for_items items2).
Proof.
  revert acc. induction items1 as [|item rest IH]; intros acc;
    cbn [for_items app rbind].
  - reflexivity.
  - destruct (process_item item acc); cbn [rbind]; auto.
Qed.

(** [parse_library_data] on a response whose [result] is the list
    [items]. *)
Lemma parse_library_data_unfold api_response items lg :
  py_get api_response "result" (VList []) = Ok (VList items) ->
  parse_library_data api_response lg =
  match for_items items ([], []) with
  | Ok (w, wl) => (Ok (w, wl), lg ++ [parsed_record w wl])
  | Raise e => (Raise e, lg)
  end.
Proof.
  intros H. unfold parse_library_data, bind, lift, ret, logger_info.
  rewrite H. cbn [py_iter].
  destruct (for_items items ([], [])) as [[w wl]|e]; reflexivity.
Qed.

Lemma length_flat_map_rounds items :
  Forall (fun item => exists r, process_item item ([], []) = Ok r) items ->
  length (flat_map watched_of items) + length (flat_map watchlist_of items) =
  length (filter (fun item => negb (lacks_essential_data item)) items).
Proof.
  induction 1 as [|item rest [[a b] Hr] _ IH]; cbn [flat_map filter].
  - reflexivity.
  - rewrite !length_app.
    pose proof (round_cases item a b Hr) as Hc.
    assert (Ha : watched_of item = a) by (unfold watched_of; now rewrite Hr).
    assert (Hb : watchlist_of item = b) by (unfold watchlist_of; now rewrite Hr).
    rewrite Ha, Hb.
    destruct (lacks_essential_data item); cbn [negb].
    + destruct Hc as [-> ->]. cbn [length Nat.add]. exact IH.
    + destruct Hc as (i & n & p & y & t & _ & _ & _ & _ & [[-> ->]|[-> ->]]);
        cbn [length]; lia.
Qed.

Lemma outputs_have_essential_data items w wl :
  for_items items ([], []) = Ok (w, wl) ->
  forall movie, In movie (w ++ wl) ->
  exists imdb_id name poster year item_type,
    movie = movie_data imdb_id name poster year item_type /\
    truthy imdb_id = true /\ truthy name = true.
Proof.
  intros H. apply for_items_flat in H as (-> & -> & HF). cbn [app].
  intros movie Hin. rewrite Forall_forall in HF.
  assert (Hitem : exists item, In item items /\
            (In movie (watched_of item) \/ In movie (watchlist_of item))).
  { apply in_app_or in Hin as [Hin|Hin];
      apply in_flat_map in Hin as (item & Hi & Hm); eauto. }
  destruct Hitem as (item & Hi & Hm).
  destruct (HF item Hi) as [[a b] Hr].
  pose proof (round_cases item a b Hr) as Hc.
  unfold watched_of, watchlist_of in Hm. rewrite Hr in Hm.
  destruct (lacks_essential_data item).
  - destruct Hc as [-> ->]. destruct Hm as [[]|[]].
  - destruct Hc as (i & n & p & y & t & _ & _ & Hti & Htn & Hab).
    exists i, n, p, y, t.
    destruct Hab as [[-> ->]|[-> ->]];
      destruct Hm as [Hm|Hm]; simpl in Hm; try contradiction;
      destruct Hm as [<-|[]]; auto.
Qed.

(** Taking a record that lacks its essential data out of the input does
    not change what a run that returns has returned. *)
Lemma drop_round pre item post acc r :
  lacks_essential_data item = true ->
  for_items (pre ++ item :: post) acc = Ok r ->
  for_items (pre ++ post) acc = Ok r.
Proof.
  intros Hl. rewrite !for_items_app.
  destruct (for_items pre acc) as [[w wl]|e]; cbn [rbind for_items];
    [ | discriminate ].
  rewrite process_item_acc.
  destruct (process_item item ([], [])) as [[a b]|e] eqn:Hr; cbn [rbind];
    [ | discriminate ].
  pose proof (round_cases item a b Hr) as Hc. rewrite Hl in Hc.
  destruct Hc as [-> ->]. cbn [fst snd]. now rewrite !app_nil_r.
Qed.

Lemma skip_round_for_items pre item post acc :
  fields_readable item = true ->
  lacks_essential_data item = true ->
  for_items (pre ++ item :: post) acc = for_items (pre ++ post) acc.
Proof.
  intros Hr Hl. rewrite !for_items_app.
  destruct (for_items pre acc) as [acc'|e]; cbn [rbind for_items]; auto.
  now rewrite (skip_round item acc' Hr Hl).
Qed.

(** On records of the data model the loop raises nothing. *)
Lemma process_item_total item acc :
  well_formed_item item = true -> exists acc', process_item item acc = Ok acc'.
Proof.
  unfold well_formed_item, times_watched. intros H.
  apply andb_true_iff in H as [Hr Hn]. destruct acc as [w wl].
  destruct (fields_readable_reads item Hr)
    as (i & nm & fw & p & y & t & Hi & Hnm & Hfw & Hfw' & Hp & Hy & Ht).
  rewrite <- Hfw' in Hn. unfold process_item.
  rewrite Hi, Hnm, Hfw, Hp, Hy, Ht. cbn [rbind].
  destruct (negb (truthy i) || negb (truthy nm)); [ eauto | ].
  destruct fw; try discriminate; cbn [py_gt0 rbind];
    match goal with
    | |- context [if ?b then _ else _] => destruct b
    end; eauto.
Qed.

Lemma for_items_total items : forall acc,
  Forall (fun item => well_formed_item item = true) items ->
  exists acc', for_items items acc = Ok acc'.
Proof.
  induction items as [|item rest IH]; intros acc H; cbn [for_items].
  - eauto.
  - inversion H as [|? ? Hitem Hrest]; subst.
    destruct (process_item_total item acc Hitem) as [acc' ->]. cbn [rbind].
    now apply IH.
Qed.

(** ** Claims on [parse_library_data] *)

(** C3. Watched threshold: a retained record goes to the watched list
    exactly when its times-watched counter is strictly positive, and to
    the watchlist otherwise; the counter of a record without a
    [timesWatched] entry, or without a [state], is 0 (see
    [times_watched]), which sends it to the watchlist.  The round of the
    loop appends the record's movie to one list and leaves the other, and
    a response made of that one record yields it as the only element of
    its partition. *)
Theorem watched_threshold (item : value) (n : Z) :
  fields_readable item = true ->
  lacks_essential_data item = false ->
  times_watched item = Some n ->
  exists imdb_id name poster year item_type,
    py_get item "_id" (VStr EmptyString) = Ok imdb_id /\
    py_get item "name" (VStr EmptyString) = Ok name /\
    let movie := movie_data imdb_id name poster year item_type in
    (forall w wl,
        process_item item (w, wl) =
        Ok (if (0 <? n)%Z then (w ++ [movie], wl) else (w, wl ++ [movie]))) /\
    (forall lg,
        fst (parse_library_data (api_response_of [item]) lg) =
        Ok (if (0 <? n)%Z then ([movie], []) else ([], [movie]))).
Proof.
  intros Hr Hl Hn.
  destruct (fields_readable_reads item Hr)
    as (i & nm & fw & p & y & t & Hi & Hnm & Hfw & Hfw' & Hp & Hy & Ht).
  unfold times_watched in Hn. rewrite <- Hfw' in Hn.
  unfold lacks_essential_data in Hl. rewrite Hi, Hnm in Hl.
  assert (Hgt : py_gt0 fw = Ok (0 <? n)%Z).
  { destruct fw; try discriminate; simpl in Hn; injection Hn as <-;
      [ now destruct b | reflexivity ]. }
  assert (Hround : forall w wl,
    process_item item (w, wl) =
    Ok (if (0 <? n)%Z then (w ++ [movie_data i nm p y t], wl)
        else (w, wl ++ [movie_data i nm p y t]))).
  { intros w wl. unfold process_item.
    rewrite Hi, Hnm, Hfw, Hp, Hy, Ht. cbn [rbind]. rewrite Hl, Hgt.
    cbn [rbind]. now destruct (0 <? n)%Z. }
  exists i, nm, p, y, t. repeat split; auto.
  intros lg. rewrite (parse_library_data_unfold _ [item]) by reflexivity.
  cbn [for_items]. rewrite Hround. cbn [rbind].
  now destruct (0 <? n)%Z.
Qed.

Lemma watched_threshold_witness :
  (exists movie, process_item record_a ([], []) = Ok ([movie], [])) /\
  (exists movie, process_item record_b ([], []) = Ok ([], [movie])).
Proof.
  split.
  - destruct (watched_threshold record_a 2 eq_refl eq_refl eq_refl)
      as (i & n & p & y & t & _ & _ & H & _).
    eexists. exact (H [] []).
  - destruct (watched_threshold record_b 0 eq_refl eq_refl eq_refl)
      as (i & n & p & y & t & _ & _ & H & _).
    eexists. exact (H [] []).
Defined.

(** C4. Drop filter: a record whose identifier is missing or empty, or
    whose name is, never appears in the output.  Whenever
    [parse_library_data] returns, the two partitions and the log are those
    of the input without that record, whatever its other fields are; the
    log gains the one summary line with the two lengths and nothing about
    the record; every movie of the output has a non-empty identifier and
    title.  When the record has the shape of the data model (its [state]
    and [meta], if present, are mappings) the round that skips it raises
    nothing, so the run with the record is the run without it, result and
    log.  The shape matters: the fields of a record are read before the
    test that skips it. *)
Theorem dropped_records_never_appear
    (api_response api_response' : value) (pre post : list value) (item : value) :
  lacks_essential_data item = true ->
  py_get api_response "result" (VList []) = Ok (VList (pre ++ item :: post)) ->
  py_get api_response' "result" (VList []) = Ok (VList (pre ++ post)) ->
  (forall lg w wl lg',
      parse_library_data api_response lg = (Ok (w, wl), lg') ->
      parse_library_data api_response' lg = (Ok (w, wl), lg') /\
      lg' = lg ++ [parsed_record w wl] /\
      forall movie, In movie (w ++ wl) ->
        exists imdb_id name poster year item_type,
          movie = movie_data imdb_id name poster year item_type /\
          truthy imdb_id = true /\ truthy name = true) /\
  (fields_readable item = true ->
   forall lg, parse_library_data api_response lg =
              parse_library_data api_response' lg).
Proof.
  intros Hl H H'. split.
  - intros lg w wl lg'.
    rewrite (parse_library_data_unfold _ _ lg H),
            (parse_library_data_unfold _ _ lg H').
    destruct (for_items (pre ++ item :: post) ([], [])) as [[w0 wl0]|e] eqn:E;
      [ | discriminate ].
    intros [= -> -> <-].
    pose proof (drop_round _ _ _ _ _ Hl E) as E'. rewrite E'.
    repeat split. now apply (outputs_have_essential_data _ _ _ E').
  - intros Hr lg.
    rewrite (parse_library_data_unfold _ _ lg H),
            (parse_library_data_unfold _ _ lg H').
    now rewrite (skip_round_for_items _ _ _ _ Hr Hl).
Qed.

Lemma dropped_records_never_appear_witness :
  parse_library_data (api_response_of [record_a; record_c; record_b]) [] =
  parse_library_data (api_response_of [record_a; record_b]) [].
Proof.
  exact (proj2 (dropped_records_never_appear
                  (api_response_of [record_a; record_c; record_b])
                  (api_response_of [record_a; record_b])
                  [record_a] [record_b] record_c
                  eq_refl eq_refl eq_refl) eq_refl []).
Defined.

(** A record without identifier whose [state] is [null]: it lacks its
    essential data, yet the read of its counter raises before the test
    that would skip it, and the run on a list that holds it returns
    nothing. *)
Lemma unreadable_record_is_not_skipped :
  lacks_essential_data (VDict [("name", VStr "C"); ("state", VNone)]) = true /\
  parse_library_data
    (api_response_of
       [record_a; VDict [("name", VStr "C"); ("state", VNone)]]) [] =
  (Raise AttributeError, []).
Proof. split; reflexivity. Qed.

(** The counter that decides the partition of a record is the one of
    its [state]. *)
Lemma flagged_watched_counter item flagged_watched is_watched :
  item_flagged_watched item = Ok flagged_watched ->
  py_gt0 flagged_watched = Ok is_watched ->
  counts_as_watched item = is_watched.
Proof.
  unfold item_flagged_watched, counts_as_watched, times_watched,
    times_watched_entry.
  destruct item as [| | | | |d]; try discriminate. cbn [py_get rbind].
  destruct (dict_get "state" d) as [st|].
  - destruct st as [| | | | |st]; try discriminate. cbn [py_get].
    intros [= <-].
    destruct (dict_get "timesWatched" st) as [v|]; [ | now intros [= <-] ].
    destruct v; try discriminate; cbn [py_gt0 counter_of]; intros [= <-];
      [ now destruct b | reflexivity ].
  - cbn [py_get dict_get]. intros [= <-] [= <-]. reflexivity.
Qed.

(** What a round adds to the two lists: the movie of the record, to the
    list the record goes to. *)
Lemma round_adds_movie_of item a b :
  process_item item ([], []) = Ok (a, b) ->
  map Some a = map movie_of (filter goes_to_watched [item]) /\
  map Some b = map movie_of (filter goes_to_watchlist [item]).
Proof.
  unfold process_item.
  destruct (py_get item "_id" (VStr EmptyString)) as [imdb_id|] eqn:Hid;
    cbn [rbind]; [ | discriminate ].
  destruct (py_get item "name" (VStr EmptyString)) as [name|] eqn:Hname;
    cbn [rbind]; [ | discriminate ].
  destruct (item_flagged_watched item) as [fw|] eqn:Hfw;
    cbn [rbind]; [ | discriminate ].
  destruct (item_poster item) as [poster|] eqn:Hposter;
    cbn [rbind]; [ | discriminate ].
  destruct (item_year item) as [year|] eqn:Hyear;
    cbn [rbind]; [ | discriminate ].
  destruct (py_get item "type" (VStr "movie")) as [item_type|] eqn:Htype;
    cbn [rbind]; [ | discriminate ].
  assert (Hlacks : lacks_essential_data item =
                   negb (truthy imdb_id) || negb (truthy name))
    by (unfold lacks_essential_data; now rewrite Hid, Hname).
  assert (Hmovie : movie_of item =
                   Some (movie_data imdb_id name poster year item_type))
    by (unfold movie_of; now rewrite Hid, Hname, Hposter, Hyear, Htype).
  unfold goes_to_watched, goes_to_watchlist. cbn [filter]. rewrite Hlacks.
  destruct (negb (truthy imdb_id) || negb (truthy name)); cbn [negb andb].
  - intros [= <- <-]. now split.
  - destruct (py_gt0 fw) as [is_watched|] eqn:Hgt; cbn [rbind];
      [ | discriminate ].
    rewrite (flagged_watched_counter item fw is_watched Hfw Hgt).
    destruct is_watched; cbn [negb]; intros [= <- <-]; cbn [map app];
      rewrite Hmovie; now split.
Qed.

Lemma partitions_are_filters items :
  Forall (fun item => exists r, process_item item ([], []) = Ok r) items ->
  map Some (flat_map watched_of items) =
  map movie_of (filter goes_to_watched items) /\
  map Some (flat_map watchlist_of items) =
  map movie_of (filter goes_to_watchlist items).
Proof.
  induction 1 as [|item rest [[a b] Hr] _ [IHw IHwl]].
  - now split.
  - destruct (round_adds_movie_of item a b Hr) as [Ha Hb].
    change (item :: rest) with ([item] ++ rest).
    rewrite !flat_map_app, !filter_app, !map_app, IHw, IHwl.
    cbn [flat_map]. rewrite !app_nil_r.
    unfold watched_of, watchlist_of. rewrite Hr, Ha, Hb. now split.
Qed.

(** C5. Partition completeness and stability: when [parse_library_data]
    returns the pair (watched, watchlist), the watched list holds the
    movies of the retained records whose counter is positive, and the
    watchlist those of the other retained records, each in the order of
    the input; the movie of a record carries its identifier and its
    name.  A retained record goes to exactly one of the two lists and a
    record lacking its essential data to neither, so the two lengths add
    up to the number of retained records.  On records of the data model
    [parse_library_data] does return. *)
Theorem partition_complete_and_stable
    (api_response : value) (items : list value) :
  py_get api_response "result" (VList []) = Ok (VList items) ->
  (forall lg w wl lg',
      parse_library_data api_response lg = (Ok (w, wl), lg') ->
      map Some w = map movie_of (filter goes_to_watched items) /\
      map Some wl = map movie_of (filter goes_to_watchlist items) /\
      (forall item,
         if lacks_essential_data item
         then goes_to_watched item = false /\ goes_to_watchlist item = false
         else goes_to_watched item = negb (goes_to_watchlist item)) /\
      length w + length wl =
      length (filter (fun item => negb (lacks_essential_data item)) items)) /\
  (Forall (fun item => well_formed_item item = true) items ->
   forall lg, exists w wl,
     parse_library_data api_response lg =
     (Ok (w, wl), lg ++ [parsed_record w wl])).
Proof.
  intros H. split.
  - intros lg w wl lg'. rewrite (parse_library_data_unfold _ _ lg H).
    destruct (for_items items ([], [])) as [[w0 wl0]|e] eqn:E;
      [ | discriminate ].
    intros [= -> -> <-].
    apply for_items_flat in E as (-> & -> & HF). cbn [app].
    destruct (partitions_are_filters items HF) as [Hw Hwl].
    split; [ exact Hw | split; [ exact Hwl | split ] ].
    + intros item. unfold goes_to_watched, goes_to_watchlist.
      destruct (lacks_essential_data item); cbn [negb andb];
        [ now split | now destruct (counts_as_watched item) ].
    + now apply length_flat_map_rounds.
  - intros Hwf lg. rewrite (parse_library_data_unfold _ _ lg H).
    destruct (for_items_total items ([], []) Hwf) as [[w wl] ->]. eauto.
Qed.

Lemma partition_complete_and_stable_witness :
  exists w wl,
    parse_library_data (api_response_of [record_a; record_b; record_c]) [] =
    (Ok (w, wl), [parsed_record w wl]) /\
    map Some w = [movie_of record_a] /\
    map Some wl = [movie_of record_b].
Proof.
  destruct (partition_complete_and_stable
              (api_response_of [record_a; record_b; record_c])
              [record_a; record_b; record_c] eq_refl) as [Hparts Htotal].
  assert (Hwf : Forall (fun item => well_formed_item item = true)
                  [record_a; record_b; record_c])
    by (repeat constructor).
  destruct (Htotal Hwf []) as (w & wl & Hrun).
  exists w, wl. split; [ exact Hrun | ].
  destruct (Hparts [] w wl _ Hrun) as (Hw & Hwl & _).
  split; [ exact Hw | exact Hwl ].
Defined.

(** The scenario of the specification: two records kept, one in each
    partition, and the record with the empty identifier dropped. *)
Example end_to_end_scenario :
  fst (parse_library_data
         (VDict [("result", VList [record_a; record_b; record_c])]) []) =
  Ok ([movie_data (VStr "tt001") (VStr "A") VNone VNone (VStr "movie")],
      [movie_data (VStr "tt002") (VStr "B") VNone VNone (VStr "movie")]).
Proof. reflexivity. Qed.

(** C8. Purity: the outcome of [parse_library_data] is a function of the
    response alone.  For every response there is one outcome that every
    run on it produces, whatever the logger holds; the run touches nothing
    but the logger, to which a run that returns adds its summary line.  So
    a second application, after the first, gives the same pair of
    partitions. *)
Theorem normalize_is_pure (api_response : value) :
  exists out : result (list value * list value),
    (forall lg,
        parse_library_data api_response lg =
        (out, lg ++ match out with
                    | Ok (w, wl) => [parsed_record w wl]
                    | Raise _ => []
                    end)) /\
    (forall lg,
        fst (parse_library_data api_response
               (snd (parse_library_data api_response lg))) =
        fst (parse_library_data api_response lg)).
Proof.
  assert (H : exists out : result (list value * list value),
    forall lg, parse_library_data api_response lg =
               (out, lg ++ match out with
                           | Ok (w, wl) => [parsed_record w wl]
                           | Raise _ => []
                           end)).
  { unfold parse_library_data, bind, lift, ret, logger_info.
    destruct (py_get api_response "result" (VList [])) as [result|e];
      [ | exists (Raise e); intros lg; now rewrite app_nil_r ].
    destruct (py_iter result) as [items|e];
      [ | exists (Raise e); intros lg; now rewrite app_nil_r ].
    destruct (for_items items ([], [])) as [[w wl]|e];
      [ | exists (Raise e); intros lg; now rewrite app_nil_r ].
    exists (Ok (w, wl)). reflexivity. }
  destruct H as [out H]. exists out. split; [ exact H | ].
  intros lg. now rewrite !H.
Qed.

End MovieExtractorProperties.

(** ** Properties of the token extraction *)

Section TokenExtraction.
Import Py AuthExtractor AuthSpec.

Variable World : Type.

Lemma profile_record_contains_auth storage_data v :
  profile_record storage_data = Some v -> contains_auth v = true.
Proof.
  unfold profile_record.
  destruct (find _ storage_data) as [kv|] eqn:E; [ | discriminate ].
  intros [= <-]. now apply find_some in E.
Qed.

(** The scan returns the profile record of the snapshot, and [None] when
    the snapshot has none. *)
Lemma find_profile_data_spec storage_data (s : state World) :
  find_profile_data World storage_data s =
  match profile_record storage_data with
  | Some v =>
      (Ok v, State (world s) (log s ++ [Log INFO "Found profile data" []])
               (launched s))
  | None => (Ok VNone, s)
  end.
Proof.
  unfold profile_record.
  induction storage_data as [|[key v] rest IH]; cbn [find_profile_data find].
  - reflexivity.
  - destruct v; cbn [is_dict contains_auth snd]; try exact IH.
    unfold bind, lift. cbn [py_contains].
    destruct (dict_mem "auth" d); [ reflexivity | exact IH ].
Qed.

(** What the checks make of a record that contains [auth]. *)
Lemma auth_key_of_profile_record d (s : state World) :
  dict_mem "auth" d = true ->
  exists auth_data,
    dict_get "auth" d = Some auth_data /\
    fst (auth_key_of_profile World (VDict d) s) =
    rbind (py_contains "key" auth_data)
      (fun has_key =>
         if (has_key : bool) then py_getitem auth_data "key"
         else Raise missing_key_field).
Proof.
  unfold dict_mem. intros H.
  destruct (dict_get "auth" d) as [auth_data|] eqn:E; [ | discriminate ].
  exists auth_data. split; [ reflexivity | ].
  assert (Ht : truthy (VDict d) = true) by (destruct d; [ discriminate | reflexivity ]).
  unfold auth_key_of_profile. rewrite Ht. cbn [negb].
  unfold bind, lift, raise, ret, logger_log. cbn [py_contains py_getitem].
  unfold dict_mem. rewrite E. cbn [negb].
  destruct (py_contains "key" auth_data) as [[|]|e]; cbn [rbind negb fst];
    try reflexivity.
  destruct (py_getitem auth_data "key"); reflexivity.
Qed.

Lemma auth_key_from_storage_data_unfold storage_data (s : state World) :
  fst (auth_key_from_storage_data World storage_data s) =
  match profile_record storage_data with
  | Some v =>
      fst (auth_key_of_profile World v
             (State (world s) (log s ++ [Log INFO "Found profile data" []])
                (launched s)))
  | None => Raise missing_profile_record
  end.
Proof.
  unfold auth_key_from_storage_data, bind.
  rewrite find_profile_data_spec.
  destruct (profile_record storage_data) as [v|]; [ | reflexivity ].
  now destruct (auth_key_of_profile World v _) as [[k|e] s'].
Qed.

(** ** Claims on the token extraction *)

(** A snapshot none of whose entries contains [auth] has no profile
    record. *)
Lemma no_entry_with_auth storage_data :
  Forall (fun kv => contains_auth (snd kv) = false) storage_data ->
  profile_record storage_data = None.
Proof.
  unfold profile_record. induction 1 as [|kv rest Hkv _ IH]; cbn [find].
  - reflexivity.
  - rewrite Hkv. exact IH.
Qed.

(** C6. Credential-shape failures: a snapshot none of whose entries
    contains an [auth] field fails with the missing-profile-record
    label, and that includes a snapshot whose profile record lacks its
    [auth] field, which the scan does not take for a profile record; a
    snapshot whose profile record has an [auth] mapping without [key]
    fails with the missing-key label (and with [key] present the
    extraction returns it).  The two labels differ.  The third label of
    the code, for a missing [auth] field, is raised on no snapshot. *)
Theorem credential_shape_failures
    (storage_data : list (string * value)) (s : state World) :
  (Forall (fun kv => contains_auth (snd kv) = false) storage_data ->
   fst (auth_key_from_storage_data World storage_data s) =
   Raise missing_profile_record) /\
  (forall key d,
      dict_mem "auth" d = false ->
      fst (auth_key_from_storage_data World [(key, VDict d)] s) =
      Raise missing_profile_record) /\
  (forall d auth,
      profile_record storage_data = Some (VDict d) ->
      dict_get "auth" d = Some (VDict auth) ->
      fst (auth_key_from_storage_data World storage_data s) =
      match dict_get "key" auth with
      | Some auth_key => Ok auth_key
      | None => Raise missing_key_field
      end) /\
  fst (auth_key_from_storage_data World storage_data s) <>
  Raise missing_auth_field /\
  missing_profile_record <> missing_key_field.
Proof.
  split; [ | split; [ | split; [ | split ] ] ]; try discriminate.
  - intros H. rewrite auth_key_from_storage_data_unfold.
    now rewrite (no_entry_with_auth _ H).
  - intros key d Hd. rewrite auth_key_from_storage_data_unfold.
    unfold profile_record. cbn [find snd contains_auth]. now rewrite Hd.
  - intros d auth Hp Ha. rewrite auth_key_from_storage_data_unfold, Hp.
    pose proof (profile_record_contains_auth _ _ Hp) as Hc.
    cbn [contains_auth] in Hc.
    destruct (auth_key_of_profile_record d
                (State (world s) (log s ++ [Log INFO "Found profile data" []])
                   (launched s)) Hc) as (auth_data & Ha' & ->).
    rewrite Ha in Ha'. injection Ha' as <-.
    cbn [py_contains py_getitem rbind]. unfold dict_mem.
    now destruct (dict_get "key" auth).
  - rewrite auth_key_from_storage_data_unfold.
    destruct (profile_record storage_data) as [v|] eqn:Hp; [ | discriminate ].
    pose proof (profile_record_contains_auth _ _ Hp) as Hc.
    destruct v as [| | | | |d]; try discriminate. cbn [contains_auth] in Hc.
    destruct (auth_key_of_profile_record d
                (State (world s) (log s ++ [Log INFO "Found profile data" []])
                   (launched s)) Hc) as (auth_data & _ & ->).
    destruct auth_data as [| | | t |l|a]; cbn [py_contains rbind];
      try discriminate.
    + destruct (str_contains "key" t); cbn [py_getitem]; discriminate.
    + destruct (existsb _ l); cbn [py_getitem]; discriminate.
    + unfold py_getitem, dict_mem.
      destruct (dict_get "key" a); discriminate.
Qed.

(** C10. The branch for a profile record without [auth] is dead: the scan
    leaves in [profile_data] either [None] or a mapping that contains
    [auth]; so no snapshot makes the extraction raise the missing-auth
    failure, and the only labelled failures a snapshot can raise are the
    missing-profile-record and the missing-key ones. *)
Theorem missing_auth_branch_unreachable
    (storage_data : list (string * value)) (s : state World) :
  (exists profile_data s',
      find_profile_data World storage_data s = (Ok profile_data, s') /\
      (profile_data = VNone \/ contains_auth profile_data = true)) /\
  fst (auth_key_from_storage_data World storage_data s) <>
  Raise missing_auth_field /\
  (forall msg,
      fst (auth_key_from_storage_data World storage_data s) =
      Raise (ValueError msg) ->
      ValueError msg = missing_profile_record \/
      ValueError msg = missing_key_field).
Proof.
  assert (Hcases :
    forall r, fst (auth_key_from_storage_data World storage_data s) = r ->
      r = Raise missing_profile_record \/ r = Raise missing_key_field \/
      r = Raise TypeError \/ exists auth_key, r = Ok auth_key).
  { intros r <-. rewrite auth_key_from_storage_data_unfold.
    destruct (profile_record storage_data) as [v|] eqn:Hp; [ | now left ].
    pose proof (profile_record_contains_auth _ _ Hp) as Hc.
    destruct v as [| | | | |d]; try discriminate. cbn [contains_auth] in Hc.
    destruct (auth_key_of_profile_record d
                (State (world s) (log s ++ [Log INFO "Found profile data" []])
                   (launched s)) Hc) as (auth_data & _ & ->).
    destruct auth_data as [| | | |l|a]; cbn [py_contains rbind]; auto.
    - destruct (str_contains "key" s0); cbn [py_getitem]; auto.
    - destruct (existsb _ l); cbn [py_getitem]; auto.
    - unfold py_getitem, dict_mem.
      destruct (dict_get "key" a); eauto. }
  repeat split.
  - rewrite find_profile_data_spec.
    destruct (profile_record storage_data) as [v|] eqn:Hp.
    + do 2 eexists. split; [ reflexivity | ]. right.
      now apply (profile_record_contains_auth storage_data).
    + do 2 eexists. split; [ reflexivity | now left ].
  - intros H.
    destruct (Hcases _ H) as [H'|[H'|[H'|[k H']]]]; discriminate.
  - intros msg H.
    destruct (Hcases _ H) as [H'|[H'|[H'|[k H']]]];
      try discriminate; injection H' as ->; auto.
Qed.

End TokenExtraction.

Lemma credential_shape_failures_witness :
  fst (AuthExtractor.auth_key_from_storage_data unit
         [("installation_id", Py.VStr "abc")] AuthSpec.initial_state) =
  Py.Raise AuthSpec.missing_profile_record /\
  fst (AuthExtractor.auth_key_from_storage_data unit
         [("profile", Py.VDict [("settings", Py.VDict [])])]
         AuthSpec.initial_state) =
  Py.Raise AuthSpec.missing_profile_record /\
  fst (AuthExtractor.auth_key_from_storage_data unit
         [("profile", Py.VDict [("auth", Py.VDict [("user", Py.VStr "u")])])]
         AuthSpec.initial_state) =
  Py.Raise AuthSpec.missing_key_field.
Proof.
  split; [ | split ].
  - exact (proj1 (credential_shape_failures unit
                    [("installation_id", Py.VStr "abc")]
                    AuthSpec.initial_state)
             ltac:(repeat constructor)).
  - exact (proj1 (proj2 (credential_shape_failures unit []
                    AuthSpec.initial_state))
             "profile" [("settings", Py.VDict [])] eq_refl).
  - exact (proj1 (proj2 (proj2 (credential_shape_failures unit
                    [("profile", Py.VDict [("auth", Py.VDict [("user", Py.VStr "u")])])]
                    AuthSpec.initial_state)))
             _ _ eq_refl eq_refl).
Defined.

(** There are no three failures for the three shapes: a snapshot whose
    profile record lacks its [auth] field fails as a snapshot without
    any record does, with the missing-profile-record label and not with
    the missing-auth one. *)
Lemma record_without_auth_is_not_told_apart :
  fst (AuthExtractor.auth_key_from_storage_data unit
         [("profile", Py.VDict [("settings", Py.VDict [])])]
         AuthSpec.initial_state) =
  fst (AuthExtractor.auth_key_from_storage_data unit
         [("installation_id", Py.VStr "abc")] AuthSpec.initial_state) /\
  fst (AuthExtractor.auth_key_from_storage_data unit
         [("profile", Py.VDict [("settings", Py.VDict [])])]
         AuthSpec.initial_state) <>
  Py.Raise AuthSpec.missing_auth_field.
Proof. split; [ reflexivity | discriminate ]. Qed.

(** A profile record whose [auth] is [null], as a browser that is not
    logged in stores it: the key test itself raises, a failure that is
    neither the missing-profile-record nor the missing-key one. *)
Lemma null_auth_raises_type_error :
  fst (AuthExtractor.auth_key_from_storage_data unit
         [("profile", Py.VDict [("auth", Py.VNone)])]
         AuthSpec.initial_state) = Py.Raise Py.TypeError /\
  ~ (Py.TypeError = AuthSpec.missing_profile_record \/
     Py.TypeError = AuthSpec.missing_key_field).
Proof.
  split; [ reflexivity | intros [H|H]; discriminate ].
Qed.

Lemma missing_auth_branch_unreachable_witness :
  exists profile_data s',
    AuthExtractor.find_profile_data unit
      [("installation_id", Py.VStr "abc");
       ("profile", Py.VDict [("auth", Py.VDict [])])]
      AuthSpec.initial_state = (Py.Ok profile_data, s') /\
    (profile_data = Py.VNone \/ AuthSpec.contains_auth profile_data = true).
Proof.
  exact (proj1 (missing_auth_branch_unreachable unit
           [("installation_id", Py.VStr "abc");
            ("profile", Py.VDict [("auth", Py.VDict [])])]
           AuthSpec.initial_state)).
Defined.

(** ** Properties of the browser launch *)

Section BrowserLaunch.
Import Py AuthExtractor AuthSpec.

Variables World Browser Page Element : Type.
Variable launch : engine -> bool -> World -> result Browser * World.
Variable new_page : Browser -> World -> result Page * World.
Variable browser_close : Browser -> World -> result unit * World.
Variable goto : Page -> string -> string -> World -> result unit * World.
Variable wait_for_selector :
  Page -> string -> option string -> option Z -> World -> result Element * World.
Variable query_selector : Page -> string -> World -> result (option Element) * World.
Variable click : Element -> World -> result unit * World.
Variable fill : Element -> value -> World -> result unit * World.
Variable wait_for_timeout : Page -> Z -> World -> result unit * World.
Variable wait_for_load_state : Page -> string -> World -> result unit * World.
Variable evaluate_localStorage : Page -> World -> result (list (string * value)) * World.
Variable getenv : string -> World -> value.

Local Abbreviation extract_auth_key' :=
  (extract_auth_key World Browser Page Element launch new_page browser_close
     goto wait_for_selector query_selector click fill wait_for_timeout
     wait_for_load_state evaluate_localStorage).

Local Abbreviation extract_stremio_auth_key' :=
  (extract_stremio_auth_key World Browser Page Element launch new_page
     browser_close goto wait_for_selector query_selector click fill
     wait_for_timeout wait_for_load_state evaluate_localStorage getenv).

Lemma launches_nothing_ret A (a : A) : launches_nothing (@ret (state World) A a).
Proof. intros s. reflexivity. Qed.

Lemma launches_nothing_raise A e : launches_nothing (@raise (state World) A e).
Proof. intros s. reflexivity. Qed.

Lemma launches_nothing_lift A (r : result A) :
  launches_nothing (@lift (state World) A r).
Proof. intros s. reflexivity. Qed.

Lemma launches_nothing_call A (f : World -> result A * World) :
  launches_nothing (call World f).
Proof. intros s. unfold call. now destruct (f (world s)). Qed.

Lemma launches_nothing_log lvl fmt args :
  launches_nothing (logger_log World lvl fmt args).
Proof. intros s. reflexivity. Qed.

Lemma launches_nothing_bind A B (m : M (state World) A) (k : A -> M (state World) B) :
  launches_nothing m -> (forall a, launches_nothing (k a)) ->
  launches_nothing (bind m k).
Proof.
  intros Hm Hk s. unfold bind. specialize (Hm s).
  destruct (m s) as [[a|e] s']; cbn [snd] in *; [ | exact Hm ].
  now rewrite Hk.
Qed.

Lemma launches_nothing_try_except A (body : M (state World) A) handler :
  launches_nothing body -> (forall e, launches_nothing (handler e)) ->
  launches_nothing (try_except body handler).
Proof.
  intros Hb Hh s. unfold try_except. specialize (Hb s).
  destruct (body s) as [[a|e] s']; cbn [snd] in *; [ exact Hb | ].
  now rewrite Hh.
Qed.

Lemma launches_nothing_try_except_Exception A (body : M (state World) A) handler :
  launches_nothing body -> (forall e, launches_nothing (handler e)) ->
  launches_nothing (try_except_Exception body handler).
Proof.
  intros Hb Hh s. unfold try_except_Exception. specialize (Hb s).
  destruct (body s) as [[a|e] s']; cbn [snd] in *; [ exact Hb | ].
  destruct (is_Exception e); [ now rewrite Hh | exact Hb ].
Qed.

Lemma launches_nothing_try_finally A (body : M (state World) A) cleanup :
  launches_nothing body -> launches_nothing cleanup ->
  launches_nothing (try_finally body cleanup).
Proof.
  intros Hb Hc s. unfold try_finally. specialize (Hb s).
  destruct (body s) as [r s']. specialize (Hc s').
  destruct (cleanup s') as [[u|e] s'']; cbn [snd] in *; congruence.
Qed.

Lemma launches_nothing_find_profile_data items :
  launches_nothing (find_profile_data World items).
Proof.
  induction items as [|[key v] rest IH]; cbn [find_profile_data].
  - apply launches_nothing_ret.
  - destruct (is_dict v); [ | exact IH ].
    apply launches_nothing_bind; [ apply launches_nothing_lift | ].
    intros [|]; [ | exact IH ].
    apply launches_nothing_bind;
      [ apply launches_nothing_log | intros; apply launches_nothing_ret ].
Qed.

(** Every step of the session is one of the above. *)
Ltac launches :=
  repeat first
    [ apply launches_nothing_try_except_Exception
    | apply launches_nothing_bind | apply launches_nothing_try_except
    | apply launches_nothing_try_finally | apply launches_nothing_ret
    | apply launches_nothing_raise | apply launches_nothing_lift
    | apply launches_nothing_call | apply launches_nothing_log
    | apply launches_nothing_find_profile_data
    | match goal with
      | |- launches_nothing (match ?x with _ => _ end) => destruct x
      | |- forall _, _ => intro
      end ].

Lemma launches_nothing_session self (browser : Browser) :
  launches_nothing
    (try_finally
       (try_except_Exception
          (page <- _create_page World Browser Page new_page browser ;;
           _navigate_and_login World Page Element goto wait_for_selector
             query_selector click fill wait_for_timeout wait_for_load_state
             self page ;;;
           _extract_auth_key_from_storage World Page wait_for_timeout
             evaluate_localStorage page)%py
          (fun e =>
             logger_log World ERROR "Auth extraction failed: {}" [AExn e] ;;;
             raise e)%py)
       (call World (browser_close browser))).
Proof.
  unfold _create_page, _navigate_and_login, _perform_login, _fill_credentials,
    _extract_auth_key_from_storage, auth_key_from_storage_data,
    auth_key_of_profile.
  launches.
Qed.

Lemma extract_auth_key_launched self headless (s : state World) :
  launched (snd (extract_auth_key' self headless s)) =
  launched s ++ [(browsers_get (browser_type self), true)].
Proof.
  unfold extract_auth_key, bind at 1, _launch_browser, launcher_launch.
  destruct (launch (browsers_get (browser_type self)) true (world s))
    as [[browser|e] w]; [ | reflexivity ].
  now rewrite launches_nothing_session.
Qed.

(** ** Claim on the browser launch *)

(** C9. The [headless] argument is ignored: [extract_auth_key] and
    [extract_stremio_auth_key] run the same, result and final state, on
    any two values of [headless]; [extract_auth_key] launches the browser
    once, with [headless=True]; and whatever [extract_stremio_auth_key]
    launches (nothing when the credentials are not set) is launched with
    [headless=True]. *)
Theorem headless_is_ignored
    (self : StremioAuthExtractor) (browser_type : string)
    (headless headless' : value) (s : state World) :
  extract_auth_key' self headless s = extract_auth_key' self headless' s /\
  extract_stremio_auth_key' headless browser_type s =
  extract_stremio_auth_key' headless' browser_type s /\
  launched (snd (extract_auth_key' self headless s)) =
  launched s ++ [(browsers_get (AuthExtractor.browser_type self), true)] /\
  exists launches,
    launched (snd (extract_stremio_auth_key' headless browser_type s)) =
    launched s ++ launches /\
    Forall (fun l => snd l = true) launches.
Proof.
  split; [ reflexivity | ]. split; [ reflexivity | ].
  split; [ apply extract_auth_key_launched | ].
  unfold extract_stremio_auth_key, bind at 1, __init__, _load_credentials.
  destruct (negb (truthy (getenv "STREMIO_EMAIL" (world s))) ||
            negb (truthy (getenv "STREMIO_PASSWORD" (world s)))).
  - exists []. split; [ now rewrite app_nil_r | constructor ].
  - eexists. split; [ apply extract_auth_key_launched | ].
    repeat constructor.
Qed.

End BrowserLaunch.

(** ** Properties of the restore loop *)

Section Batches.
Import Py LibraryImporter ImporterSpec.

(** [range] has stepped past [stop] before its fuel is spent. *)
Lemma range_from_length fuel : forall i n,
  n - i <= fuel ->
  length (range_from fuel i n batch_size) = batches_needed (n - i).
Proof.
  unfold batches_needed, batch_size. cbn [Nat.sub].
  induction fuel as [|fuel IH]; intros i n Hfuel; cbn [range_from].
  - replace (n - i) with 0 by lia. reflexivity.
  - destruct (Nat.ltb_spec i n) as [Hlt|Hge].
    + cbn [length]. rewrite IH by lia.
      destruct (Nat.le_gt_cases 50 (n - i)) as [Hbig|Hsmall].
      * replace (n - i + 49) with (n - (i + 50) + 49 + 1 * 50) by lia.
        rewrite Nat.div_add by lia. lia.
      * replace (n - (i + 50)) with 0 by lia.
        rewrite (Nat.div_small (0 + 49)) by lia.
        apply (Nat.div_unique (n - i + 49) 50 1 (n - i - 1)); lia.
    + replace (n - i) with 0 by lia. reflexivity.
Qed.

(** [batches_needed n] is the least number of batches of 50 that hold
    [n] items. *)
Lemma batches_needed_ceil n :
  n <= 50 * batches_needed n < n + 50.
Proof.
  unfold batches_needed, batch_size. cbn [Nat.sub].
  pose proof (Nat.div_mod_eq (n + 49) 50) as Hdiv.
  pose proof (Nat.mod_upper_bound (n + 49) 50) as Hmod.
  lia.
Qed.

(** The slices taken at the indices of [range] are the list, cut in order. *)
Lemma range_from_chunks (l : list value) fuel : forall i,
  length l - i <= fuel ->
  concat (map (fun j => firstn batch_size (skipn j l))
            (range_from fuel i (length l) batch_size)) = skipn i l.
Proof.
  induction fuel as [|fuel IH]; intros i Hfuel; cbn [range_from].
  - cbn [map concat]. symmetry. apply skipn_all2. lia.
  - destruct (Nat.ltb_spec i (length l)) as [Hlt|Hge].
    + cbn [map concat]. rewrite IH by (unfold batch_size; lia).
      rewrite (Nat.add_comm i batch_size), <- skipn_skipn.
      apply firstn_skipn.
    + cbn [map concat]. symmetry. now apply skipn_all2.
Qed.

End Batches.

Section Restore.
Import Py LibraryImporter ImporterSpec.

Variable World : Type.
Variable requests_post : string -> value -> World -> result value * World.

Local Abbreviation restore_batch' := (restore_batch World requests_post).
Local Abbreviation for_batches' := (for_batches World requests_post).
Local Abbreviation restore_library' := (restore_library World requests_post).

(** One round on a list of items: one write call, one line in the log,
    and the batch counted when the call succeeded; the round returns
    whatever the call did. *)
Lemma restore_batch_spec auth_key (l : list value) total_items i c (s : state World) :
  restore_batch' auth_key (VList l) total_items i c s =
  let batch := firstn batch_size (skipn i l) in
  let (r, w) := requests_post url (payload_of auth_key batch) (world s) in
  (Ok (c + if succeeded r then length batch else 0),
   State w (log s ++ [batch_record total_items i batch r])
     (calls s ++ [HttpPost url (payload_of auth_key batch) r])).
Proof.
  unfold restore_batch, bind at 1, lift at 1. cbn [py_slice].
  rewrite Nat.add_comm, Nat.add_sub. cbv zeta.
  unfold try_except, bind at 1, post. fold (payload_of auth_key (firstn batch_size (skipn i l))).
  cbn [world log calls].
  destruct (requests_post url _ (world s)) as [[body|e] w]; cbn [succeeded].
  - unfold bind at 1, lift at 1. unfold batch_record.
    destruct (acknowledged body) as [[|]|e]; cbn [py_len];
      unfold bind, lift, logger_log, ret; cbn [world log calls];
      now rewrite ?Nat.add_0_r.
  - unfold bind, logger_log, ret. cbn [world log calls batch_record].
    now rewrite Nat.add_0_r.
Qed.

(** The loop over a list of indices: a write call for each index, in
    order, whatever the earlier calls returned. *)
Lemma for_batches_spec auth_key (l : list value) total_items indices :
  forall c (s : state World),
  exists posts s',
    for_batches' auth_key (VList l) total_items indices c s =
    (Ok (c + tally posts), s') /\
    map fst posts = map (fun i => firstn batch_size (skipn i l)) indices /\
    calls s' = calls s ++ post_calls auth_key posts /\
    log s' = log s ++
             map (fun ip => batch_record total_items (fst ip)
                              (fst (snd ip)) (snd (snd ip)))
                 (combine indices posts).
Proof.
  induction indices as [|i rest IH]; intros c s; cbn [for_batches].
  - exists [], s. cbn. now rewrite Nat.add_0_r, !app_nil_r.
  - unfold bind at 1. rewrite restore_batch_spec. cbv zeta.
    destruct (requests_post url _ (world s)) as [r w].
    match goal with
    | |- context [for_batches' _ _ _ _ ?c' ?s'] =>
        destruct (IH c' s') as (posts & s'' & Hrun & Hb & Hc & Hl)
    end.
    exists ((firstn batch_size (skipn i l), r) :: posts), s''.
    cbn [world log calls] in Hc, Hl.
    rewrite Hrun, Hc, Hl. cbn [tally map fst snd combine post_calls].
    rewrite Hb, <- !app_assoc, Nat.add_assoc. cbn [app].
    repeat split.
Qed.

(** [restore_library] on a list of items. *)
Lemma restore_library_spec auth_key (l : list value) (s : state World) :
  exists posts s',
    restore_library' auth_key (VList l) s = (Ok (tally posts), s') /\
    length posts = batches_needed (length l) /\
    Forall (fun p => length (fst p) <= batch_size) posts /\
    concat (map fst posts) = l /\
    calls s' = calls s ++ post_calls auth_key posts /\
    log s' = log s ++ restore_log (length l) posts.
Proof.
  unfold restore_library, bind at 1, lift at 1. cbn [py_len].
  unfold bind at 1, logger_log at 1.
  match goal with
  | |- context [for_batches' _ _ _ ?ix ?c' ?s'] =>
      destruct (for_batches_spec auth_key l (length l) ix c' s')
        as (posts & s'' & Hrun & Hb & Hc & Hl)
  end.
  cbn [world log calls] in Hc, Hl.
  assert (Hlen : length posts = batches_needed (length l)).
  { rewrite <- (length_map fst), Hb, length_map. unfold py_range.
    rewrite range_from_length by lia. now rewrite Nat.sub_0_r. }
  exists posts, s''. rewrite Hrun. cbn [Nat.add].
  repeat split; auto.
  - rewrite Forall_forall. intros p Hp.
    apply (in_map fst) in Hp. rewrite Hb in Hp.
    apply in_map_iff in Hp as (i & <- & _). apply firstn_le_length.
  - rewrite Hb. unfold py_range. rewrite range_from_chunks by lia.
    reflexivity.
  - rewrite Hl, <- app_assoc. reflexivity.
Qed.

(** The recorded calls determine the batches and their responses. *)
Lemma post_calls_inj auth_key posts : forall posts',
  post_calls auth_key posts = post_calls auth_key posts' -> posts = posts'.
Proof.
  induction posts as [|[b r] rest IH]; intros [|[b' r'] rest'];
    cbn [post_calls map fst snd]; try discriminate.
  - reflexivity.
  - unfold payload_of. intros [= -> -> H]. f_equal. now apply IH.
Qed.

Lemma succeeded_iff (response : result value) :
  succeeded response = true <->
  exists d, response = Ok (VDict d) /\
    (dict_get "result" d = Some (VStr "ok") \/
     exists v, dict_get "success" d = Some v /\ eq_True v = true).
Proof.
  unfold succeeded, acknowledged. split.
  - destruct response as [body|e]; [ | discriminate ].
    destruct body as [| | | | |d]; try discriminate. cbn [py_get rbind].
    intros H. exists d. split; [ reflexivity | ].
    destruct (dict_get "result" d) as [r|] eqn:Er.
    + destruct (eq_str r "ok") eqn:Eok.
      * left. destruct r; try discriminate. cbn [eq_str] in Eok.
        apply String.eqb_eq in Eok. now subst.
      * right. destruct (dict_get "success" d) as [v|]; [ eauto | discriminate ].
    + cbn [eq_str] in H. right.
      destruct (dict_get "success" d) as [v|]; [ eauto | discriminate ].
  - intros (d & -> & [H|(v & H & Hv)]); cbn [py_get rbind].
    + now rewrite H.
    + rewrite H. now destruct (eq_str _ "ok").
Qed.

(** ** Claims on [restore_library] *)

(** C2. Batch chunking: on a list of N items [restore_library] makes
    exactly ceil(N/50) write calls (the least number of batches of 50
    that hold N items), one after the other, each carrying at most 50
    items; the batches, put end to end in the order of the calls, are the
    N items in their original order. *)
Theorem batch_chunking (auth_key : value) (l : list value) (s : state World) :
  exists posts,
    calls (snd (restore_library' auth_key (VList l) s)) =
    calls s ++ post_calls auth_key posts /\
    length posts = batches_needed (length l) /\
    length l <= 50 * length posts < length l + 50 /\
    Forall (fun p => length (fst p) <= 50) posts /\
    concat (map fst posts) = l.
Proof.
  destruct (restore_library_spec auth_key l s)
    as (posts & s' & Hrun & Hlen & Hle & Hcat & Hcalls & _).
  exists posts. rewrite Hrun. repeat split; auto;
    rewrite Hlen; apply batches_needed_ceil.
Qed.

(** C1. Partial-failure tally: the count [restore_library] returns is the
    total size of the batches whose response indicates [result == "ok"]
    or [success == true]; a batch whose call raised (transport, HTTP
    status, undecodable body) or whose body indicates neither adds
    nothing, and is followed by the next batch: every batch is sent and
    leaves its line in the log (see [batch_record]), whatever happened to
    the ones before.  With
    three batches of which the second fails, the count is the size of the
    first plus the size of the third, out of the N items that the three
    batches make up. *)
Theorem partial_failure_tally (auth_key : value) (l : list value) (s : state World) :
  exists posts,
    fst (restore_library' auth_key (VList l) s) = Ok (tally posts) /\
    calls (snd (restore_library' auth_key (VList l) s)) =
    calls s ++ post_calls auth_key posts /\
    length posts = batches_needed (length l) /\
    concat (map fst posts) = l /\
    log (snd (restore_library' auth_key (VList l) s)) =
    log s ++ restore_log (length l) posts /\
    (forall response,
        succeeded response = true <->
        exists d, response = Ok (VDict d) /\
          (dict_get "result" d = Some (VStr "ok") \/
           exists v, dict_get "success" d = Some v /\ eq_True v = true)) /\
    (forall b1 r1 b2 r2 b3 r3,
        posts = [(b1, r1); (b2, r2); (b3, r3)] ->
        succeeded r1 = true -> succeeded r2 = false -> succeeded r3 = true ->
        fst (restore_library' auth_key (VList l) s) =
        Ok (length b1 + length b3) /\
        length l = length b1 + length b2 + length b3).
Proof.
  destruct (restore_library_spec auth_key l s)
    as (posts & s' & Hrun & Hlen & Hle & Hcat & Hcalls & Hlog).
  exists posts. rewrite Hrun. cbn [fst snd].
  repeat (split; [ solve [ auto | apply succeeded_iff ] | ]).
  intros b1 r1 b2 r2 b3 r3 -> H1 H2 H3.
  cbn [tally]. rewrite H1, H2, H3.
  cbn [map fst concat] in Hcat. rewrite <- Hcat, !length_app.
  cbn [length]. split; [ f_equal | ]; lia.
Qed.

End Restore.

Lemma partial_failure_tally_witness :
  fst (LibraryImporter.restore_library nat ImporterSpec.second_call_fails
         (Py.VStr "key") (Py.VList (ImporterSpec.numbered_items 120))
         ImporterSpec.initial_state) = Py.Ok (50 + 20) /\
  length (ImporterSpec.numbered_items 120) = 50 + 50 + 20.
Proof.
  destruct (partial_failure_tally nat ImporterSpec.second_call_fails
              (Py.VStr "key") (ImporterSpec.numbered_items 120)
              ImporterSpec.initial_state)
    as (posts & _ & Hcalls & _ & _ & _ & _ & H3).
  pose (b1 := firstn 50 (ImporterSpec.numbered_items 120)).
  pose (b2 := firstn 50 (skipn 50 (ImporterSpec.numbered_items 120))).
  pose (b3 := skipn 100 (ImporterSpec.numbered_items 120)).
  pose (ok := @Py.Ok Py.value (Py.VDict [("result", Py.VStr "ok")])).
  pose (ko := @Py.Raise Py.value (Py.External "HTTPError" "500 Server Error")).
  assert (Hposts : posts = [(b1, ok); (b2, ko); (b3, ok)]).
  { apply (post_calls_inj (Py.VStr "key")).
    apply (app_inv_head (LibraryImporter.calls ImporterSpec.initial_state)).
    rewrite <- Hcalls. vm_compute. reflexivity. }
  exact (H3 b1 ok b2 ko b3 ok Hposts eq_refl eq_refl eq_refl).
Defined.

(** The same run, by its log: the opening line, then a line for each of
    the three batches, the second an error. *)
Example second_batch_failure_is_logged :
  map Py.log_level
    (LibraryImporter.log
       (snd (LibraryImporter.restore_library nat ImporterSpec.second_call_fails
               (Py.VStr "key") (Py.VList (ImporterSpec.numbered_items 120))
               ImporterSpec.initial_state))) =
  [Py.INFO; Py.INFO; Py.ERROR; Py.INFO].
Proof. vm_compute. reflexivity. Qed.

(** ** Properties of the backup loader *)

Section Backup.
Import Py LibraryImporter ImporterSpec.

Variable World : Type.
Variable path_exists : string -> World -> bool.
Variable read_json : string -> World -> result value.
Variable requests_post : string -> value -> World -> result value * World.
Variable extract_stremio_auth_key : value -> World -> result value * World.

Local Abbreviation load_backup' := (load_backup World read_json).
Local Abbreviation main' :=
  (main World path_exists read_json requests_post extract_stremio_auth_key).

(** [load_backup] reads and nothing else: its outcome is [loaded] of what
    the read gave, and the state is as before. *)
Lemma load_backup_spec filepath (s : state World) :
  load_backup' filepath s = (loaded (read_json filepath (world s)), s).
Proof.
  unfold load_backup, try_except, bind at 1.
  destruct (read_json filepath (world s)) as [data|e]; [ | reflexivity ].
  destruct data as [| | | | |d]; try reflexivity.
  unfold bind, lift, raise, ret. cbn [is_dict py_contains py_getitem loaded].
  unfold dict_mem. now destruct (dict_get "result" d).
Qed.

(** When the loader fails, [main] logs the failure and returns 1; the
    world and the record of network calls are as they were. *)
Lemma loaded_raises_ValueError (read : result value) e :
  loaded read = Raise e -> exists msg, e = ValueError msg.
Proof.
  destruct read as [data|e0]; cbn [loaded].
  - destruct data as [| | | |l|d]; try (intros [= <-]; eauto); try discriminate.
    destruct (dict_get "result" d); [ discriminate | intros [= <-]; eauto ].
  - intros [= <-]. eauto.
Qed.

Lemma main_load_failure filepath (s : state World) e :
  fst (load_backup' filepath s) = Raise e ->
  exists s', main' filepath s = (Ok 1%Z, s') /\
             calls s' = calls s /\ world s' = world s.
Proof.
  intros Hfail. unfold main, bind at 1.
  destruct (path_exists filepath (world s)); cbn [negb].
  - unfold try_except_Exception, bind at 1, logger_log at 1, bind at 1.
    rewrite load_backup_spec in *. cbn [fst world] in *. rewrite Hfail.
    destruct (loaded_raises_ValueError _ _ Hfail) as [msg ->].
    cbn [is_Exception].
    eexists. split; [ reflexivity | split; reflexivity ].
  - eexists. split; [ reflexivity | split; reflexivity ].
Qed.

(** ** Claim on the backup loader *)

(** C7. The loader accepts the two shapes of the backup artifact: from a
    mapping with a [result] key it returns what the key holds, and a bare
    list it returns as it is.  Nothing else is accepted: whenever the
    loader returns, the document had one of the two shapes.  On a file
    that cannot be read or decoded, or a document of neither shape, it
    fails with a [ValueError]; [main] then returns 1 having made no
    network call, neither the log-in nor a write. *)
Theorem backup_loader_shapes (filepath : string) (s : state World) :
  (forall d items,
      read_json filepath (world s) = Ok (VDict d) ->
      dict_get "result" d = Some items ->
      load_backup' filepath s = (Ok items, s)) /\
  (forall l,
      read_json filepath (world s) = Ok (VList l) ->
      load_backup' filepath s = (Ok (VList l), s)) /\
  (forall items,
      fst (load_backup' filepath s) = Ok items ->
      (exists d, read_json filepath (world s) = Ok (VDict d) /\
                 dict_get "result" d = Some items) \/
      (exists l, read_json filepath (world s) = Ok (VList l) /\
                 items = VList l)) /\
  (forall e,
      fst (load_backup' filepath s) = Raise e ->
      (exists msg, e = ValueError msg) /\
      exists s', main' filepath s = (Ok 1%Z, s') /\
                 calls s' = calls s /\ world s' = world s).
Proof.
  repeat split.
  - intros d items Hr Hd. rewrite load_backup_spec, Hr. cbn [loaded].
    now rewrite Hd.
  - intros l Hr. now rewrite load_backup_spec, Hr.
  - intros items. rewrite load_backup_spec. cbn [fst].
    destruct (read_json filepath (world s)) as [data|e]; [ | discriminate ].
    destruct data as [| | | |l|d]; try discriminate; cbn [loaded].
    + intros [= <-]. right. eauto.
    + destruct (dict_get "result" d) as [v|] eqn:Hd; [ | discriminate ].
      intros [= <-]. left. eauto.
  - revert H. rewrite load_backup_spec. cbn [fst].
    destruct (read_json filepath (world s)) as [data|e0]; cbn [loaded].
    + destruct data as [| | | |l|d]; try (intros [= <-]; eauto); try discriminate.
      destruct (dict_get "result" d); [ discriminate | intros [= <-]; eauto ].
    + intros [= <-]. eauto.
  - now apply main_load_failure with (e := e).
Qed.

End Backup.

Lemma backup_loader_shapes_witness :
  exists s',
    LibraryImporter.main nat ImporterSpec.file_exists ImporterSpec.read_number
      ImporterSpec.second_call_fails ImporterSpec.no_login
      "library_backup.json" ImporterSpec.initial_state =
    (Py.Ok 1%Z, s') /\
    LibraryImporter.calls s' = [] /\ LibraryImporter.world s' = 0.
Proof.
  exact (proj2 (proj2 (proj2 (proj2
           (backup_loader_shapes nat ImporterSpec.file_exists
              ImporterSpec.read_number ImporterSpec.second_call_fails
              ImporterSpec.no_login "library_backup.json"
              ImporterSpec.initial_state))) _ eq_refl)).
Defined.

(** ** Further properties of [parse_library_data] *)

Section ParseEdges.
Import Py MovieExtractor MovieSpec.

(** The envelope of the response: a mapping without [result] is an empty
    library; a response that is no mapping, or a [result] that cannot be
    iterated, raises, and nothing is logged. *)
Theorem response_envelope_edges (api_response : value) (lg : logger) :
  (forall d, api_response = VDict d -> dict_get "result" d = None ->
     parse_library_data api_response lg =
     (Ok ([], []), lg ++ [parsed_record [] []])) /\
  (is_dict api_response = false ->
     parse_library_data api_response lg = (Raise AttributeError, lg)) /\
  (forall d result e,
     api_response = VDict d -> dict_get "result" d = Some result ->
     py_iter result = Raise e ->
     parse_library_data api_response lg = (Raise e, lg)).
Proof.
  split; [ | split ].
  - intros d -> Hd. unfold parse_library_data, bind, lift. cbn [py_get].
    rewrite Hd. reflexivity.
  - intros H. destruct api_response; try discriminate; reflexivity.
  - intros d result e -> Hd He.
    unfold parse_library_data, bind, lift. cbn [py_get]. now rewrite Hd, He.
Qed.

Lemma response_envelope_edges_witness :
  parse_library_data (VDict [("error", VStr "auth")]) [] =
  (Ok ([], []), [parsed_record [] []]) /\
  parse_library_data (VList [record_a]) [] = (Raise AttributeError, []) /\
  parse_library_data (VDict [("result", VNone)]) [] = (Raise TypeError, []).
Proof.
  split; [ | split ].
  - exact (proj1 (response_envelope_edges (VDict [("error", VStr "auth")]) [])
             _ eq_refl eq_refl).
  - exact (proj1 (proj2 (response_envelope_edges (VList [record_a]) []))
             eq_refl).
  - exact (proj2 (proj2 (response_envelope_edges
                           (VDict [("result", VNone)]) []))
             _ _ _ eq_refl eq_refl eq_refl).
Defined.

(** The loop adds to the lists it is given what it adds to empty ones. *)
Lemma for_items_acc items : forall w wl,
  for_items items (w, wl) =
  rbind (for_items items ([], []))
        (fun r => Ok (w ++ fst r, wl ++ snd r)).
Proof.
  induction items as [|item rest IH]; intros w wl; cbn [for_items rbind].
  - cbn [fst snd]. now rewrite !app_nil_r.
  - rewrite (process_item_acc item w wl).
    destruct (process_item item ([], [])) as [[p q]|e];
      cbn [rbind fst snd]; [ | reflexivity ].
    rewrite (IH (w ++ p) (wl ++ q)), (IH p q).
    destruct (for_items rest ([], [])) as [[u v]|e];
      cbn [rbind fst snd]; [ | reflexivity ].
    now rewrite !app_assoc.
Qed.

(** The partitions of a concatenated input are the partitions of its two
    parts, put end to end: categorising is done record by record. *)
Theorem parse_distributes_over_concatenation
    (items1 items2 w1 wl1 w2 wl2 : list value) (lg : logger) :
  fst (parse_library_data (api_response_of items1) lg) = Ok (w1, wl1) ->
  fst (parse_library_data (api_response_of items2) lg) = Ok (w2, wl2) ->
  fst (parse_library_data (api_response_of (items1 ++ items2)) lg) =
  Ok (w1 ++ w2, wl1 ++ wl2).
Proof.
  rewrite (parse_library_data_unfold (api_response_of items1) items1 lg eq_refl),
          (parse_library_data_unfold (api_response_of items2) items2 lg eq_refl),
          (parse_library_data_unfold (api_response_of (items1 ++ items2))
             (items1 ++ items2) lg eq_refl).
  rewrite for_items_app.
  destruct (for_items items1 ([], [])) as [[a b]|e]; [ | discriminate ].
  cbn [rbind]. rewrite (for_items_acc items2 a b).
  destruct (for_items items2 ([], [])) as [[c d]|e]; [ | discriminate ].
  cbn [fst snd rbind]. now intros [= -> ->] [= -> ->].
Qed.

Lemma parse_distributes_over_concatenation_witness :
  fst (parse_library_data (api_response_of ([record_a; record_c] ++ [record_b])) []) =
  Ok ([movie_data (VStr "tt001") (VStr "A") VNone VNone (VStr "movie")] ++ [],
      [] ++ [movie_data (VStr "tt002") (VStr "B") VNone VNone (VStr "movie")]).
Proof.
  exact (parse_distributes_over_concatenation [record_a; record_c] [record_b]
           _ _ _ _ [] eq_refl eq_refl).
Defined.

(** One record that cannot be processed discards the whole library: the
    run raises what that record raised, returns no partition and logs
    nothing, even when every other record is fine. *)
Theorem one_bad_record_discards_all
    (pre post : list value) (item : value) (e : exn) (lg : logger) :
  (exists acc, for_items pre ([], []) = Ok acc) ->
  process_item item ([], []) = Raise e ->
  parse_library_data (api_response_of (pre ++ item :: post)) lg =
  (Raise e, lg).
Proof.
  intros [[w wl] Hpre] Hitem.
  rewrite (parse_library_data_unfold (api_response_of (pre ++ item :: post))
             (pre ++ item :: post) lg eq_refl),
          for_items_app, Hpre.
  cbn [rbind for_items]. rewrite process_item_acc, Hitem. reflexivity.
Qed.

Lemma one_bad_record_discards_all_witness :
  parse_library_data
    (api_response_of
       ([record_a] ++
        VDict [("_id", VStr "tt003"); ("name", VStr "D"); ("state", VNone)]
        :: [record_b])) [] =
  (Raise AttributeError, []).
Proof.
  exact (one_bad_record_discards_all [record_a] [record_b]
           (VDict [("_id", VStr "tt003"); ("name", VStr "D"); ("state", VNone)])
           AttributeError []
           (ex_intro _ _ eq_refl) eq_refl).
Defined.

End ParseEdges.

(** ** Further properties of [restore_library] *)

Section RestoreEdges.
Import Py LibraryImporter ImporterSpec.

Variable World : Type.
Variable requests_post : string -> value -> World -> result value * World.

Local Abbreviation restore_library' := (restore_library World requests_post).

Lemma range_from_below fuel : forall i stop step j,
  In j (range_from fuel i stop step) -> j < stop.
Proof.
  induction fuel as [|fuel IH]; intros i stop step j; cbn [range_from].
  - intros [].
  - destruct (Nat.ltb_spec i stop) as [Hlt|Hge]; [ | intros [] ].
    intros [<-|Hin]; [ exact Hlt | now apply (IH _ _ _ _ Hin) ].
Qed.

Lemma tally_le posts : tally posts <= length (concat (map fst posts)).
Proof.
  induction posts as [|[b r] rest IH]; cbn [tally map fst concat].
  - apply Nat.le_refl.
  - rewrite length_app. destruct (succeeded r); lia.
Qed.

Lemma tally_full posts :
  Forall (fun p => fst p <> []) posts ->
  (tally posts = length (concat (map fst posts)) <->
   Forall (fun p => succeeded (snd p) = true) posts).
Proof.
  induction 1 as [|[b r] rest Hb _ IH]; cbn [tally map fst snd concat].
  - split; [ constructor | reflexivity ].
  - rewrite length_app. pose proof (tally_le rest) as Hle.
    cbn [fst] in Hb. assert (0 < length b) by (destruct b; [ easy | cbn; lia ]).
    split.
    + intros Heq. destruct (succeeded r) eqn:Er; [ | lia ].
      constructor; [ exact Er | apply IH; lia ].
    + intros HF. inversion HF as [|? ? Hr Hrest]; subst. cbn [snd] in Hr.
      rewrite Hr. apply IH in Hrest. lia.
Qed.

(** The run on a list, with its batches named by the indices of the loop. *)
Lemma restore_library_batches auth_key (l : list value) (s : state World) :
  exists posts s',
    restore_library' auth_key (VList l) s = (Ok (tally posts), s') /\
    map fst posts =
    map (fun i => firstn batch_size (skipn i l))
        (py_range 0 (length l) batch_size) /\
    calls s' = calls s ++ post_calls auth_key posts.
Proof.
  unfold restore_library, bind at 1, lift at 1. cbn [py_len].
  unfold bind at 1, logger_log at 1.
  match goal with
  | |- context [for_batches _ _ _ _ _ ?ix ?c' ?s'] =>
      destruct (for_batches_spec World requests_post auth_key l (length l)
                  ix c' s') as (posts & s'' & Hrun & Hb & Hc & _)
  end.
  exists posts, s''. rewrite Hrun. cbn [Nat.add]. auto.
Qed.

(** The count never exceeds the number of items, and it reaches it exactly
    when every write call of the run succeeded. *)
Theorem restored_count_is_bounded
    (auth_key : value) (l : list value) (s : state World) :
  exists n posts,
    fst (restore_library' auth_key (VList l) s) = Ok n /\
    calls (snd (restore_library' auth_key (VList l) s)) =
    calls s ++ post_calls auth_key posts /\
    n <= length l /\
    (n = length l <-> Forall (fun p => succeeded (snd p) = true) posts).
Proof.
  destruct (restore_library_batches auth_key l s)
    as (posts & s' & Hrun & Hb & Hc).
  assert (Hcat : concat (map fst posts) = l).
  { rewrite Hb. unfold py_range. rewrite range_from_chunks by lia.
    reflexivity. }
  assert (Hne : Forall (fun p => fst p <> []) posts).
  { rewrite Forall_forall. intros p Hp.
    apply (in_map fst) in Hp. rewrite Hb in Hp.
    apply in_map_iff in Hp as (i & <- & Hi).
    apply range_from_below in Hi. intros Hnil.
    apply (f_equal (@length value)) in Hnil.
    rewrite length_firstn, length_skipn in Hnil.
    unfold batch_size in Hnil. cbn [length] in Hnil. lia. }
  exists (tally posts), posts. rewrite Hrun. cbn [fst snd].
  repeat split; auto.
  - rewrite <- Hcat. apply tally_le.
  - intros H. apply tally_full; [ exact Hne | now rewrite Hcat ].
  - intros H. apply (tally_full posts Hne) in H. now rewrite Hcat in H.
Qed.

(** Items that are no sequence: a value without a length raises before
    anything is logged or sent; a mapping has a length but cannot be
    sliced, so the run raises at the first batch, or returns 0 when the
    mapping is empty.  No write call is made in any of these cases. *)
Theorem restore_of_non_sequence
    (auth_key items : value) (s : state World) :
  is_list items = false ->
  (forall text, items <> VStr text) ->
  calls (snd (restore_library' auth_key items s)) = calls s /\
  world (snd (restore_library' auth_key items s)) = world s /\
  (is_dict items = false ->
   restore_library' auth_key items s = (Raise TypeError, s)) /\
  (items = VDict [] ->
   fst (restore_library' auth_key items s) = Ok 0) /\
  (forall d, items = VDict d -> d <> [] ->
   exists e, fst (restore_library' auth_key items s) = Raise e).
Proof.
  intros Hl Hs.
  destruct items as [| | |text| |d]; try discriminate;
    try (now destruct (Hs text));
    try (split; [ reflexivity | split; [ reflexivity | ] ];
         split; [ reflexivity | split; intros; discriminate ]).
  split; [ | split; [ | split; [ discriminate | split ] ] ].
  - destruct d; reflexivity.
  - destruct d; reflexivity.
  - intros [= ->]. reflexivity.
  - intros d' [= <-] Hd. destruct d as [|kv d]; [ easy | ].
    eexists. reflexivity.
Qed.

End RestoreEdges.

Lemma restored_count_is_bounded_witness :
  exists posts,
    LibraryImporter.calls
      (snd (LibraryImporter.restore_library nat ImporterSpec.second_call_fails
              (Py.VStr "key") (Py.VList (ImporterSpec.numbered_items 120))
              ImporterSpec.initial_state)) =
    ImporterSpec.post_calls (Py.VStr "key") posts /\
    ~ Forall (fun p => ImporterSpec.succeeded (snd p) = true) posts.
Proof.
  destruct (restored_count_is_bounded nat ImporterSpec.second_call_fails
              (Py.VStr "key") (ImporterSpec.numbered_items 120)
              ImporterSpec.initial_state)
    as (n & posts & Hn & Hcalls & _ & Hall).
  exists posts. split; [ exact Hcalls | ].
  intros HF. apply Hall in HF. rewrite HF in Hn. discriminate Hn.
Defined.

Lemma restore_of_non_sequence_witness :
  LibraryImporter.restore_library nat ImporterSpec.second_call_fails
    (Py.VStr "key") (Py.VInt 5) ImporterSpec.initial_state =
  (Py.Raise Py.TypeError, ImporterSpec.initial_state).
Proof.
  refine (proj1 (proj2 (proj2
    (restore_of_non_sequence nat ImporterSpec.second_call_fails
       (Py.VStr "key") (Py.VInt 5) ImporterSpec.initial_state eq_refl _)))
    eq_refl).
  intros text H. discriminate H.
Defined.

(** ** Further properties of the importer's [main] *)

Section ImporterMain.
Import Py LibraryImporter ImporterSpec.

Variable World : Type.
Variable path_exists : string -> World -> bool.
Variable read_json : string -> World -> result value.
Variable requests_post : string -> value -> World -> result value * World.
Variable extract_stremio_auth_key : value -> World -> result value * World.

Local Abbreviation load_backup' := (load_backup World read_json).
Local Abbreviation restore_library' := (restore_library World requests_post).
Local Abbreviation main' :=
  (main World path_exists read_json requests_post extract_stremio_auth_key).

Ltac run_main :=
  unfold main, bind, try_except_Exception, logger_log, lift, ret, login;
  cbn [world log calls negb].

(** Case analysis on the outcome of the next collaborator of [main]. *)
Ltac next_call :=
  match goal with
  | |- context [load_backup _ _ ?f ?st] =>
      destruct (load_backup World read_json f st)
        as [[?items|?e] ?s] eqn:?Hload
  | |- context [py_len ?v] =>
      destruct (py_len v) as [?n|?e] eqn:?Hlen
  | |- context [extract_stremio_auth_key ?h ?w0] =>
      destruct (extract_stremio_auth_key h w0) as [[?auth_key|?e] ?w] eqn:?Hlogin
  | |- context [restore_library _ _ ?k ?v ?st] =>
      destruct (restore_library World requests_post k v st)
        as [[?restored|?e] ?s] eqn:?Hrestore
  | |- context [is_Exception ?e] =>
      destruct (is_Exception e) eqn:?Hclass
  end; cbn [world log calls].

(** Once the file is found to exist, [main] lets no instance of
    [Exception] out, and its exit code tells what the log ends with: it
    returns 0, the last line of the log being the completion line with
    the count out of the total, or 1, the last line being an error, or
    it raises an exception that is outside [Exception]. *)
Theorem importer_main_returns_exit_code (backup_file : string) (s : state World) :
  path_exists backup_file (world s) = true ->
  exists r s',
    main' backup_file s = (r, s') /\
    match r with
    | Ok code =>
        (code = 0%Z /\
         exists lg restored total,
           log s' = lg ++
             [Log INFO "üéâ Restore completed! Successfully restored {}/{} items."
                [AInt restored; AInt total]]) \/
        (code = 1%Z /\ exists lg fmt args, log s' = lg ++ [Log ERROR fmt args])
    | Raise e => is_Exception e = false
    end.
Proof.
  intros Hfound. run_main. rewrite Hfound. cbn [negb].
  repeat (next_call;
          try (do 2 eexists; split; [ reflexivity | ]; cbn [log];
               first [ assumption
                     | right; split; [ reflexivity | ]; eauto
                     | left; split; [ reflexivity | ]; eauto ])).
Qed.

(** Without the file, or with a document that loads to a value without a
    length (a number under "result", say), [main] returns 1 before the
    log-in: no network call is made and the world is untouched. *)
Theorem importer_main_stops_before_login (backup_file : string) (s : state World) :
  path_exists backup_file (world s) = false \/
  (exists items e,
      fst (load_backup' backup_file s) = Ok items /\ py_len items = Raise e) ->
  exists s',
    main' backup_file s = (Ok 1%Z, s') /\
    calls s' = calls s /\ world s' = world s.
Proof.
  intros H. run_main.
  destruct (path_exists backup_file (world s)) eqn:Hfound; cbn [negb].
  - destruct H as [H|(items & e & Hload & Hlen)]; [ discriminate | ].
    rewrite load_backup_spec in *. cbn [fst world] in *.
    rewrite Hload, Hlen.
    assert (He : is_Exception e = true)
      by (destruct items; try discriminate Hlen; now injection Hlen as <-).
    rewrite He. cbn [world log calls]. eauto.
  - eauto.
Qed.

(** When the log-in fails, the log-in is the only network call of the
    run: nothing is written to the remote library.  If it raised an
    instance of [Exception], [main] logs the failure and returns 1; an
    exception outside [Exception] (an interrupt, a cancelled task) is
    not caught: [main] raises it and logs nothing about it. *)
Theorem importer_main_login_failure
    (backup_file : string) (s : state World) items n e w :
  path_exists backup_file (world s) = true ->
  fst (load_backup' backup_file s) = Ok items ->
  py_len items = Ok n ->
  extract_stremio_auth_key (VBool true) (world s) = (Raise e, w) ->
  exists s',
    main' backup_file s =
    ((if is_Exception e then Ok 1%Z else Raise e), s') /\
    calls s' = calls s ++ [BrowserLogin (VBool true)] /\
    world s' = w /\
    log s' = log s ++
      [Log INFO "Loading backup from {}..." [AVal (VStr backup_file)];
       Log INFO "Loaded {} items from backup" [AInt n];
       Log INFO "Keys needed! Logging in to Stremio..." []] ++
      (if is_Exception e
       then [Log ERROR "‚ùå Restore failed: {}" [AExn e]]
       else []).
Proof.
  intros Hfound Hload Hlen Hlogin. run_main. rewrite Hfound. cbn [negb].
  rewrite load_backup_spec in *. cbn [fst world] in *.
  rewrite Hload, Hlen. cbn [world log calls]. rewrite Hlogin.
  destruct (is_Exception e); cbn [world log calls];
    eexists; (split; [ reflexivity | ]); cbn [world log calls];
    repeat split; rewrite <- ?app_assoc; reflexivity.
Qed.

(** Failed batches do not change the exit code: once the backup is loaded
    as a list and the log-in has succeeded, [main] returns 0 whatever the
    write calls return, and whatever instance of [Exception] they raise.
    The calls of the run are the log-in with [headless=True] followed by
    the write calls, which carry the loaded items; the last line of the
    log gives the count out of the total. *)
Theorem importer_main_exit_code_ignores_failed_batches
    (backup_file : string) (s : state World) (l : list value) auth_key w :
  path_exists backup_file (world s) = true ->
  fst (load_backup' backup_file s) = Ok (VList l) ->
  extract_stremio_auth_key (VBool true) (world s) = (Ok auth_key, w) ->
  (forall u payload w' e,
      fst (requests_post u payload w') = Raise e -> is_Exception e = true) ->
  exists posts s' lg,
    main' backup_file s = (Ok 0%Z, s') /\
    calls s' =
    calls s ++ BrowserLogin (VBool true) :: post_calls auth_key posts /\
    concat (map fst posts) = l /\
    log s' = lg ++
      [Log INFO "üéâ Restore completed! Successfully restored {}/{} items."
         [AInt (tally posts); AInt (length l)]].
Proof.
  intros Hfound Hload Hlogin _. run_main. rewrite Hfound. cbn [negb].
  rewrite load_backup_spec in *. cbn [fst world py_len] in *.
  rewrite Hload. cbn [world log calls py_len]. rewrite Hlogin.
  cbn [world log calls].
  match goal with
  | |- context [restore_library _ _ _ _ ?st] =>
      destruct (restore_library_spec World requests_post auth_key l st)
        as (posts & s' & Hrun & _ & _ & Hcat & Hcalls & Hlog)
  end.
  rewrite Hrun. cbn [world log calls] in *.
  exists posts. eexists. eexists. split; [ reflexivity | ].
  cbn [world log calls]. rewrite Hcalls, <- app_assoc. cbn [app].
  repeat split; auto.
Qed.

End ImporterMain.

Lemma importer_main_returns_exit_code_witness :
  exists r s',
    LibraryImporter.main nat ImporterSpec.file_exists
      ImporterExamples.read_three_items ImporterExamples.every_call_fails
      ImporterExamples.login_interrupted "library_backup.json"
      ImporterSpec.initial_state = (r, s') /\
    match r with
    | Py.Ok code =>
        (code = 0%Z /\
         exists lg restored total,
           LibraryImporter.log s' = lg ++
             [Py.Log Py.INFO "üéâ Restore completed! Successfully restored {}/{} items."
                [Py.AInt restored; Py.AInt total]]) \/
        (code = 1%Z /\
         exists lg fmt args,
           LibraryImporter.log s' = lg ++ [Py.Log Py.ERROR fmt args])
    | Py.Raise e => Py.is_Exception e = false
    end.
Proof.
  exact (importer_main_returns_exit_code nat ImporterSpec.file_exists
           ImporterExamples.read_three_items ImporterExamples.every_call_fails
           ImporterExamples.login_interrupted "library_backup.json"
           ImporterSpec.initial_state eq_refl).
Defined.

Lemma importer_main_stops_before_login_witness :
  exists s',
    LibraryImporter.main nat ImporterSpec.file_exists ImporterExamples.read_result_number
      ImporterSpec.second_call_fails ImporterSpec.no_login
      "library_backup.json" ImporterSpec.initial_state = (Py.Ok 1%Z, s') /\
    LibraryImporter.calls s' = [] /\ LibraryImporter.world s' = 0.
Proof.
  apply (importer_main_stops_before_login nat ImporterSpec.file_exists
           ImporterExamples.read_result_number ImporterSpec.second_call_fails
           ImporterSpec.no_login "library_backup.json"
           ImporterSpec.initial_state).
  right. exists (Py.VInt 5), Py.TypeError. split; reflexivity.
Defined.

Lemma importer_main_login_failure_witness :
  exists s',
    LibraryImporter.main nat ImporterSpec.file_exists ImporterExamples.read_three_items
      ImporterSpec.second_call_fails ImporterExamples.login_times_out
      "library_backup.json" ImporterSpec.initial_state = (Py.Ok 1%Z, s') /\
    LibraryImporter.calls s' = [LibraryImporter.BrowserLogin (Py.VBool true)].
Proof.
  destruct (importer_main_login_failure nat ImporterSpec.file_exists
              ImporterExamples.read_three_items ImporterSpec.second_call_fails
              ImporterExamples.login_times_out "library_backup.json"
              ImporterSpec.initial_state
              (Py.VList (ImporterSpec.numbered_items 3)) 3
              (Py.External "TimeoutError" "Timeout 30000ms exceeded") 0
              eq_refl eq_refl eq_refl eq_refl)
    as (s' & Hrun & Hcalls & _).
  exists s'. split; [ exact Hrun | exact Hcalls ].
Defined.

Lemma importer_main_exit_code_ignores_failed_batches_witness :
  exists s',
    LibraryImporter.main nat ImporterSpec.file_exists ImporterExamples.read_three_items
      ImporterExamples.every_call_fails ImporterSpec.no_login
      "library_backup.json" ImporterSpec.initial_state = (Py.Ok 0%Z, s') /\
    exists lg,
      LibraryImporter.log s' = lg ++
        [Py.Log Py.INFO "üéâ Restore completed! Successfully restored {}/{} items."
           [Py.AInt 0; Py.AInt 3]].
Proof.
  destruct (importer_main_exit_code_ignores_failed_batches nat
              ImporterSpec.file_exists ImporterExamples.read_three_items
              ImporterExamples.every_call_fails ImporterSpec.no_login
              "library_backup.json" ImporterSpec.initial_state
              (ImporterSpec.numbered_items 3) (Py.VStr "key") 0
              eq_refl eq_refl eq_refl
              (fun u payload w' e H =>
                 match H in (_ = r) return
                       match r with
                       | Py.Raise e' => Py.is_Exception e' = true
                       | Py.Ok _ => True
                       end
                 with eq_refl => eq_refl end))
    as (posts & s' & lg & Hrun & Hcalls & Hcat & Hlog).
  exists s'. split; [ exact Hrun | ]. exists lg.
  assert (Hposts : posts =
            [(ImporterSpec.numbered_items 3,
              @Py.Raise Py.value (Py.External "HTTPError" "500 Server Error"))]).
  { apply (post_calls_inj (Py.VStr "key")).
    apply (app_inv_head
             (LibraryImporter.calls ImporterSpec.initial_state ++
              [LibraryImporter.BrowserLogin (Py.VBool true)])).
    rewrite <- app_assoc. cbn [app]. rewrite <- Hcalls.
    apply (f_equal (fun p => LibraryImporter.calls (snd p))) in Hrun.
    cbn [snd] in Hrun. rewrite <- Hrun. vm_compute. reflexivity. }
  rewrite Hposts in Hlog. exact Hlog.
Defined.

(** ** Further properties of [extract_auth_key] *)

Section BrowserSession.
Import Py AuthExtractor AuthSpec.

Variables World Browser Page Element : Type.
Variable launch : engine -> bool -> World -> result Browser * World.
Variable new_page : Browser -> World -> result Page * World.
Variable browser_close : Browser -> World -> result unit * World.
Variable goto : Page -> string -> string -> World -> result unit * World.
Variable wait_for_selector :
  Page -> string -> option string -> option Z -> World -> result Element * World.
Variable query_selector : Page -> string -> World -> result (option Element) * World.
Variable click : Element -> World -> result unit * World.
Variable fill : Element -> value -> World -> result unit * World.
Variable wait_for_timeout : Page -> Z -> World -> result unit * World.
Variable wait_for_load_state : Page -> string -> World -> result unit * World.
Variable evaluate_localStorage : Page -> World -> result (list (string * value)) * World.
Variable getenv : string -> World -> value.

Local Abbreviation extract_auth_key' :=
  (extract_auth_key World Browser Page Element launch new_page browser_close
     goto wait_for_selector query_selector click fill wait_for_timeout
     wait_for_load_state evaluate_localStorage).

Local Abbreviation extract_stremio_auth_key' :=
  (extract_stremio_auth_key World Browser Page Element launch new_page
     browser_close goto wait_for_selector query_selector click fill
     wait_for_timeout wait_for_load_state evaluate_localStorage getenv).

(** The steps inside the [try] of [extract_auth_key]. *)
Local Abbreviation session_steps self browser :=
  (page <- _create_page World Browser Page new_page browser ;;
   _navigate_and_login World Page Element goto wait_for_selector
     query_selector click fill wait_for_timeout wait_for_load_state
     self page ;;;
   _extract_auth_key_from_storage World Page wait_for_timeout
     evaluate_localStorage page)%py.

Lemma extract_auth_key_unfold self headless (s : state World) :
  extract_auth_key' self headless s =
  match launch (browsers_get (browser_type self)) true (world s) with
  | (Ok browser, w1) =>
      try_finally
        (try_except_Exception (session_steps self browser)
           (fun e =>
              logger_log World ERROR "Auth extraction failed: {}" [AExn e] ;;;
              raise e)%py)
        (call World (browser_close browser))
        (State w1 (log s)
           (launched s ++ [(browsers_get (browser_type self), true)]))
  | (Raise e, w1) =>
      (Raise e,
       State w1 (log s)
         (launched s ++ [(browsers_get (browser_type self), true)]))
  end.
Proof.
  unfold extract_auth_key, bind at 1, _launch_browser, launcher_launch.
  now destruct (launch (browsers_get (browser_type self)) true (world s))
    as [[browser|e] w1].
Qed.

(** The browser is released on every path that launched it: whatever the
    steps of the session did, returned or raised, the run ends with
    [browser.close()] on the launched browser, and an exception of the
    close itself is what the run raises.  When the launch fails there is
    no browser: the run raises what the launch raised, closes nothing and
    logs nothing. *)
Theorem browser_is_closed_on_every_path
    (self : StremioAuthExtractor) (headless : value) (s : state World) :
  let launcher := browsers_get (browser_type self) in
  match launch launcher true (world s) with
  | (Ok browser, w1) =>
      let s1 := State w1 (log s) (launched s ++ [(launcher, true)]) in
      exists r s2 r_close w3 lg,
        fst (session_steps self browser s1) = r /\
        world s2 = world (snd (session_steps self browser s1)) /\
        browser_close browser (world s2) = (r_close, w3) /\
        extract_auth_key' self headless s =
        (match r_close with Ok _ => r | Raise e => Raise e end,
         State w3 lg (launched s1))
  | (Raise e, w1) =>
      extract_auth_key' self headless s =
      (Raise e, State w1 (log s) (launched s ++ [(launcher, true)]))
  end.
Proof.
  intros launcher. rewrite extract_auth_key_unfold. fold launcher.
  destruct (launch launcher true (world s)) as [[browser|e] w1];
    [ | reflexivity ].
  intros s1. fold s1.
  pose proof (launches_nothing_session World Browser Page Element new_page
                browser_close goto wait_for_selector query_selector click
                fill wait_for_timeout wait_for_load_state
                evaluate_localStorage self browser s1) as Hkeep.
  unfold try_finally, try_except_Exception in Hkeep |- *.
  destruct (session_steps self browser s1) as [[auth_key|e] s2] eqn:Hsteps;
    cbn [fst snd].
  - unfold call in Hkeep |- *.
    destruct (browser_close browser (world s2)) as [[u|e'] w3] eqn:Hclose;
      cbn [snd launched] in Hkeep; rewrite Hkeep;
      eexists _, s2, _, w3, _;
      (split; [ reflexivity | split; [ reflexivity | split;
         [ exact Hclose | reflexivity ] ] ]).
  - destruct (is_Exception e);
      unfold bind, logger_log, raise, call in Hkeep |- *;
      cbn [world log launched] in Hkeep |- *;
      destruct (browser_close browser (world s2)) as [[u|e'] w3] eqn:Hclose;
      cbn [snd launched] in Hkeep; rewrite Hkeep;
      eexists (Raise e), s2, _, w3, _;
      (split; [ reflexivity | split; [ reflexivity | split;
         [ exact Hclose | reflexivity ] ] ]).
Qed.

End BrowserSession.

(** ** Further properties of the log-in flow *)

Section LoginFlow.
Import Py AuthExtractor AuthSpec.

Variables World Browser Page Element : Type.
Variable launch : engine -> bool -> World -> result Browser * World.
Variable new_page : Browser -> World -> result Page * World.
Variable browser_close : Browser -> World -> result unit * World.
Variable goto : Page -> string -> string -> World -> result unit * World.
Variable wait_for_selector :
  Page -> string -> option string -> option Z -> World -> result Element * World.
Variable query_selector : Page -> string -> World -> result (option Element) * World.
Variable click : Element -> World -> result unit * World.
Variable fill : Element -> value -> World -> result unit * World.
Variable wait_for_timeout : Page -> Z -> World -> result unit * World.
Variable wait_for_load_state : Page -> string -> World -> result unit * World.
Variable evaluate_localStorage : Page -> World -> result (list (string * value)) * World.
Variable getenv : string -> World -> value.

Local Abbreviation extract_auth_key' :=
  (extract_auth_key World Browser Page Element launch new_page browser_close
     goto wait_for_selector query_selector click fill wait_for_timeout
     wait_for_load_state evaluate_localStorage).

Local Abbreviation extract_stremio_auth_key' :=
  (extract_stremio_auth_key World Browser Page Element launch new_page
     browser_close goto wait_for_selector query_selector click fill
     wait_for_timeout wait_for_load_state evaluate_localStorage getenv).

Local Abbreviation session_steps self browser :=
  (page <- _create_page World Browser Page new_page browser ;;
   _navigate_and_login World Page Element goto wait_for_selector
     query_selector click fill wait_for_timeout wait_for_load_state
     self page ;;;
   _extract_auth_key_from_storage World Page wait_for_timeout
     evaluate_localStorage page)%py.

(** A failed extraction is logged once, by [extract_auth_key] itself: to
    the log of the steps of the session the run adds the line
    "Auth extraction failed" with the exception when the steps raised an
    instance of [Exception], and nothing when they returned.  An
    exception outside [Exception] (an interrupt, a cancelled task) is
    not caught by the handler: it adds no line either. *)
Theorem auth_failure_is_logged_once
    (self : StremioAuthExtractor) (headless : value) (s : state World)
    (browser : Browser) (w1 : World) :
  launch (browsers_get (browser_type self)) true (world s) = (Ok browser, w1) ->
  let s1 := State w1 (log s)
              (launched s ++ [(browsers_get (browser_type self), true)]) in
  log (snd (extract_auth_key' self headless s)) =
  log (snd (session_steps self browser s1)) ++
  match fst (session_steps self browser s1) with
  | Raise e =>
      if is_Exception e
      then [Log ERROR "Auth extraction failed: {}" [AExn e]]
      else []
  | Ok _ => []
  end.
Proof.
  intros Hlaunch s1.
  rewrite (extract_auth_key_unfold World Browser Page Element launch new_page
             browser_close goto wait_for_selector query_selector click fill
             wait_for_timeout wait_for_load_state evaluate_localStorage).
  rewrite Hlaunch. fold s1.
  unfold try_finally, try_except_Exception.
  destruct (session_steps self browser s1) as [[auth_key|e] s2];
    cbn [fst snd].
  - unfold call.
    destruct (browser_close browser (world s2)) as [[u|e'] w3];
      cbn [snd log]; now rewrite app_nil_r.
  - destruct (is_Exception e).
    + unfold bind, logger_log, raise, call. cbn [world log launched].
      destruct (browser_close browser (world s2)) as [[u|e'] w3]; reflexivity.
    + unfold call.
      destruct (browser_close browser (world s2)) as [[u|e'] w3];
        cbn [snd log]; now rewrite app_nil_r.
Qed.

(** Without credentials nothing is started: when [STREMIO_EMAIL] or
    [STREMIO_PASSWORD] is unset or empty, [extract_stremio_auth_key]
    raises its [ValueError] and leaves the state as it was, with no
    browser launched. *)
Theorem missing_credentials_stop_before_launch
    (headless : value) (browser_type : string) (s : state World) :
  truthy (getenv "STREMIO_EMAIL" (world s)) = false \/
  truthy (getenv "STREMIO_PASSWORD" (world s)) = false ->
  extract_stremio_auth_key' headless browser_type s =
  (Raise (ValueError
     "Please set STREMIO_EMAIL and STREMIO_PASSWORD in your .env file"), s).
Proof.
  intros H. unfold extract_stremio_auth_key, bind, __init__, _load_credentials.
  assert (Hmissing :
    negb (truthy (getenv "STREMIO_EMAIL" (world s))) ||
    negb (truthy (getenv "STREMIO_PASSWORD" (world s))) = true).
  { destruct H as [-> | ->]; [ reflexivity | apply orb_true_r ]. }
  now rewrite Hmissing.
Qed.

(** With a session already open the credentials are never typed: when the
    page shows no log-in affordance, [_navigate_and_login] does the same
    whatever clicking, filling and the later waits would do. *)
Theorem existing_session_skips_login
    (self : StremioAuthExtractor) (page : Page) (s : state World)
    (click' : Element -> World -> result unit * World)
    (fill' : Element -> value -> World -> result unit * World)
    (wait_for_timeout' : Page -> Z -> World -> result unit * World)
    (wait_for_load_state' : Page -> string -> World -> result unit * World) :
  (forall w, fst (query_selector page (selector_has_text "div" "Log in") w) =
             Ok None) ->
  _navigate_and_login World Page Element goto wait_for_selector query_selector
    click fill wait_for_timeout wait_for_load_state self page s =
  _navigate_and_login World Page Element goto wait_for_selector query_selector
    click' fill' wait_for_timeout' wait_for_load_state' self page s.
Proof.
  intros Hnone. unfold _navigate_and_login, bind, call, logger_log.
  cbn [world log launched].
  destruct (goto page _ _ (world s)) as [[u|e] w1]; [ | reflexivity ].
  cbn [world log launched].
  destruct (wait_for_selector page _ None (Some 30000%Z) w1) as [[el|e] w2];
    [ | reflexivity ].
  cbn [world log launched].
  pose proof (Hnone w2) as Hq.
  destruct (query_selector page (selector_has_text "div" "Log in") w2)
    as [r w3].
  cbn [fst] in Hq. subst r. reflexivity.
Qed.

End LoginFlow.

Section LoginCompletion.
Import Py AuthExtractor.

Variables World Page Element : Type.
Variable wait_for_selector :
  Page -> string -> option string -> option Z -> World -> result Element * World.
Variable click : Element -> World -> result unit * World.
Variable fill : Element -> value -> World -> result unit * World.
Variable wait_for_timeout : Page -> Z -> World -> result unit * World.
Variable wait_for_load_state : Page -> string -> World -> result unit * World.

Local Abbreviation _perform_login' :=
  (_perform_login World Page Element wait_for_selector click fill
     wait_for_timeout wait_for_load_state).

(** The time-out of the wait for the log-in form to disappear is not
    fatal.  When the steps on the form go through, [_perform_login] waits
    for the form to be hidden, logs "Login form disappeared" when that
    wait returned and the warning when it raised (whatever it raised:
    the handler is a bare [except]), and then ends with the wait for the
    network to be idle, in the world the first wait left: it returns
    what that last wait returns. *)
Theorem login_completion_timeout_is_not_fatal
    (self : StremioAuthExtractor) (page : Page) (s : state World) :
  (forall selector w, exists el w',
      wait_for_selector page selector None None w = (Ok el, w')) ->
  (forall el w, exists u w', click el w = (Ok u, w')) ->
  (forall el v w, exists u w', fill el v w = (Ok u, w')) ->
  (forall ms w, exists u w', wait_for_timeout page ms w = (Ok u, w')) ->
  exists w0,
    let hidden :=
      wait_for_selector page
        (selector_has_text "div.form-button-vyqqj" "Log in")
        (Some "hidden") (Some 10000%Z) w0 in
    let idle := wait_for_load_state page "networkidle" (snd hidden) in
    _perform_login' self page s =
    (fst idle,
     State (snd idle)
       (log s ++
        [Log INFO "Waiting for login completion" [];
         match fst hidden with
         | Ok _ => Log INFO "Login form disappeared" []
         | Raise _ =>
             Log WARNING
               "Login form might still be visible, checking for success indicators"
               []
         end])
       (launched s)).
Proof.
  intros Hwait Hclick Hfill Htimeout.
  unfold _perform_login, _fill_credentials, bind, call, logger_log, try_except.
  cbn [world log launched].
  repeat
    (match goal with
     | |- context [wait_for_selector page ?sel None None ?w] =>
         let el := fresh "el" in let w' := fresh "w" in let E := fresh "E" in
         destruct (Hwait sel w) as (el & w' & E); rewrite E
     | |- context [click ?el ?w] =>
         let u := fresh "u" in let w' := fresh "w" in let E := fresh "E" in
         destruct (Hclick el w) as (u & w' & E); rewrite E
     | |- context [fill ?el ?v ?w] =>
         let u := fresh "u" in let w' := fresh "w" in let E := fresh "E" in
         destruct (Hfill el v w) as (u & w' & E); rewrite E
     | |- context [wait_for_timeout page ?ms ?w] =>
         let u := fresh "u" in let w' := fresh "w" in let E := fresh "E" in
         destruct (Htimeout ms w) as (u & w' & E); rewrite E
     end; cbn [world log launched]).
  match goal with
  | |- context [wait_for_selector page ?sel (Some ?st) ?t ?w] =>
      exists w;
      destruct (wait_for_selector page sel (Some st) t w) as [[el'|e] w']
  end; cbn [world log launched fst snd];
    destruct (wait_for_load_state page "networkidle" w') as [[u'|e'] w''];
    cbn [fst snd]; now rewrite <- app_assoc.
Qed.

End LoginCompletion.

Lemma auth_failure_is_logged_once_witness :
  AuthExtractor.log
    (snd (AuthExtractor.extract_auth_key unit unit unit unit
            AuthExamples.launch_ok AuthExamples.new_page_crashes
            AuthExamples.close_ok AuthExamples.goto_ok AuthExamples.wait_ok
            AuthExamples.query_none AuthExamples.click_ok AuthExamples.fill_ok
            AuthExamples.timeout_ok AuthExamples.load_state_ok
            AuthExamples.storage_logged_in AuthExamples.self (Py.VBool false)
            AuthSpec.initial_state)) =
  [Py.Log Py.ERROR "Auth extraction failed: {}"
     [Py.AExn (Py.External "Error" "Target closed")]].
Proof.
  exact (auth_failure_is_logged_once unit unit unit unit
           AuthExamples.launch_ok AuthExamples.new_page_crashes
           AuthExamples.close_ok AuthExamples.goto_ok AuthExamples.wait_ok
           AuthExamples.query_none AuthExamples.click_ok AuthExamples.fill_ok
           AuthExamples.timeout_ok AuthExamples.load_state_ok
           AuthExamples.storage_logged_in AuthExamples.self (Py.VBool false)
           AuthSpec.initial_state tt tt eq_refl).
Defined.

Lemma missing_credentials_stop_before_launch_witness :
  AuthExtractor.extract_stremio_auth_key unit unit unit unit
    AuthExamples.launch_ok AuthExamples.new_page_ok AuthExamples.close_ok
    AuthExamples.goto_ok AuthExamples.wait_ok AuthExamples.query_none
    AuthExamples.click_ok AuthExamples.fill_ok AuthExamples.timeout_ok
    AuthExamples.load_state_ok AuthExamples.storage_logged_in
    AuthExamples.env_unset (Py.VBool true) "chromium" AuthSpec.initial_state =
  (Py.Raise (Py.ValueError
     "Please set STREMIO_EMAIL and STREMIO_PASSWORD in your .env file"),
   AuthSpec.initial_state).
Proof.
  exact (missing_credentials_stop_before_launch unit unit unit unit
           AuthExamples.launch_ok AuthExamples.new_page_ok AuthExamples.close_ok
           AuthExamples.goto_ok AuthExamples.wait_ok AuthExamples.query_none
           AuthExamples.click_ok AuthExamples.fill_ok AuthExamples.timeout_ok
           AuthExamples.load_state_ok AuthExamples.storage_logged_in
           AuthExamples.env_unset (Py.VBool true) "chromium"
           AuthSpec.initial_state (or_introl eq_refl)).
Defined.

Lemma existing_session_skips_login_witness :
  AuthExtractor._navigate_and_login unit unit unit AuthExamples.goto_ok
    AuthExamples.wait_ok AuthExamples.query_none AuthExamples.click_ok
    AuthExamples.fill_ok AuthExamples.timeout_ok AuthExamples.load_state_ok
    AuthExamples.self tt AuthSpec.initial_state =
  AuthExtractor._navigate_and_login unit unit unit AuthExamples.goto_ok
    AuthExamples.wait_ok AuthExamples.query_none AuthExamples.click_fails
    AuthExamples.fill_fails AuthExamples.timeout_ok AuthExamples.load_state_ok
    AuthExamples.self tt AuthSpec.initial_state.
Proof.
  exact (existing_session_skips_login unit unit unit AuthExamples.goto_ok
           AuthExamples.wait_ok AuthExamples.query_none AuthExamples.click_ok
           AuthExamples.fill_ok AuthExamples.timeout_ok
           AuthExamples.load_state_ok AuthExamples.self tt
           AuthSpec.initial_state AuthExamples.click_fails
           AuthExamples.fill_fails AuthExamples.timeout_ok
           AuthExamples.load_state_ok (fun w => eq_refl)).
Defined.

Lemma login_completion_timeout_is_not_fatal_witness :
  AuthExtractor._perform_login unit unit unit
    AuthExamples.hidden_wait_times_out AuthExamples.click_ok
    AuthExamples.fill_ok AuthExamples.timeout_ok
    AuthExamples.load_state_ok AuthExamples.self tt
    AuthSpec.initial_state =
  (Py.Ok tt,
   AuthExtractor.State tt
     [Py.Log Py.INFO "Waiting for login completion" [];
      Py.Log Py.WARNING
        "Login form might still be visible, checking for success indicators"
        []]
     []).
Proof.
  destruct (login_completion_timeout_is_not_fatal unit unit unit
              AuthExamples.hidden_wait_times_out AuthExamples.click_ok
              AuthExamples.fill_ok AuthExamples.timeout_ok
              AuthExamples.load_state_ok AuthExamples.self tt
              AuthSpec.initial_state
              (fun sel w => ex_intro _ tt (ex_intro _ w eq_refl))
              (fun el w => ex_intro _ tt (ex_intro _ w eq_refl))
              (fun el v w => ex_intro _ tt (ex_intro _ w eq_refl))
              (fun ms w => ex_intro _ tt (ex_intro _ w eq_refl)))
    as ([] & Hrun).
  exact Hrun.
Defined.

(** ** Properties of the command line of the extractor *)

Section AuthCommandLine.
Import Py AuthExtractor.

Variables World Browser Page Element : Type.
Variable launch : engine -> bool -> World -> result Browser * World.
Variable new_page : Browser -> World -> result Page * World.
Variable browser_close : Browser -> World -> result unit * World.
Variable goto : Page -> string -> string -> World -> result unit * World.
Variable wait_for_selector :
  Page -> string -> option string -> option Z -> World -> result Element * World.
Variable query_selector : Page -> string -> World -> result (option Element) * World.
Variable click : Element -> World -> result unit * World.
Variable fill : Element -> value -> World -> result unit * World.
Variable wait_for_timeout : Page -> Z -> World -> result unit * World.
Variable wait_for_load_state : Page -> string -> World -> result unit * World.
Variable evaluate_localStorage : Page -> World -> result (list (string * value)) * World.
Variable getenv : string -> World -> value.
Variable print : string -> list log_arg -> World -> result unit * World.

Local Abbreviation main' :=
  (AuthCli.main World Browser Page Element launch new_page browser_close goto
     wait_for_selector query_selector click fill wait_for_timeout
     wait_for_load_state evaluate_localStorage getenv print).

Local Abbreviation extract_auth_key' :=
  (extract_auth_key World Browser Page Element launch new_page browser_close
     goto wait_for_selector query_selector click fill wait_for_timeout
     wait_for_load_state evaluate_localStorage).

(** The command line lets no instance of [Exception] out: it returns 0
    or 1, or it raises an exception outside [Exception].  That is the
    [SystemExit(2)] of argparse when [--browser] is given a value that
    is none of the three choices, raised before anything is logged or
    launched, or an exception such as an interrupt that the handler
    does not catch.  Whatever was launched was launched with
    [headless=True]. *)
Theorem auth_main_returns_exit_code
    (browser_option : option string) (s : state World) :
  exists r s' launches,
    main' browser_option s = (r, s') /\
    launched s' = launched s ++ launches /\
    Forall (fun l => snd l = true) launches /\
    (r = Ok 0%Z \/ r = Ok 1%Z \/
     exists e, r = Raise e /\ is_Exception e = false) /\
    (forall browser,
        browser_option = Some browser ->
        existsb (String.eqb browser) AuthCli.choices = false ->
        r = Raise (External "SystemExit" "2") /\ s' = s).
Proof.
  assert (Hparsed : forall args_browser,
    AuthCli.parse_args browser_option = Ok args_browser ->
    forall browser, browser_option = Some browser ->
      existsb (String.eqb browser) AuthCli.choices = false -> False).
  { intros args_browser Hp browser -> Hb. unfold AuthCli.parse_args in Hp.
    rewrite Hb in Hp. discriminate Hp. }
  unfold AuthCli.main, bind at 1, lift.
  destruct (AuthCli.parse_args browser_option) as [args_browser|e] eqn:Hargs.
  2: { exists (Raise e), s, []. rewrite app_nil_r.
       split; [ reflexivity | split; [ reflexivity | split; [ constructor | ] ] ].
       unfold AuthCli.parse_args in Hargs.
       destruct browser_option as [browser|]; [ | discriminate Hargs ].
       destruct (existsb (String.eqb browser) AuthCli.choices);
         [ discriminate Hargs | ].
       injection Hargs as <-. split.
       - right. right. eexists. split; reflexivity.
       - intros b _ _. split; reflexivity. }
  specialize (Hparsed args_browser eq_refl).
  unfold try_except_Exception, bind at 1, logger_log at 1.
  unfold bind at 1, __init__, _load_credentials. cbn [world log launched].
  destruct (negb (truthy (getenv "STREMIO_EMAIL" (world s))) ||
            negb (truthy (getenv "STREMIO_PASSWORD" (world s)))).
  - cbn [is_Exception]. unfold bind, logger_log, ret. cbn [world log launched].
    eexists _, _, []. rewrite app_nil_r.
    split; [ reflexivity | split; [ reflexivity | split; [ constructor | ] ] ].
    split; [ auto | intros b Hb Hc; destruct (Hparsed b Hb Hc) ].
  - unfold bind at 1.
    match goal with
    | |- context [extract_auth_key' ?self ?h ?st] =>
        pose proof (extract_auth_key_launched World Browser Page Element
                      launch new_page browser_close goto wait_for_selector
                      query_selector click fill wait_for_timeout
                      wait_for_load_state evaluate_localStorage self h st)
          as Hlaunched;
        destruct (extract_auth_key' self h st) as [[auth_key|e] s1]
    end; cbn [snd launched] in Hlaunched.
    + unfold bind, logger_log, call, ret. cbn [world log launched].
      destruct (print _ _ (world s1)) as [[u|e] w];
        [ | destruct (is_Exception e) eqn:He ];
        cbn [world log launched];
        eexists _, _, [_]; rewrite Hlaunched;
        (split; [ reflexivity | split; [ reflexivity | split;
           [ repeat constructor | ] ] ]);
        (split; [ eauto 6 | intros b Hb Hc; destruct (Hparsed b Hb Hc) ]).
    + destruct (is_Exception e) eqn:He;
        unfold bind, logger_log, ret; cbn [world log launched];
        eexists _, _, [_]; rewrite Hlaunched;
        (split; [ reflexivity | split; [ reflexivity | split;
           [ repeat constructor | ] ] ]);
        (split; [ eauto 6 | intros b Hb Hc; destruct (Hparsed b Hb Hc) ]).
Qed.

End AuthCommandLine.

(** ** Properties of the export *)

Section ExportLogic.
Import Py LibraryExport ExportSpec.

Variable World : Type.

Local Abbreviation st := (state World).

Lemma run_spec_ret A (P : io_call -> Prop) (Q : result A -> Prop) (a : A) :
  Q (Ok a) -> run_spec P Q (@ret st A a).
Proof. intros H s. exists []. cbn. rewrite app_nil_r. auto. Qed.

Lemma run_spec_raise A (P : io_call -> Prop) (Q : result A -> Prop) e :
  Q (Raise e) -> run_spec P Q (@raise st A e).
Proof. intros H s. exists []. cbn. rewrite app_nil_r. auto. Qed.

Lemma run_spec_lift A (P : io_call -> Prop) (Q : result A -> Prop) r :
  Q r -> run_spec P Q (@lift st A r).
Proof. intros H s. exists []. cbn. rewrite app_nil_r. auto. Qed.

Lemma run_spec_log (P : io_call -> Prop) (Q : result unit -> Prop) lvl fmt args :
  Q (Ok tt) -> run_spec P Q (logger_log World lvl fmt args).
Proof. intros H s. exists []. cbn. rewrite app_nil_r. auto. Qed.

Lemma run_spec_io A (P : io_call -> Prop) (Q : result A -> Prop) ev
    (f : World -> result A * World) :
  P ev -> (forall w, Q (fst (f w))) -> run_spec P Q (io World ev f).
Proof.
  intros HP HQ s. exists [ev]. unfold io. specialize (HQ (world s)).
  destruct (f (world s)) as [r w]. cbn in *. auto.
Qed.

Lemma run_spec_bind A B (P : io_call -> Prop) (Q1 : result A -> Prop)
    (Q : result B -> Prop) (m : M st A) (k : A -> M st B) :
  run_spec P Q1 m ->
  (forall a, Q1 (Ok a) -> run_spec P Q (k a)) ->
  (forall e, Q1 (Raise e) -> Q (Raise e)) ->
  run_spec P Q (bind m k).
Proof.
  intros Hm Hk He s. unfold bind.
  destruct (Hm s) as (evs & Hev & HP & HQ).
  destruct (m s) as [[a|e] s1]; cbn [fst snd] in *.
  - destruct (Hk a HQ s1) as (evs' & Hev' & HP' & HQ').
    exists (evs ++ evs'). rewrite Hev', Hev, app_assoc.
    repeat split; auto. apply Forall_app; auto.
  - exists evs. auto.
Qed.

Lemma run_spec_try_except A (P : io_call -> Prop) (Q1 Q : result A -> Prop)
    (body : M st A) (handler : exn -> M st A) :
  run_spec P Q1 body ->
  (forall a, Q1 (Ok a) -> Q (Ok a)) ->
  (forall e, Q1 (Raise e) -> run_spec P Q (handler e)) ->
  run_spec P Q (try_except body handler).
Proof.
  intros Hb Ha He s. unfold try_except.
  destruct (Hb s) as (evs & Hev & HP & HQ).
  destruct (body s) as [[a|e] s1]; cbn [fst snd] in *.
  - exists evs. auto.
  - destruct (He e HQ s1) as (evs' & Hev' & HP' & HQ').
    exists (evs ++ evs'). rewrite Hev', Hev, app_assoc.
    repeat split; auto. apply Forall_app; auto.
Qed.

Lemma run_spec_try_except_Exception A (P : io_call -> Prop)
    (Q1 Q : result A -> Prop) (body : M st A) (handler : exn -> M st A) :
  run_spec P Q1 body ->
  (forall a, Q1 (Ok a) -> Q (Ok a)) ->
  (forall e, Q1 (Raise e) -> is_Exception e = true ->
             run_spec P Q (handler e)) ->
  (forall e, Q1 (Raise e) -> is_Exception e = false -> Q (Raise e)) ->
  run_spec P Q (try_except_Exception body handler).
Proof.
  intros Hb Ha He Hout s. unfold try_except_Exception.
  destruct (Hb s) as (evs & Hev & HP & HQ).
  destruct (body s) as [[a|e] s1]; cbn [fst snd] in *.
  - exists evs. auto.
  - destruct (is_Exception e) eqn:Hclass.
    + destruct (He e HQ Hclass s1) as (evs' & Hev' & HP' & HQ').
      exists (evs ++ evs'). rewrite Hev', Hev, app_assoc.
      repeat split; auto. apply Forall_app; auto.
    + exists evs. split; [ exact Hev | split; [ exact HP | ] ].
      now apply Hout.
Qed.

(** A handler that logs and returns adds no call: the calls of the whole
    are the calls of the body. *)
Lemma try_except_Exception_events A (body : M st A) lvl fmt (a : A) s :
  events (snd (try_except_Exception body
                 (fun e => bind (logger_log World lvl fmt [AExn e])
                             (fun _ => ret a)) s)) =
  events (snd (body s)).
Proof.
  unfold try_except_Exception.
  destruct (body s) as [[a'|e] s1]; [ reflexivity | ].
  now destruct (is_Exception e).
Qed.

Lemma run_spec_try_finally A (P : io_call -> Prop) (Q1 Q : result A -> Prop)
    (Q2 : result unit -> Prop) (body : M st A) (cleanup : M st unit) :
  run_spec P Q1 body ->
  run_spec P Q2 cleanup ->
  (forall r rc, Q1 r -> Q2 rc ->
     Q (match rc with Ok _ => r | Raise e => Raise e end)) ->
  run_spec P Q (try_finally body cleanup).
Proof.
  intros Hb Hc HQ s. unfold try_finally.
  destruct (Hb s) as (evs & Hev & HP & HQ1).
  destruct (body s) as [r s1]; cbn [fst snd] in *.
  destruct (Hc s1) as (evs' & Hev' & HP' & HQ2).
  specialize (HQ r (fst (cleanup s1)) HQ1 HQ2).
  exists (evs ++ evs').
  destruct (cleanup s1) as [[u|e] s2]; cbn [fst snd] in *;
    rewrite Hev', Hev, app_assoc; repeat split; auto; apply Forall_app; auto.
Qed.

Lemma run_spec_weaken A (P P' : io_call -> Prop) (Q Q' : result A -> Prop)
    (m : M st A) :
  run_spec P Q m ->
  (forall ev, P ev -> P' ev) -> (forall r, Q r -> Q' r) ->
  run_spec P' Q' m.
Proof.
  intros Hm HP HQ s. destruct (Hm s) as (evs & Hev & HPs & HQs).
  exists evs. repeat split; auto. eapply Forall_impl; eauto.
Qed.

End ExportLogic.

Section Paths.
Import Py LibraryExport ExportSpec.

Lemma string_length_append a b :
  String.length (String.append a b) = String.length a + String.length b.
Proof. induction a as [|c a IH]; cbn; [ reflexivity | now rewrite IH ]. Qed.

Lemma string_append_assoc a b c :
  String.append a (String.append b c) = String.append (String.append a b) c.
Proof. induction a as [|x a IH]; cbn; [ reflexivity | now rewrite IH ]. Qed.

Lemma substring_whole b : substring 0 (String.length b) b = b.
Proof. induction b as [|c b IH]; cbn; [ reflexivity | now rewrite IH ]. Qed.

Lemma substring_tail a b :
  substring (String.length a) (String.length b) (String.append a b) = b.
Proof. induction a as [|c a IH]; cbn; [ apply substring_whole | exact IH ]. Qed.

Lemma rfind_dot_append a b :
  rfind_dot (String.append a b) =
  match rfind_dot b with
  | Some i => Some (String.length a + i)
  | None => rfind_dot a
  end.
Proof.
  induction a as [|c a IH]; cbn.
  - now destruct (rfind_dot b).
  - rewrite IH. now destruct (rfind_dot b).
Qed.

(** A name that ends in an extension, after a stem that is not empty, has
    that extension as its suffix. *)
Lemma path_suffix_extension stem ext :
  stem <> EmptyString ->
  rfind_dot ext = Some 0 ->
  1 < String.length ext ->
  path_suffix (String.append stem ext) = ext.
Proof.
  intros Hstem Hdot Hlen. unfold path_suffix.
  rewrite rfind_dot_append, Hdot, string_length_append, Nat.add_0_r.
  assert (Hpos : 0 < String.length stem)
    by (destruct stem; [ easy | cbn; lia ]).
  destruct (Nat.ltb_spec 0 (String.length stem)); [ | lia ].
  destruct (Nat.ltb_spec (String.length stem)
              (String.length stem + String.length ext - 1)); [ | lia ].
  cbn [andb].
  replace (String.length stem + String.length ext - String.length stem)
    with (String.length ext) by lia.
  apply substring_tail.
Qed.

Lemma archive_name_suffix timestamp :
  path_suffix (archive_name timestamp) = ".zip".
Proof.
  unfold archive_name. rewrite string_append_assoc.
  apply path_suffix_extension; [ discriminate | reflexivity | cbn; lia ].
Qed.

Lemma raw_backup_arcname_suffix timestamp :
  path_suffix
    (String.append "library_backup_" (String.append timestamp ".json")) =
  ".json".
Proof.
  rewrite string_append_assoc.
  apply path_suffix_extension; [ discriminate | reflexivity | cbn; lia ].
Qed.

End Paths.

Section ExportFunctions.
Import Py MovieExtractor LibraryExport ExportSpec.

Variable World : Type.
Variable extract_stremio_auth_key : value -> World -> result value * World.
Variable requests_post : string -> value -> value -> World -> result value * World.
Variable request_exception_class : string -> bool.
Variable json_decode_error_class : string -> bool.
Variable mkdir : string -> World -> result unit * World.
Variable now : World -> string.
Variable open_w : string -> World -> result unit * World.
Variable write_row : string -> list value -> World -> result unit * World.
Variable close_file : string -> World -> result unit * World.
Variable generate_html :
  list value -> list value -> string -> World -> result bool * World.
Variable json_dump : string -> value -> World -> result unit * World.
Variable zip_open : string -> World -> result unit * World.
Variable glob : string -> string -> World -> result (list string) * World.
Variable zip_write : string -> string -> string -> World -> result unit * World.
Variable path_exists : string -> World -> bool.
Variable zip_close : string -> World -> result unit * World.
Variable webbrowser_open : string -> World -> result unit * World.

Local Abbreviation make_api_request' :=
  (make_api_request World requests_post request_exception_class
     json_decode_error_class).
Local Abbreviation save_to_csv' := (save_to_csv World open_w write_row close_file).
Local Abbreviation write_rows' := (write_rows World write_row).
Local Abbreviation save_json_backup' := (save_json_backup World json_dump).
Local Abbreviation create_backup_zip' :=
  (create_backup_zip World zip_open glob zip_write path_exists zip_close).
Local Abbreviation add_session_files' := (add_session_files World zip_write).
Local Abbreviation main' :=
  (main World extract_stremio_auth_key requests_post request_exception_class
     json_decode_error_class mkdir now open_w write_row close_file
     generate_html json_dump zip_open glob zip_write path_exists zip_close
     webbrowser_open).

(** [make_api_request], by the outcome of its one call. *)
Lemma make_api_request_unfold (auth_key : value) (s : state World) :
  make_api_request' auth_key s =
  let (response, w) :=
    requests_post url (payload_of auth_key) headers (world s) in
  let lg := log s ++ [Log INFO "Making API request to Stremio datastore" []] in
  let evs := events s ++ [HttpPost url (payload_of auth_key) headers response] in
  match rbind response (fun data =>
          rbind (py_get data "result" (VList [])) (fun result =>
          rbind (py_len result) (fun n => Ok (data, n)))) with
  | Ok (data, n) =>
      (Ok data,
       State w (lg ++ [Log INFO "API request successful - received {} items"
                         [AInt n]]) evs)
  | Raise e =>
      (Raise e,
       State w
         (lg ++
          if is_RequestException request_exception_class e
          then [Log ERROR "API request failed: {}" [AExn e]]
          else if is_JSONDecodeError json_decode_error_class e
               then [Log ERROR "Failed to parse API response: {}" [AExn e]]
               else []) evs)
  end.
Proof.
  unfold make_api_request, bind at 1, logger_log at 1, try_except, bind at 1.
  cbn [world log events].
  destruct (requests_post url (payload_of auth_key) headers (world s))
    as [[data|e] w]; cbn [rbind].
  - unfold bind at 1, lift at 1.
    destruct (py_get data "result" (VList [])) as [result|e]; cbn [rbind].
    + unfold bind at 1, lift at 1.
      destruct (py_len result) as [n|e]; cbn [rbind].
      * reflexivity.
      * destruct (is_RequestException request_exception_class e);
          [ | destruct (is_JSONDecodeError json_decode_error_class e) ];
          try reflexivity.
        unfold raise. now rewrite app_nil_r.
    + destruct (is_RequestException request_exception_class e);
        [ | destruct (is_JSONDecodeError json_decode_error_class e) ];
        try reflexivity.
      unfold raise. now rewrite app_nil_r.
  - destruct (is_RequestException request_exception_class e);
      [ | destruct (is_JSONDecodeError json_decode_error_class e) ];
      try reflexivity.
    unfold raise. now rewrite app_nil_r.
Qed.

(** The request is made once, and nothing is made up or hidden: what the
    call raised is what [make_api_request] raises, a body it returns is
    the body the call returned, and a mapping whose [result] is a list
    (or that has no [result]) is returned as it came. *)
Theorem api_request_hands_on_what_it_got (auth_key : value) (s : state World) :
  exists response,
    events (snd (make_api_request' auth_key s)) =
    events s ++ [HttpPost url (payload_of auth_key) headers response] /\
    world (snd (make_api_request' auth_key s)) =
    snd (requests_post url (payload_of auth_key) headers (world s)) /\
    (forall e, response = Raise e ->
               fst (make_api_request' auth_key s) = Raise e) /\
    (forall data, fst (make_api_request' auth_key s) = Ok data ->
                  response = Ok data) /\
    (forall d, response = Ok (VDict d) ->
       (dict_get "result" d = None \/
        exists items, dict_get "result" d = Some (VList items)) ->
       fst (make_api_request' auth_key s) = Ok (VDict d)).
Proof.
  rewrite make_api_request_unfold.
  destruct (requests_post url (payload_of auth_key) headers (world s))
    as [response w].
  exists response. cbv zeta.
  destruct response as [data|e]; cbn [rbind].
  - destruct (py_get data "result" (VList [])) as [result|e1] eqn:Hget;
      cbn [rbind].
    + destruct (py_len result) as [n|e2] eqn:Hlen; cbn [rbind fst snd world events].
      * split; [ reflexivity | split; [ reflexivity | split;
          [ discriminate | split; [ now intros data' [= <-] | ] ] ] ].
        now intros d [= ->] _.
      * split; [ reflexivity | split; [ reflexivity | split;
          [ discriminate | split; [ discriminate | ] ] ] ].
        intros d [= ->] Hd. cbn [py_get] in Hget.
        destruct Hd as [Hd|[items Hd]]; rewrite Hd in Hget;
          injection Hget as <-; discriminate Hlen.
    + cbn [fst snd world events].
      split; [ reflexivity | split; [ reflexivity | split;
        [ discriminate | split; [ discriminate | ] ] ] ].
      intros d [= ->]. discriminate Hget.
  - cbn [fst snd world events].
    split; [ reflexivity | split; [ reflexivity | split;
      [ now intros e' [= <-] | split; discriminate ] ] ].
Qed.

Lemma row_of_dict d fields :
  row_of (VDict d) fields =
  Ok (map (fun k => match dict_get k d with
                    | Some v => v
                    | None => VStr EmptyString
                    end) fields).
Proof.
  induction fields as [|k rest IH]; cbn [row_of map py_get rbind].
  - reflexivity.
  - now rewrite IH.
Qed.

Lemma write_rows_all filename items :
  (forall row w, exists u w', write_row filename row w = (Ok u, w')) ->
  Forall (fun item => is_dict item = true) items ->
  forall s, exists w',
    write_rows' filename items s =
    (Ok tt,
     State w' (log s)
       (events s ++ map (fun item => WriteRow filename (csv_row item)) items)).
Proof.
  intros Hrow. induction 1 as [|item rest Hitem _ IH]; intros s;
    cbn [write_rows map].
  - exists (world s). unfold ret. rewrite app_nil_r. now destruct s.
  - destruct item as [| | | | |d]; try discriminate.
    unfold bind at 1, lift at 1. rewrite row_of_dict.
    unfold bind at 1, io at 1.
    destruct (Hrow (csv_row (VDict d)) (world s)) as (u & w1 & Hw).
    cbn [csv_row] in Hw. rewrite Hw.
    destruct (IH (State w1 (log s)
                    (events s ++ [WriteRow filename (csv_row (VDict d))])))
      as (w2 & Hrest).
    cbn [csv_row] in Hrest. rewrite Hrest. exists w2.
    cbn [log events]. now rewrite <- app_assoc.
Qed.

(** The CSV file of a partition: nothing is opened for an empty list,
    which only logs a warning; otherwise, when the file can be written,
    it receives the header and then one row for each item, in order, with
    the columns in the order of the field names (identifier, title, year,
    type, poster), before it is closed. *)
Theorem csv_rows_follow_the_field_names
    (items : list value) (filename : string) (s : state World) :
  (forall w, exists u w', open_w filename w = (Ok u, w')) ->
  (forall row w, exists u w', write_row filename row w = (Ok u, w')) ->
  (forall w, exists u w', close_file filename w = (Ok u, w')) ->
  Forall (fun item => is_dict item = true) items ->
  exists s',
    save_to_csv' items filename s = (Ok tt, s') /\
    events s' =
    events s ++
    match items with
    | [] => []
    | _ =>
        OpenForWriting filename ::
        WriteRow filename (map VStr fieldnames) ::
        map (fun item => WriteRow filename (csv_row item)) items ++
        [CloseFile filename]
    end /\
    forall imdb_id name poster year item_type,
      csv_row (movie_data imdb_id name poster year item_type) =
      [imdb_id; name; year; item_type; poster].
Proof.
  intros Hopen Hrow Hclose Hitems. unfold save_to_csv.
  destruct items as [|item rest]; cbn [truthy negb].
  - eexists. unfold logger_log. cbn [events]. rewrite app_nil_r.
    repeat split.
  - unfold bind at 1, bind at 1, io at 1.
    destruct (Hopen (world s)) as (u & w1 & ->).
    unfold try_finally, bind at 1, io at 1. cbn [world log events].
    destruct (Hrow (map VStr fieldnames) w1) as (u1 & w2 & ->).
    match goal with
    | |- context [write_rows' _ _ ?st] =>
        destruct (write_rows_all filename (item :: rest) Hrow Hitems st)
          as (w3 & ->)
    end.
    unfold io at 1. cbn [world log events].
    destruct (Hclose w3) as (u3 & w4 & ->).
    unfold logger_log. eexists. split; [ reflexivity | ].
    cbn [events]. rewrite <- !app_assoc. repeat split.
Qed.

Lemma write_rows_spec filename items :
  run_spec (fun ev => exists row, ev = WriteRow filename row) any_outcome
    (write_rows' filename items).
Proof.
  induction items as [|item rest IH]; cbn [write_rows].
  - now apply run_spec_ret.
  - eapply run_spec_bind with (Q1 := any_outcome);
      [ now apply run_spec_lift | | easy ].
    intros row _.
    eapply run_spec_bind with (Q1 := any_outcome); [ | | easy ].
    + apply run_spec_io; [ eauto | easy ].
    + intros _ _. exact IH.
Qed.

(** A CSV file that was opened is closed on every path: whatever happens
    to the rows, the calls on the file are the opening, then rows, then
    the close. *)
Theorem csv_file_is_closed_on_every_path
    (items : list value) (filename : string) (s : state World) u w1 :
  items <> [] ->
  open_w filename (world s) = (Ok u, w1) ->
  exists rows,
    events (snd (save_to_csv' items filename s)) =
    events s ++ OpenForWriting filename :: rows ++ [CloseFile filename] /\
    Forall (fun ev => exists row, ev = WriteRow filename row) rows.
Proof.
  intros Hne Hopen. unfold save_to_csv.
  destruct items as [|item rest]; [ easy | ]. cbn [truthy negb].
  unfold bind at 1, bind at 1, io at 1. rewrite Hopen.
  unfold try_finally.
  match goal with
  | |- context [bind ?hd (fun _ => write_rows' ?f ?l) ?st] =>
      assert (Hbody : run_spec (fun ev => exists row, ev = WriteRow filename row)
                        any_outcome (bind hd (fun _ => write_rows' f l)));
      [ | destruct (Hbody st) as (rows & Hev & Hrows & _);
          destruct (bind hd (fun _ => write_rows' f l) st) as [r s2] ]
  end.
  { eapply run_spec_bind with (Q1 := any_outcome); [ | | easy ].
    - apply run_spec_io; [ eauto | easy ].
    - intros _ _. apply write_rows_spec. }
  cbn [snd events] in Hev. exists rows. split; [ | exact Hrows ].
  unfold io at 1.
  destruct (close_file filename (world s2)) as [[u2|e] w3];
    destruct r as [a|e']; unfold logger_log;
    cbn [snd events]; rewrite Hev, <- !app_assoc; reflexivity.
Qed.

(** A failed dump of the raw backup is swallowed: [save_json_backup]
    makes the one dump, of the data it was given; when the dump raises
    an instance of [Exception] it logs an error and returns all the
    same.  Only an exception outside [Exception] (an interrupt) gets
    out, and then nothing is logged. *)
Theorem json_backup_failure_is_swallowed
    (data : value) (filename : string) (s : state World) :
  exists s',
    save_json_backup' data filename s =
    (match fst (json_dump filename data (world s)) with
     | Ok _ => Ok tt
     | Raise e => if is_Exception e then Ok tt else Raise e
     end, s') /\
    events s' = events s ++ [JsonDump filename data] /\
    world s' = snd (json_dump filename data (world s)) /\
    log s' =
    log s ++
    match fst (json_dump filename data (world s)) with
    | Ok _ => [Log INFO "Saved raw library backup to {}" [AVal (VStr filename)]]
    | Raise e =>
        if is_Exception e
        then [Log ERROR "Failed to save JSON backup: {}" [AExn e]]
        else []
    end.
Proof.
  unfold save_json_backup, try_except_Exception, bind, io, logger_log.
  destruct (json_dump filename data (world s)) as [[u|e] w];
    cbn [fst snd]; [ | destruct (is_Exception e) ];
    eexists; cbn [fst snd];
    (split; [ reflexivity | ]); cbn [world log events];
    rewrite ?app_nil_r; (split; [ reflexivity | split; reflexivity ]).
Qed.

Lemma add_session_files_spec zip_filename output_dir names :
  run_spec no_archive_member any_outcome
    (add_session_files' zip_filename output_dir names).
Proof.
  induction names as [|name rest IH]; cbn [add_session_files].
  - now apply run_spec_ret.
  - eapply run_spec_bind with (Q1 := any_outcome); [ | | easy ].
    + destruct (String.eqb_spec (path_suffix name) ".zip") as [Heq|Hne];
        cbn [negb].
      * now apply run_spec_ret.
      * apply run_spec_io; [ exact Hne | easy ].
    + intros _ _. exact IH.
Qed.

Lemma create_backup_zip_spec output_dir timestamp :
  run_spec no_archive_member no_Exception_out
    (create_backup_zip' output_dir timestamp).
Proof.
  unfold create_backup_zip. cbv zeta.
  eapply run_spec_try_except_Exception with (Q1 := any_outcome).
  - eapply run_spec_bind with (Q1 := any_outcome); [ | | easy ].
    + apply run_spec_io; easy.
    + intros _ _.
      eapply run_spec_bind with (Q1 := any_outcome); [ | | easy ].
      * eapply run_spec_try_finally
          with (Q1 := any_outcome) (Q2 := any_outcome); [ | | easy ].
        -- eapply run_spec_bind with (Q1 := any_outcome); [ | | easy ].
           ++ apply run_spec_io; easy.
           ++ intros names _.
              eapply run_spec_bind with (Q1 := any_outcome); [ | | easy ].
              ** apply add_session_files_spec.
              ** intros _ _.
                 eapply run_spec_bind with (Q1 := any_outcome); [ | | easy ].
                 --- apply run_spec_io; easy.
                 --- intros [|] _.
                     +++ apply run_spec_io; [ | easy ].
                         cbn [no_archive_member].
                         rewrite raw_backup_arcname_suffix. discriminate.
                     +++ now apply run_spec_ret.
        -- apply run_spec_io; easy.
      * intros _ _.
        eapply run_spec_bind with (Q1 := any_outcome); [ | | easy ].
        -- now apply run_spec_log.
        -- intros _ _. now apply run_spec_ret.
  - intros a _ e He. discriminate He.
  - intros e _ _.
    eapply run_spec_bind with (Q1 := returned);
      [ | | intros e0 [a Ha]; discriminate Ha ].
    + apply run_spec_log. now exists tt.
    + intros _ _. apply run_spec_ret. intros e0 He0. discriminate He0.
  - intros e _ Hclass e0 [= <-]. exact Hclass.
Qed.

(** The archive never contains an archive, itself least of all: the
    archive being written is in the directory it collects, under a name
    that matches the pattern, and is passed over because of its [.zip]
    suffix; no member with that suffix is ever written, whatever the
    calls on the archive do.  A failure on the way is swallowed:
    [create_backup_zip] lets no instance of [Exception] out. *)
Theorem archive_never_contains_itself
    (output_dir timestamp : string) (s : state World) :
  exists r s' evs,
    create_backup_zip' output_dir timestamp s = (r, s') /\
    events s' = events s ++ evs /\
    (forall archive file arcname,
        In (ZipWrite archive file arcname) evs ->
        path_suffix arcname <> ".zip" /\ arcname <> archive_name timestamp) /\
    path_suffix (archive_name timestamp) = ".zip" /\
    (forall e, r = Raise e -> is_Exception e = false).
Proof.
  destruct (create_backup_zip_spec output_dir timestamp s)
    as (evs & Hev & HP & Hr).
  destruct (create_backup_zip' output_dir timestamp s) as [r s'].
  cbn [fst snd] in *. exists r, s', evs.
  split; [ reflexivity | split; [ exact Hev | split; [ | split ] ] ].
  - intros archive file arcname Hin. rewrite Forall_forall in HP.
    pose proof (HP _ Hin) as Hsuffix. cbn [no_archive_member] in Hsuffix.
    split; [ exact Hsuffix | ].
    intros ->. apply Hsuffix. apply archive_name_suffix.
  - apply archive_name_suffix.
  - exact Hr.
Qed.

End ExportFunctions.

Section ExportMain.
Import Py MovieExtractor LibraryExport ExportSpec ExportTrace.

Variable World : Type.
Variable extract_stremio_auth_key : value -> World -> result value * World.
Variable requests_post : string -> value -> value -> World -> result value * World.
Variable request_exception_class : string -> bool.
Variable json_decode_error_class : string -> bool.
Variable mkdir : string -> World -> result unit * World.
Variable now : World -> string.
Variable open_w : string -> World -> result unit * World.
Variable write_row : string -> list value -> World -> result unit * World.
Variable close_file : string -> World -> result unit * World.
Variable generate_html :
  list value -> list value -> string -> World -> result bool * World.
Variable json_dump : string -> value -> World -> result unit * World.
Variable zip_open : string -> World -> result unit * World.
Variable glob : string -> string -> World -> result (list string) * World.
Variable zip_write : string -> string -> string -> World -> result unit * World.
Variable path_exists : string -> World -> bool.
Variable zip_close : string -> World -> result unit * World.
Variable webbrowser_open : string -> World -> result unit * World.

Local Abbreviation make_api_request' :=
  (make_api_request World requests_post request_exception_class
     json_decode_error_class).
Local Abbreviation save_to_csv' := (save_to_csv World open_w write_row close_file).
Local Abbreviation write_rows' := (write_rows World write_row).
Local Abbreviation save_json_backup' := (save_json_backup World json_dump).
Local Abbreviation create_backup_zip' :=
  (create_backup_zip World zip_open glob zip_write path_exists zip_close).
Local Abbreviation add_session_files' := (add_session_files World zip_write).
Local Abbreviation main' :=
  (main World extract_stremio_auth_key requests_post request_exception_class
     json_decode_error_class mkdir now open_w write_row close_file
     generate_html json_dump zip_open glob zip_write path_exists zip_close
     webbrowser_open).
Local Abbreviation preview' := (preview World).
Local Abbreviation parse' := (parse World).

Lemma run_spec_read A (P : io_call -> Prop) (Q : result A -> Prop)
    (f : state World -> A) :
  (forall s, Q (Ok (f s))) ->
  run_spec P Q (fun s : state World => (Ok (f s), s)).
Proof. intros H s. exists []. cbn. rewrite app_nil_r. auto. Qed.

(** Steps through a computation, asking nothing of the outcome of each
    step; [leaf] closes the steps that are functions of the module. *)
Ltac spec_walk leaf :=
  repeat first
    [ progress cbv zeta
    | leaf
    | apply run_spec_ret | apply run_spec_log | apply run_spec_lift
    | apply run_spec_raise | apply run_spec_io | apply run_spec_read
    | (eapply run_spec_bind with (Q1 := any_outcome); [ | intros ? _ | intros ? _ ])
    | (eapply run_spec_try_finally with (Q1 := any_outcome) (Q2 := any_outcome);
       [ | | intros ? ? _ _ ])
    | match goal with
      | |- run_spec _ _ (match ?x with _ => _ end) => destruct x
      end ].

Ltac no_leaf := fail.

Lemma parse_spec (P : io_call -> Prop) api_response :
  run_spec P any_outcome (parse' api_response).
Proof.
  intros s. exists []. unfold parse.
  destruct (parse_library_data api_response (log s)) as [r lg].
  cbn. rewrite app_nil_r.
  split; [ reflexivity | split; [ constructor | exact I ] ].
Qed.

Lemma make_api_request_spec auth_key :
  run_spec network_call any_outcome (make_api_request' auth_key).
Proof.
  intros s. rewrite make_api_request_unfold.
  destruct (requests_post url (payload_of auth_key) headers (world s))
    as [response w].
  exists [HttpPost url (payload_of auth_key) headers response]. cbv zeta.
  destruct (rbind response _) as [[data n]|e]; cbn [snd events];
    repeat split; repeat constructor.
Qed.

Lemma write_rows_csv filename items :
  run_spec (csv_call filename) any_outcome (write_rows' filename items).
Proof.
  induction items as [|item rest IH]; cbn [write_rows];
    spec_walk no_leaf; easy.
Qed.

Lemma save_to_csv_spec items filename :
  run_spec (csv_call filename) any_outcome (save_to_csv' items filename).
Proof.
  unfold save_to_csv.
  spec_walk ltac:(apply write_rows_csv); easy.
Qed.

Lemma save_json_backup_spec data filename :
  run_spec (fun ev => ev = JsonDump filename data) no_Exception_out
    (save_json_backup' data filename).
Proof.
  intros s.
  unfold save_json_backup, try_except_Exception, bind, io, logger_log.
  exists [JsonDump filename data].
  destruct (json_dump filename data (world s)) as [[u|e] w];
    [ | destruct (is_Exception e) eqn:Hclass ]; cbn [fst snd events];
    (split; [ reflexivity | split; [ repeat constructor | ] ]);
    intros e0 He0; try discriminate He0.
  injection He0 as <-. exact Hclass.
Qed.

Lemma add_session_files_zip zip_filename output_dir names :
  run_spec zip_call any_outcome
    (add_session_files' zip_filename output_dir names).
Proof.
  induction names as [|name rest IH]; cbn [add_session_files].
  - now apply run_spec_ret.
  - eapply run_spec_bind with (Q1 := any_outcome); [ | | easy ].
    + destruct (String.eqb_spec (path_suffix name) ".zip") as [Heq|Hne];
        cbn [negb].
      * now apply run_spec_ret.
      * apply run_spec_io; [ exact Hne | easy ].
    + intros _ _. exact IH.
Qed.

Lemma create_backup_zip_zip output_dir timestamp :
  run_spec zip_call no_Exception_out (create_backup_zip' output_dir timestamp).
Proof.
  unfold create_backup_zip. cbv zeta.
  eapply run_spec_try_except_Exception with (Q1 := any_outcome).
  - spec_walk ltac:(apply add_session_files_zip); try easy.
    cbn [zip_call]. rewrite raw_backup_arcname_suffix. discriminate.
  - intros a _ e He. discriminate He.
  - intros e _ _.
    eapply run_spec_bind with (Q1 := returned);
      [ | | intros e0 [a Ha]; discriminate Ha ].
    + apply run_spec_log. now exists tt.
    + intros _ _. apply run_spec_ret. intros e0 He0. discriminate He0.
  - intros e _ Hclass e0 [= <-]. exact Hclass.
Qed.

Lemma preview_lines_spec (P : io_call -> Prop) items : forall i,
  run_spec P any_outcome (preview_lines World i items).
Proof.
  induction items as [|item rest IH]; intros i; cbn [preview_lines];
    spec_walk no_leaf; try easy; try apply IH.
Qed.

Lemma preview_spec (P : io_call -> Prop) heading items :
  run_spec P any_outcome (preview' heading items).
Proof.
  unfold preview.
  spec_walk ltac:(apply preview_lines_spec); easy.
Qed.

(** The functions of the module, as steps of [main]. *)
Ltac main_leaf :=
  match goal with
  | |- run_spec _ _ (make_api_request _ _ _ _ _) =>
      eapply run_spec_weaken; [ apply make_api_request_spec | | ]
  | |- run_spec _ _ (parse _ _) => apply parse_spec
  | |- run_spec _ _ (save_to_csv _ _ _ _ _ _) =>
      eapply run_spec_weaken; [ apply save_to_csv_spec | | ]
  | |- run_spec _ _ (save_json_backup _ _ _ _) =>
      eapply run_spec_weaken; [ apply save_json_backup_spec | | ]
  | |- run_spec _ _ (create_backup_zip _ _ _ _ _ _ _ _) =>
      eapply run_spec_weaken; [ apply create_backup_zip_zip | | ]
  | |- run_spec _ _ (preview _ _ _) => apply preview_spec
  end.

(** The export lets no instance of [Exception] out: [main] returns 0, or
    it returns 1, the last line of its log being the error line with an
    instance of [Exception], or it raises an exception that is outside
    [Exception].  The last case is real: an interrupt of the log-in is
    raised by [main]. *)
Theorem export_main_returns_exit_code (s : state World) :
  exists r s',
    main' s = (r, s') /\
    match r with
    | Ok code =>
        code = 0%Z \/
        (code = 1%Z /\
         exists lg e,
           log s' = lg ++ [Log ERROR "❌ Library extraction failed: {}" [AExn e]] /\
           is_Exception e = true)
    | Raise e => is_Exception e = false
    end /\
    (forall e w,
        extract_stremio_auth_key (VBool true) (world s) = (Raise e, w) ->
        is_Exception e = false ->
        r = Raise e).
Proof.
  assert (Hleak : forall e w,
    extract_stremio_auth_key (VBool true) (world s) = (Raise e, w) ->
    is_Exception e = false -> fst (main' s) = Raise e).
  { intros e w Hlogin Hclass. unfold main, try_except_Exception.
    unfold bind at 1, logger_log at 1. cbn [world log events].
    unfold bind at 1, io at 1. cbn [world log events].
    rewrite Hlogin. now rewrite Hclass. }
  revert Hleak. unfold main, try_except_Exception.
  match goal with
  | |- context [match ?body s with _ => _ end] =>
      assert (Hbody : run_spec any_call (returns_only 0%Z) body);
      [ | destruct (Hbody s) as (_ & _ & _ & Hr);
          destruct (body s) as [[code|e] s1] ]
  end.
  { spec_walk ltac:(idtac; main_leaf); try easy.
    intros ? [= <-]. reflexivity. }
  - intros Hleak. cbn [fst] in *. exists (Ok code), s1.
    split; [ reflexivity | split; [ | exact Hleak ] ].
    left. now apply Hr.
  - destruct (is_Exception e) eqn:Hclass; intros Hleak; cbn [fst] in *.
    + unfold bind, logger_log, ret in *. cbn [fst] in *.
      do 2 eexists. split; [ reflexivity | split; [ | exact Hleak ] ].
      right. split; [ reflexivity | ]. cbn [log]. eauto.
    + exists (Raise e), s1.
      split; [ reflexivity | split; [ exact Hclass | exact Hleak ] ].
Qed.

(** Closes what the steps of [main] leave open when the calls are to be
    [local_call]s. *)
Ltac local_side :=
  try easy;
  try (intros ev Hev; destruct ev; cbn in *; easy);
  try (intros ev ->; cbn; split; reflexivity).

(** The calls of a run of [main]: the log-in alone when it fails; else
    the log-in and the request, followed, when the request returned a
    library, by calls that stay on the machine. *)
Lemma main_trace (s : state World) :
  exists evs,
    events (snd (main' s)) = events s ++ evs /\
    (evs = [AuthKeyExtraction (VBool true)] \/
     exists auth_key response rest,
       evs = AuthKeyExtraction (VBool true) ::
             HttpPost url (payload_of auth_key) headers response :: rest /\
       (forall e, response = Raise e -> rest = []) /\
       (forall data, response = Ok data ->
          Forall (local_call json_backup_path data) rest /\
          (rest <> [] -> is_dict data = true))).
Proof.
  unfold main. rewrite try_except_Exception_events.
  unfold bind at 1, logger_log at 1. cbn [world log events].
  unfold bind at 1, io at 1. cbn [world log events].
  destruct (extract_stremio_auth_key (VBool true) (world s))
    as [[auth_key|e] w1].
  2: { cbn [snd events]. eauto. }
  unfold bind at 1, lift at 1.
  destruct (py_slice auth_key 0 20) as [shown|e].
  2: { cbn [snd events]. eauto. }
  unfold bind at 1, logger_log at 1. cbn [world log events].
  unfold bind at 1, logger_log at 1. cbn [world log events].
  unfold bind at 1. rewrite make_api_request_unfold. cbn [world log events].
  destruct (requests_post url (payload_of auth_key) headers w1)
    as [response w2].
  cbv zeta.
  destruct (rbind response _) as [[data n]|e] eqn:Hpipe.
  2: { cbn [snd events].
       eexists. split; [ now rewrite <- app_assoc | ].
       right. exists auth_key, response, []. split; [ reflexivity | ].
       split; [ reflexivity | ]. intros data _. split; [ constructor | easy ]. }
  assert (Hresponse : response = Ok data /\ is_dict data = true).
  { destruct response as [data'|e]; [ | discriminate ]. cbn [rbind] in Hpipe.
    destruct data'; try discriminate Hpipe. cbn [py_get rbind] in Hpipe.
    destruct (py_len _); [ | discriminate ]. injection Hpipe as <- _.
    now split. }
  destruct Hresponse as [-> Hdict].
  match goal with
  | |- context [bind (logger_log World INFO ?msg ?args) ?k ?st] =>
      assert (Htail : run_spec (local_call json_backup_path data) any_outcome
                        (bind (logger_log World INFO msg args) k));
      [ | destruct (Htail st) as (rest & Hev & Hrest & _);
          destruct (bind (logger_log World INFO msg args) k st)
            as [[code|e] s4] ]
  end.
  { spec_walk ltac:(idtac; main_leaf); local_side. }
  - cbn [snd events] in Hev |- *.
    exists (AuthKeyExtraction (VBool true) ::
            HttpPost url (payload_of auth_key) headers (Ok data) :: rest).
    split; [ rewrite Hev, <- !app_assoc; reflexivity | ].
    right. exists auth_key, (Ok data), rest.
    split; [ reflexivity | split; [ discriminate | ] ].
    intros data' [= <-]. now split.
  - cbn [snd events] in Hev |- *.
    exists (AuthKeyExtraction (VBool true) ::
            HttpPost url (payload_of auth_key) headers (Ok data) :: rest).
    split; [ rewrite Hev, <- !app_assoc; reflexivity | ].
    right. exists auth_key, (Ok data), rest.
    split; [ reflexivity | split; [ discriminate | ] ].
    intros data' [= <-]. now split.
Qed.

(** Nothing is written before there is a library.  The calls of a run
    are the log-in with [headless=True] alone, when it fails; or the
    log-in and one request that raised; or the log-in, one request that
    returned a body, and after it calls that stay on the machine
    (directory, files, archive, browser): no further log-in or
    request. *)
Theorem export_touches_nothing_without_a_library (s : state World) :
  exists evs,
    events (snd (main' s)) = events s ++ evs /\
    (evs = [AuthKeyExtraction (VBool true)] \/
     (exists auth_key e,
         evs = [AuthKeyExtraction (VBool true);
                HttpPost url (payload_of auth_key) headers (Raise e)]) \/
     exists auth_key data rest,
       evs = AuthKeyExtraction (VBool true) ::
             HttpPost url (payload_of auth_key) headers (Ok data) :: rest /\
       Forall (fun ev => ~ network_call ev) rest).
Proof.
  destruct (main_trace s) as (evs & Hev & Hcases).
  exists evs. split; [ exact Hev | ].
  destruct Hcases as [-> | (auth_key & response & rest & -> & Herr & Hok)].
  - now left.
  - right. destruct response as [data|e].
    + right. exists auth_key, data, rest. split; [ reflexivity | ].
      destruct (Hok data eq_refl) as [Hrest _].
      eapply Forall_impl; [ | exact Hrest ].
      intros ev Hlocal Hnet. destruct ev; cbn in *; easy.
    + left. rewrite (Herr e eq_refl). now exists auth_key, e.
Qed.

(** The raw backup is the response as it was received: whatever a run
    dumps as JSON goes to [output/library_backup.json] and is the body
    that the request of that run returned, a mapping.  An importer that
    reads the document back loads from it what the response holds under
    [result]; a response without [result], which the export takes for
    an empty library, gives a backup that the importer rejects. *)
Theorem raw_backup_is_the_response (s : state World)
    (path : string) (data : value) :
  In (JsonDump path data) (events (snd (main' s))) ->
  ~ In (JsonDump path data) (events s) ->
  path = json_backup_path /\
  (exists auth_key,
      In (HttpPost url (payload_of auth_key) headers (Ok data))
         (events (snd (main' s)))) /\
  exists d,
    data = VDict d /\
    forall (W : Type) (read_json : string -> W -> result value)
           (filepath : string) (si : LibraryImporter.state W),
      read_json filepath (LibraryImporter.world si) = Ok data ->
      LibraryImporter.load_backup W read_json filepath si =
      (match dict_get "result" d with
       | Some items => Ok items
       | None =>
           Raise (ValueError
             "Failed to load backup: Invalid backup format. Expected list or API response dict.")
       end, si).
Proof.
  intros Hin Hnew.
  destruct (main_trace s) as (evs & Hev & Hcases). rewrite Hev in Hin |- *.
  apply in_app_or in Hin as [Hin|Hin]; [ easy | ].
  destruct Hcases as [-> | (auth_key & response & rest & -> & Herr & Hok)].
  - destruct Hin as [Hin|[]]; discriminate Hin.
  - destruct Hin as [Hin|[Hin|Hin]]; try discriminate Hin.
    destruct response as [body|e];
      [ | rewrite (Herr e eq_refl) in Hin; destruct Hin ].
    destruct (Hok body eq_refl) as [Hrest Hdict].
    rewrite Forall_forall in Hrest.
    pose proof (Hrest _ Hin) as [-> ->].
    assert (Hne : rest <> []) by (intros ->; destruct Hin).
    specialize (Hdict Hne).
    split; [ reflexivity | split ].
    + exists auth_key. apply in_or_app. right. right. now left.
    + destruct body as [| | | | |d]; try discriminate Hdict.
      exists d. split; [ reflexivity | ].
      intros W read_json filepath si Hread.
      rewrite load_backup_spec, Hread. reflexivity.
Qed.

Section ExportSuccess.
Import MovieSpec.

(** The directory, the CSV files, the report and the browser work. *)
Hypothesis mkdir_works : forall p w, exists u, fst (mkdir p w) = Ok u.
Hypothesis open_works : forall p w, exists u, fst (open_w p w) = Ok u.
Hypothesis write_row_works :
  forall p row w, exists u, fst (write_row p row w) = Ok u.
Hypothesis close_works : forall p w, exists u, fst (close_file p w) = Ok u.
Hypothesis generate_html_works :
  forall watched_items watchlist_items p w,
  exists b, fst (generate_html watched_items watchlist_items p w) = Ok b.
Hypothesis webbrowser_works :
  forall p w, exists u, fst (webbrowser_open p w) = Ok u.

(** The dump of the raw backup and the calls on the archive may fail, by
    an instance of [Exception]. *)
Hypothesis json_dump_fails_by_Exception :
  forall p data w, at_worst_an_Exception (fst (json_dump p data w)).
Hypothesis zip_open_fails_by_Exception :
  forall p w, at_worst_an_Exception (fst (zip_open p w)).
Hypothesis glob_fails_by_Exception :
  forall dir pattern w, at_worst_an_Exception (fst (glob dir pattern w)).
Hypothesis zip_write_fails_by_Exception :
  forall archive file arcname w,
    at_worst_an_Exception (fst (zip_write archive file arcname w)).
Hypothesis zip_close_fails_by_Exception :
  forall p w, at_worst_an_Exception (fst (zip_close p w)).

(** Steps through a computation each step of which returns. *)
Ltac ok_walk leaf :=
  repeat first
    [ progress cbv zeta
    | leaf
    | apply run_spec_ret | apply run_spec_log | apply run_spec_io
    | apply run_spec_read
    | (eapply run_spec_bind with (Q1 := returned);
       [ | intros ? _ | intros ? [? ?]; discriminate ])
    | match goal with
      | |- run_spec _ _ (match ?x with _ => _ end) => destruct x
      end ].

Ltac ok_side :=
  try exact I; try reflexivity; try (eexists; reflexivity);
  try (intros; unfold returned; auto).

Lemma Forall_first_items (P : value -> Prop) n : forall items,
  Forall P items -> Forall P (firstn n items).
Proof.
  induction n as [|n IH]; intros items H; cbn [firstn]; [ constructor | ].
  destruct H as [|item rest Hitem Hrest]; constructor; auto.
Qed.

Lemma write_rows_returned filename items :
  Forall is_movie items ->
  run_spec any_call returned (write_rows' filename items).
Proof.
  induction 1 as [|item rest (i & n & p & y & t & ->) _ IH];
    cbn [write_rows].
  - apply run_spec_ret. now exists tt.
  - eapply run_spec_bind with (Q1 := returned);
      [ | | intros ? [? ?]; discriminate ].
    + apply run_spec_lift. eexists. reflexivity.
    + intros row _.
      eapply run_spec_bind with (Q1 := returned);
        [ | intros ? _; exact IH | intros ? [? ?]; discriminate ].
      apply run_spec_io; [ exact I | intros w; apply write_row_works ].
Qed.

Lemma save_to_csv_returned items filename :
  Forall is_movie items ->
  run_spec any_call returned (save_to_csv' items filename).
Proof.
  intros Hitems. unfold save_to_csv.
  destruct (negb (truthy (VList items))).
  - apply run_spec_log. now exists tt.
  - eapply run_spec_bind with (Q1 := returned);
      [ | intros ? _ | intros ? [? ?]; discriminate ].
    + apply run_spec_io; [ exact I | intros w; apply open_works ].
    + eapply run_spec_bind with (Q1 := returned);
        [ | intros ? _ | intros ? [? ?]; discriminate ].
      * eapply run_spec_try_finally with (Q1 := returned) (Q2 := returned).
        -- eapply run_spec_bind with (Q1 := returned);
             [ | intros ? _; now apply write_rows_returned
               | intros ? [? ?]; discriminate ].
           apply run_spec_io; [ exact I | intros w; apply write_row_works ].
        -- apply run_spec_io; [ exact I | intros w; apply close_works ].
        -- intros r rc Hr [u ->]. exact Hr.
      * apply run_spec_log. now exists tt.
Qed.

Lemma preview_lines_returned items : forall i,
  Forall is_movie items ->
  run_spec any_call returned (preview_lines World i items).
Proof.
  induction items as [|item rest IH]; intros i Hitems; cbn [preview_lines].
  - apply run_spec_ret. now exists tt.
  - inversion Hitems as [|? ? (id & n & p & y & t & ->) Hrest]; subst.
    ok_walk ltac:(apply IH; assumption); ok_side;
      apply run_spec_lift; eexists; reflexivity.
Qed.

Lemma preview_returned heading items :
  Forall is_movie items ->
  run_spec any_call returned (preview' heading items).
Proof.
  intros Hitems. unfold preview.
  destruct (truthy (VList items)); [ | apply run_spec_ret; now exists tt ].
  ok_walk ltac:(apply preview_lines_returned; now apply Forall_first_items);
    ok_side.
Qed.

Lemma parse_returned d items :
  dict_get "result" d = Some (VList items) ->
  Forall (fun item => well_formed_item item = true) items ->
  run_spec any_call movies_parsed (parse' (VDict d)).
Proof.
  intros Hresult Hitems s. exists []. unfold parse.
  rewrite (parse_library_data_unfold (VDict d) items (log s))
    by (cbn [py_get]; now rewrite Hresult).
  destruct (for_items_total items ([], []) Hitems) as [[w wl] Hfor].
  rewrite Hfor. cbn [fst snd events]. rewrite app_nil_r.
  split; [ reflexivity | split; [ constructor | ] ].
  exists (w, wl). split; [ reflexivity | ]. cbn [fst snd].
  pose proof (outputs_have_essential_data items w wl Hfor) as Hout.
  split; apply Forall_forall; intros movie Hin;
    (destruct (Hout movie) as (i & n & p & y & t & -> & _);
     [ apply in_or_app; auto | now exists i, n, p, y, t ]).
Qed.

(** Steps through a computation each step of which returns or raises an
    instance of [Exception]. *)
Ltac exception_walk leaf :=
  repeat first
    [ progress cbv zeta
    | leaf
    | apply run_spec_ret | apply run_spec_log | apply run_spec_io
    | (eapply run_spec_bind with (Q1 := at_worst_an_Exception);
       [ | intros ? _
         | let H := fresh in intros ? H ? [= <-]; exact (H _ eq_refl) ])
    | (eapply run_spec_try_finally
         with (Q1 := at_worst_an_Exception) (Q2 := at_worst_an_Exception);
       [ | | intros ? [?|?] ? ?; assumption ])
    | match goal with
      | |- run_spec _ _ (match ?x with _ => _ end) => destruct x
      end ].

Ltac exception_side :=
  try exact I; try (intros ? ?; discriminate); auto.

Lemma save_json_backup_returned data filename :
  run_spec any_call returned (save_json_backup' data filename).
Proof.
  unfold save_json_backup.
  eapply run_spec_try_except_Exception with (Q1 := at_worst_an_Exception).
  - exception_walk no_leaf; exception_side.
  - intros a _. now exists a.
  - intros e _ _. apply run_spec_log. now exists tt.
  - intros e He Hclass. rewrite (He e eq_refl) in Hclass. discriminate Hclass.
Qed.

Lemma add_session_files_fails_by_Exception zip_filename output_dir names :
  run_spec any_call at_worst_an_Exception
    (add_session_files' zip_filename output_dir names).
Proof.
  induction names as [|name rest IH]; cbn [add_session_files];
    exception_walk ltac:(exact IH); exception_side.
Qed.

Lemma create_backup_zip_returned output_dir timestamp :
  run_spec any_call returned (create_backup_zip' output_dir timestamp).
Proof.
  unfold create_backup_zip. cbv zeta.
  eapply run_spec_try_except_Exception with (Q1 := at_worst_an_Exception).
  - exception_walk ltac:(apply add_session_files_fails_by_Exception);
      exception_side.
  - intros a _. now exists a.
  - intros e _ _. ok_walk no_leaf; ok_side.
  - intros e He Hclass. rewrite (He e eq_refl) in Hclass. discriminate Hclass.
Qed.

(** A failed backup does not fail the export.  When the log-in returns a
    key, the request returns a library of records of the data model,
    and the directory, the CSV files, the report and the browser work,
    [main] returns 0, whatever becomes of the dump of the raw backup and
    of the archive, short of an exception outside [Exception]. *)
Theorem export_survives_a_failed_backup
    (s : state World) (key : string) (d : list (string * value))
    (items : list value) (w1 w2 : World) :
  extract_stremio_auth_key (VBool true) (world s) = (Ok (VStr key), w1) ->
  requests_post url (payload_of (VStr key)) headers w1 = (Ok (VDict d), w2) ->
  dict_get "result" d = Some (VList items) ->
  Forall (fun item => well_formed_item item = true) items ->
  fst (main' s) = Ok 0%Z.
Proof.
  intros Hlogin Hpost Hresult Hitems.
  unfold main, try_except_Exception.
  unfold bind at 1, logger_log at 1. cbn [world log events].
  unfold bind at 1, io at 1. cbn [world log events]. rewrite Hlogin.
  unfold bind at 1, lift at 1. cbn [py_slice].
  unfold bind at 1, logger_log at 1. cbn [world log events].
  unfold bind at 1, logger_log at 1. cbn [world log events].
  unfold bind at 1. rewrite make_api_request_unfold. cbn [world log events].
  rewrite Hpost. cbv zeta. cbn [rbind py_get]. rewrite Hresult.
  cbn [rbind py_len].
  match goal with
  | |- context [bind (logger_log World INFO ?msg ?args) ?k ?st] =>
      assert (Htail : run_spec any_call (fun r => r = Ok 0%Z)
                        (bind (logger_log World INFO msg args) k));
      [ | destruct (Htail st) as (_ & _ & _ & Hcode);
          destruct (bind (logger_log World INFO msg args) k st)
            as [[code|e] s4]; cbn [fst] in Hcode;
          [ exact Hcode | discriminate Hcode ] ]
  end.
  eapply run_spec_bind with (Q1 := returned);
    [ apply run_spec_log; now exists tt | intros _ _
    | intros ? [? ?]; discriminate ].
  eapply run_spec_bind with (Q1 := movies_parsed);
    [ now apply (parse_returned d items)
    | intros parsed (p & [= <-] & Hwatched & Hwatchlist)
    | intros ? (? & ? & _); discriminate ].
  ok_walk ltac:(idtac;
    match goal with
    | |- run_spec _ _ (save_to_csv _ _ _ _ _ _) =>
        apply save_to_csv_returned; assumption
    | |- run_spec _ _ (save_json_backup _ _ _ _) =>
        apply save_json_backup_returned
    | |- run_spec _ _ (create_backup_zip _ _ _ _ _ _ _ _) =>
        apply create_backup_zip_returned
    | |- run_spec _ _ (preview _ _ _) => apply preview_returned; assumption
    end); ok_side.
Qed.

End ExportSuccess.

End ExportMain.

Lemma csv_rows_follow_the_field_names_witness :
  exists s',
    LibraryExport.save_to_csv unit ExportExamples.unit_ok ExportExamples.row_ok
      ExportExamples.unit_ok ExportExamples.movies "output/watched.csv"
      ExportExamples.initial_state = (Py.Ok tt, s') /\
    LibraryExport.events s' =
    [LibraryExport.OpenForWriting "output/watched.csv";
     LibraryExport.WriteRow "output/watched.csv"
       [Py.VStr "imdbID"; Py.VStr "Title"; Py.VStr "year"; Py.VStr "type";
        Py.VStr "poster"];
     LibraryExport.WriteRow "output/watched.csv"
       [Py.VStr "tt001"; Py.VStr "A"; Py.VStr "2019"; Py.VStr "movie"; Py.VNone];
     LibraryExport.WriteRow "output/watched.csv"
       [Py.VStr "tt002"; Py.VStr "B"; Py.VStr "2021"; Py.VStr "series"; Py.VNone];
     LibraryExport.CloseFile "output/watched.csv"].
Proof.
  destruct (csv_rows_follow_the_field_names unit ExportExamples.unit_ok
              ExportExamples.row_ok ExportExamples.unit_ok
              ExportExamples.movies "output/watched.csv"
              ExportExamples.initial_state
              (fun w => ex_intro _ tt (ex_intro _ w eq_refl))
              (fun row w => ex_intro _ tt (ex_intro _ w eq_refl))
              (fun w => ex_intro _ tt (ex_intro _ w eq_refl))
              ltac:(repeat constructor))
    as (s' & Hrun & Hev & _).
  exists s'. split; [ exact Hrun | exact Hev ].
Defined.

Lemma csv_file_is_closed_on_every_path_witness :
  exists rows,
    LibraryExport.events
      (snd (LibraryExport.save_to_csv unit ExportExamples.unit_ok
              ExportExamples.row_fails ExportExamples.unit_ok
              ExportExamples.movies "output/watched.csv"
              ExportExamples.initial_state)) =
    LibraryExport.OpenForWriting "output/watched.csv" ::
    rows ++ [LibraryExport.CloseFile "output/watched.csv"].
Proof.
  destruct (csv_file_is_closed_on_every_path unit ExportExamples.unit_ok
              ExportExamples.row_fails ExportExamples.unit_ok
              ExportExamples.movies "output/watched.csv"
              ExportExamples.initial_state tt tt
              ltac:(discriminate) eq_refl)
    as (rows & Hev & _).
  exists rows. exact Hev.
Defined.

Lemma raw_backup_is_the_response_witness :
  List.In (LibraryExport.JsonDump ExportTrace.json_backup_path
             ExportExamples.library)
    (LibraryExport.events (snd (ExportExamples.run_with ExportExamples.dump_ok))) /\
  exists auth_key,
    List.In (LibraryExport.HttpPost LibraryExport.url
               (LibraryExport.payload_of auth_key) LibraryExport.headers
               (Py.Ok ExportExamples.library))
      (LibraryExport.events
         (snd (ExportExamples.run_with ExportExamples.dump_ok))).
Proof.
  unfold ExportExamples.run_with.
  match goal with
  | |- ?A /\ _ =>
      assert (Hin : A)
        by (vm_compute; repeat first [ left; reflexivity | right ])
  end.
  split; [ exact Hin | ].
  destruct (raw_backup_is_the_response unit ExportExamples.login_ok
              ExportExamples.post_ok ExportExamples.is_request_exception
              ExportExamples.is_json_error ExportExamples.unit_ok
              ExportExamples.clock ExportExamples.unit_ok
              ExportExamples.row_ok ExportExamples.unit_ok
              ExportExamples.html_ok ExportExamples.dump_ok
              ExportExamples.zip_open_fails ExportExamples.session_files
              ExportExamples.member_ok ExportExamples.backup_exists
              ExportExamples.unit_ok ExportExamples.unit_ok
              ExportExamples.initial_state ExportTrace.json_backup_path
              ExportExamples.library Hin (fun H => H))
    as (_ & Hpost & _).
  exact Hpost.
Defined.

Lemma export_survives_a_failed_backup_witness :
  fst (ExportExamples.run_with ExportExamples.dump_fails) = Py.Ok 0%Z.
Proof.
  apply (export_survives_a_failed_backup unit ExportExamples.login_ok
           ExportExamples.post_ok ExportExamples.is_request_exception
           ExportExamples.is_json_error ExportExamples.unit_ok
           ExportExamples.clock ExportExamples.unit_ok
           ExportExamples.row_ok ExportExamples.unit_ok
           ExportExamples.html_ok ExportExamples.dump_fails
           ExportExamples.zip_open_fails ExportExamples.session_files
           ExportExamples.member_ok ExportExamples.backup_exists
           ExportExamples.unit_ok ExportExamples.unit_ok
           (fun p w => ex_intro _ tt eq_refl)
           (fun p w => ex_intro _ tt eq_refl)
           (fun p row w => ex_intro _ tt eq_refl)
           (fun p w => ex_intro _ tt eq_refl)
           (fun a b p w => ex_intro _ true eq_refl)
           (fun p w => ex_intro _ tt eq_refl)
           ltac:(intros p data w e [= <-]; reflexivity)
           ltac:(intros p w e [= <-]; reflexivity)
           ltac:(intros dir pattern w e H; discriminate H)
           ltac:(intros archive file arcname w e H; discriminate H)
           ltac:(intros p w e H; discriminate H)
           ExportExamples.initial_state "0123456789abcdefghijklmnop"
           [("result", Py.VList [MovieSpec.record_a; MovieSpec.record_b;
                                 MovieSpec.record_c])]
           [MovieSpec.record_a; MovieSpec.record_b; MovieSpec.record_c]
           tt tt eq_refl eq_refl eq_refl
           ltac:(repeat constructor)).
Defined.
